(** * gt-tools auto-rigger framework: Proxy, Module and Project

    A shallow embedding of [gt/tools/auto_rigger/rig_framework.py] and
    [gt/tools/auto_rigger/rig_module_spine.py].

    - Python values are the inductive type [pyval]; a [dict] is an
      association list in insertion order (Python dictionaries keep it).
    - Methods that mutate [self] take the object and return the new one.
    - Logging, the supply of generated UUIDs and raised exceptions are
      threaded through the monad [Py].  An object in the hands of a method
      that raises is not followed further.
    - A Transform or a dictionary held by an object is a value: two
      attributes that share one Python object are not told apart from two
      that hold equal ones.
    - Calls into the host application (Maya) made by the project level
      build functions are recorded as a trace, see [Module Build]. *)

From Stdlib Require Import ZArith String Ascii List Bool Floats Lia.
From Stdlib Require Import DecimalString.
Import ListNotations.

Local Open Scope string_scope.
Local Open Scope list_scope.

Set Implicit Arguments.
Set Warnings "-register-all".

(** ** Value objects of [gt.utils] *)

Record Vector3 := { vx : float; vy : float; vz : float }.

(** Modelled from the spec: [gt.utils.transform_utils] is not among the
    sources.  "Transform: 3 vectors (position, rotation, scale), each
    (x,y,z) floats." *)
Record Transform := {
  position : Vector3;
  rotation : Vector3;
  scale : Vector3
}.

(** Modelled from the spec: [gt.utils.curve_utils] is not among the
    sources.  "a named, shape-describing value used to render the
    placeholder guide".  A shape is kept as its name and its points. *)
Record CurveShape := {
  shape_name : string;
  shape_points : list Vector3
}.

Record Curve := {
  curve_name : option string;
  curve_shapes : list CurveShape
}.

(** ** Python values *)

Inductive pyval : Type :=
| PyNone
| PyBool (b : bool)
| PyInt (z : Z)
| PyFloat (f : float)
| PyStr (s : string)
| PyList (l : list pyval)
| PyTuple (l : list pyval)
| PyDict (d : list (string * pyval))
| PyTransform (t : Transform)
| PyCurve (c : Curve).

Definition dict := list (string * pyval).

(** [bool(v)]: the truth value Python gives to [v] in [if v:]. *)
Definition truthy (v : pyval) : bool :=
  match v with
  | PyNone => false
  | PyBool b => b
  | PyInt z => negb (z =? 0)%Z
  | PyFloat f => negb (PrimFloat.eqb f 0%float)
  | PyStr s => negb (s =? "")
  | PyList l => negb (Nat.eqb (length l) 0)
  | PyTuple l => negb (Nat.eqb (length l) 0)
  | PyDict d => negb (Nat.eqb (length d) 0)
  | PyTransform _ => true
  | PyCurve _ => true
  end.

Definition is_str (v : pyval) : bool :=
  match v with PyStr _ => true | _ => false end.

Definition is_dict (v : pyval) : bool :=
  match v with PyDict _ => true | _ => false end.

(** [isinstance(v, bool)] *)
Definition is_bool (v : pyval) : bool :=
  match v with PyBool _ => true | _ => false end.

(** [isinstance(v, (float, int))]; [bool] is a subclass of [int]. *)
Definition is_float_or_int (v : pyval) : bool :=
  match v with PyInt _ | PyFloat _ | PyBool _ => true | _ => false end.

Definition is_Transform (v : pyval) : bool :=
  match v with PyTransform _ => true | _ => false end.

Definition is_Curve (v : pyval) : bool :=
  match v with PyCurve _ => true | _ => false end.

Definition dquote : string := String (ascii_of_nat 34) EmptyString.

(** [type(v).__name__] *)
Definition type_name (v : pyval) : string :=
  match v with
  | PyNone => "NoneType"
  | PyBool _ => "bool"
  | PyInt _ => "int"
  | PyFloat _ => "float"
  | PyStr _ => "str"
  | PyList _ => "list"
  | PyTuple _ => "tuple"
  | PyDict _ => "dict"
  | PyTransform _ => "Transform"
  | PyCurve _ => "Curve"
  end.

(** [str(type(v))] *)
Definition type_repr (v : pyval) : string :=
  match v with
  | PyTransform _ => "<class 'gt.utils.transform_utils.Transform'>"
  | PyCurve _ => "<class 'gt.utils.curve_utils.Curve'>"
  | _ => "<class '" ++ type_name v ++ "'>"
  end.

(** ** Dictionaries in insertion order *)

(** [d.get(k)], [None] when the key is absent. *)
Fixpoint dict_get (k : string) (d : dict) : pyval :=
  match d with
  | [] => PyNone
  | (k', v) :: rest => if k =? k' then v else dict_get k rest
  end.

(** [k in d] *)
Fixpoint dict_mem (k : string) (d : dict) : bool :=
  match d with
  | [] => false
  | (k', _) :: rest => if k =? k' then true else dict_mem k rest
  end.

(** [d[k] = v]: an existing key keeps its place, a new key goes last. *)
Fixpoint dict_set (k : string) (v : pyval) (d : dict) : dict :=
  match d with
  | [] => [(k, v)]
  | (k', v') :: rest =>
      if k =? k' then (k', v) :: rest else (k', v') :: dict_set k v rest
  end.

(** ** Effects: log records, generated UUIDs, exceptions *)

Inductive LogLevel := DEBUG | WARNING.

Record World := {
  uuid_count : nat;                       (* UUIDs generated so far *)
  log : list (LogLevel * string)          (* calls made to the logger *)
}.

Inductive PyExc :=
| AttributeError (msg : string)
| TypeError (msg : string)
| RuntimeError (msg : string).

Inductive Outcome (A : Type) : Type :=
| Return (a : A)
| Raised (e : PyExc).

Arguments Return {A} a.
Arguments Raised {A} e.

(** A computation over a state [S] that returns or raises. *)
Definition Eff (S A : Type) : Type := S -> Outcome A * S.

Definition ret {S A} (a : A) : Eff S A := fun w => (Return a, w).

Definition bind {S A B} (m : Eff S A) (f : A -> Eff S B) : Eff S B :=
  fun w =>
    match m w with
    | (Return a, w') => f a w'
    | (Raised e, w') => (Raised e, w')
    end.

Definition raise {S A} (e : PyExc) : Eff S A := fun w => (Raised e, w).

(** [try: body / except Exception as e: handler(e)] *)
Definition try_except {S A} (body : Eff S A) (handler : PyExc -> Eff S A)
  : Eff S A :=
  fun w =>
    match body w with
    | (Return a, w') => (Return a, w')
    | (Raised e, w') => handler e w'
    end.

(** [try: body / finally: final]: [final] runs on both exits; what it
    raises replaces the outcome of [body]. *)
Definition try_finally {S A} (body : Eff S A) (final : Eff S unit)
  : Eff S A :=
  fun w =>
    match body w with
    | (o, w') =>
        match final w' with
        | (Return _, w'') => (o, w'')
        | (Raised e, w'') => (Raised e, w'')
        end
    end.

(** The effects of the data model: the log and the UUID supply. *)
Definition Py (A : Type) : Type := Eff World A.

Declare Scope py_scope.
Delimit Scope py_scope with py.
Notation "x <- m ;; k" := (bind m (fun x => k))
  (at level 100, m at next level, right associativity) : py_scope.
Notation "m ;;; k" := (bind m (fun _ => k))
  (at level 100, right associativity) : py_scope.
Local Open Scope py_scope.

Definition logger (lvl : LogLevel) (msg : string) : Py unit :=
  fun w => (Return tt, {| uuid_count := uuid_count w;
                          log := log w ++ [(lvl, msg)] |}).

(** The value a run returns, if it returns. *)
Definition returned_value {S A} (r : Outcome A * S) : option A :=
  match r with
  | (Return a, _) => Some a
  | (Raised _, _) => None
  end.

(** [if c: body] on an object passed along. *)
Definition when {S A} (c : bool) (body : A -> Eff S A) (a : A) : Eff S A :=
  if c then body a else ret a.

(** [v.get(k)]: only a dictionary has the attribute. *)
Definition py_get (v : pyval) (k : string) : Py pyval :=
  match v with
  | PyDict d => ret (dict_get k d)
  | _ =>
      raise (AttributeError
               ("'" ++ type_name v ++ "' object has no attribute 'get'"))
  end.

(** [len(v)] *)
Definition py_len (v : pyval) : Py nat :=
  match v with
  | PyStr s => ret (String.length s)
  | PyList l => ret (length l)
  | PyTuple l => ret (length l)
  | PyDict d => ret (length d)
  | _ =>
      raise (TypeError ("object of type '" ++ type_name v ++ "' has no len()"))
  end.

(** ** What the sources import and do not contain *)

Class Externals := {
  (** [generate_uuid(remove_dashes=True)]: the string returned by the
      n-th call. *)
  uuid4_hex : nat -> string;
  (** [gt.utils.uuid_utils.is_uuid_valid] *)
  is_uuid_valid : string -> bool;
  (** [gt.utils.uuid_utils.is_short_uuid_valid] *)
  is_short_uuid_valid : string -> bool;
  (** [RiggerConstants.PROXY_META_PARENT] *)
  PROXY_META_PARENT : string;
  (** [RiggerConstants.PROXY_META_TYPE] *)
  PROXY_META_TYPE : string;
  (** [ColorConstants.RigProxy.FOLLOWER] *)
  FOLLOWER : pyval;
  (** [get_curve('_proxy_joint')] *)
  proxy_joint_curve : Curve
}.

(** Modelled from the spec: [gt.utils.uuid_utils] is not among the sources.
    "generate_uuid() -> string produces a universally-unique, dash-free
    string. is_uuid_valid(s) / is_short_uuid_valid(s) validate format":
    what the generator returns has the format the validator accepts. *)
Class UuidLaws `{Externals} : Prop := {
  generated_uuid_valid : forall n, is_uuid_valid (uuid4_hex n) = true;
  generated_uuid_nonempty : forall n, uuid4_hex n <> ""
}.

Definition generate_uuid `{Externals} : Py string :=
  fun w => (Return (uuid4_hex (uuid_count w)),
            {| uuid_count := S (uuid_count w); log := log w |}).

(** ** Transform and Curve operations *)

Module TransformOps.

Definition zero3 : Vector3 := {| vx := 0; vy := 0; vz := 0 |}.
Definition one3 : Vector3 := {| vx := 1; vy := 1; vz := 1 |}.

(** [Transform()]: "Default is T:(0,0,0) R:(0,0,0) and S:(1,1,1)" *)
Definition default : Transform :=
  {| position := zero3; rotation := zero3; scale := one3 |}.

Definition vec_as_list (v : Vector3) : pyval :=
  PyList [PyFloat (vx v); PyFloat (vy v); PyFloat (vz v)].

Definition vec_of_list (v : pyval) : option Vector3 :=
  match v with
  | PyList [PyFloat x; PyFloat y; PyFloat z] =>
      Some {| vx := x; vy := y; vz := z |}
  | _ => None
  end.

(** Modelled from the spec: [Transform.get_transform_as_dict] is not among
    the sources.  "Serializes to/from a 3-item ordered structure",
    [[pos3, rot3, scale3]]. *)
Definition get_transform_as_dict (t : Transform) : pyval :=
  PyList [vec_as_list (position t); vec_as_list (rotation t);
          vec_as_list (scale t)].

(** Modelled from the spec: [Transform.set_transform_from_dict] is not
    among the sources.  The three vectors are taken from a 3-item
    structure; anything else leaves the transform as it is. *)
Definition set_transform_from_dict (transform_dict : pyval) (t : Transform)
  : Transform :=
  match transform_dict with
  | PyList [p; r; s] =>
      match vec_of_list p, vec_of_list r, vec_of_list s with
      | Some p', Some r', Some s' =>
          {| position := p'; rotation := r'; scale := s' |}
      | _, _, _ => t
      end
  | _ => t
  end.

(** Modelled from the spec: [Transform.set_position(xyz=...)] is not among
    the sources. *)
Definition set_position (xyz : Vector3) (t : Transform) : Transform :=
  {| position := xyz; rotation := rotation t; scale := scale t |}.

End TransformOps.

Module CurveOps.

(** [Curve.set_name] *)
Definition set_name (name : string) (c : Curve) : Curve :=
  {| curve_name := Some name; curve_shapes := curve_shapes c |}.

(** [Curve.get_name] *)
Definition get_name (c : Curve) : pyval :=
  match curve_name c with Some n => PyStr n | None => PyNone end.

(** Modelled from the spec: [Curve.is_curve_valid] is not among the
    sources; [test_curve_is_valid_invalid] has a curve without shapes
    invalid. *)
Definition is_curve_valid (c : Curve) : bool :=
  negb (Nat.eqb (length (curve_shapes c)) 0).

End CurveOps.

(** ** Proxy *)

Module Proxy.

Record t := {
  name : string;
  transform : option Transform;
  offset_transform : option Transform;
  curve : Curve;
  uuid : string;
  parent_uuid : pyval;
  locator_scale : pyval;
  attr_dict : dict;
  metadata : option dict
}.

Definition with_name (v : string) (p : t) : t :=
  {| name := v; transform := transform p;
     offset_transform := offset_transform p; curve := curve p;
     uuid := uuid p; parent_uuid := parent_uuid p;
     locator_scale := locator_scale p; attr_dict := attr_dict p;
     metadata := metadata p |}.

Definition with_transform (v : option Transform) (p : t) : t :=
  {| name := name p; transform := v;
     offset_transform := offset_transform p; curve := curve p;
     uuid := uuid p; parent_uuid := parent_uuid p;
     locator_scale := locator_scale p; attr_dict := attr_dict p;
     metadata := metadata p |}.

Definition with_offset_transform (v : option Transform) (p : t) : t :=
  {| name := name p; transform := transform p;
     offset_transform := v; curve := curve p;
     uuid := uuid p; parent_uuid := parent_uuid p;
     locator_scale := locator_scale p; attr_dict := attr_dict p;
     metadata := metadata p |}.

Definition with_curve (v : Curve) (p : t) : t :=
  {| name := name p; transform := transform p;
     offset_transform := offset_transform p; curve := v;
     uuid := uuid p; parent_uuid := parent_uuid p;
     locator_scale := locator_scale p; attr_dict := attr_dict p;
     metadata := metadata p |}.

Definition with_uuid (v : string) (p : t) : t :=
  {| name := name p; transform := transform p;
     offset_transform := offset_transform p; curve := curve p;
     uuid := v; parent_uuid := parent_uuid p;
     locator_scale := locator_scale p; attr_dict := attr_dict p;
     metadata := metadata p |}.

Definition with_parent_uuid (v : pyval) (p : t) : t :=
  {| name := name p; transform := transform p;
     offset_transform := offset_transform p; curve := curve p;
     uuid := uuid p; parent_uuid := v;
     locator_scale := locator_scale p; attr_dict := attr_dict p;
     metadata := metadata p |}.

Definition with_locator_scale (v : pyval) (p : t) : t :=
  {| name := name p; transform := transform p;
     offset_transform := offset_transform p; curve := curve p;
     uuid := uuid p; parent_uuid := parent_uuid p;
     locator_scale := v; attr_dict := attr_dict p;
     metadata := metadata p |}.

Definition with_attr_dict (v : dict) (p : t) : t :=
  {| name := name p; transform := transform p;
     offset_transform := offset_transform p; curve := curve p;
     uuid := uuid p; parent_uuid := parent_uuid p;
     locator_scale := locator_scale p; attr_dict := v;
     metadata := metadata p |}.

Definition with_metadata (v : option dict) (p : t) : t :=
  {| name := name p; transform := transform p;
     offset_transform := offset_transform p; curve := curve p;
     uuid := uuid p; parent_uuid := parent_uuid p;
     locator_scale := locator_scale p; attr_dict := attr_dict p;
     metadata := v |}.

(** What a method hands back: [return self] or a bare [return]. *)
Inductive returned := ReturnedSelf | ReturnedNone.

Section WithExternals.
Context `{Externals}.

(** *** Setters *)

Definition set_name (name : pyval) (self : t) : Py t :=
  match name with
  | PyStr s =>
      ret (with_name s (with_curve (CurveOps.set_name s (curve self)) self))
  | _ =>
      logger WARNING ("Unable to set new name. Expected string but got "
                      ++ dquote ++ type_repr name ++ dquote) ;;;
      ret self
  end.

Definition transform_warning (transform : pyval) : string :=
  "Unable to set proxy transform. Must be a " ++ dquote ++ "Transform"
  ++ dquote ++ " object, but got " ++ dquote ++ type_repr transform
  ++ dquote ++ ".".

Definition set_transform (transform : pyval) (self : t) : Py t :=
  match transform with
  | PyTransform tr => ret (with_transform (Some tr) self)
  | _ => logger WARNING (transform_warning transform) ;;; ret self
  end.

Definition set_offset_transform (transform : pyval) (self : t) : Py t :=
  match transform with
  | PyTransform tr => ret (with_offset_transform (Some tr) self)
  | _ => logger WARNING (transform_warning transform) ;;; ret self
  end.

Definition _initialize_transform (self : t) : t :=
  match transform self with
  | Some _ => self
  | None => with_transform (Some TransformOps.default) self
  end.

Definition _initialize_offset_transform (self : t) : t :=
  match offset_transform self with
  | Some _ => self
  | None => with_offset_transform (Some TransformOps.default) self
  end.

Definition map_transform (f : Transform -> Transform) (self : t) : t :=
  match transform self with
  | Some tr => with_transform (Some (f tr)) self
  | None => self
  end.

Definition map_offset_transform (f : Transform -> Transform) (self : t) : t :=
  match offset_transform self with
  | Some tr => with_offset_transform (Some (f tr)) self
  | None => self
  end.

(** [set_position(xyz=...)] *)
Definition set_position (xyz : Vector3) (self : t) : t :=
  map_transform (TransformOps.set_position xyz) (_initialize_transform self).

(** [set_offset_position(xyz=...)] *)
Definition set_offset_position (xyz : Vector3) (self : t) : t :=
  map_offset_transform (TransformOps.set_position xyz)
    (_initialize_offset_transform self).

(** [set_initial_position(xyz=...)] *)
Definition set_initial_position (xyz : Vector3) (self : t) : t :=
  set_offset_position xyz (set_position xyz self).

Definition set_curve (curve : pyval) (inherit_curve_name : bool) (self : t)
  : Py t :=
  match curve with
  | PyCurve c =>
      if negb (CurveOps.is_curve_valid c) then
        logger DEBUG
          "Unable to set proxy curve. Curve object failed validation." ;;;
        ret self
      else if inherit_curve_name then
        self' <- set_name (CurveOps.get_name c) self ;;
        ret (with_curve c self')
      else
        ret (with_curve (CurveOps.set_name (name self) c) self)
  | _ =>
      logger DEBUG
        "Unable to set proxy curve. Invalid input. Must be a valid Curve object." ;;;
      ret self
  end.

(** The guard logs and falls through to the assignment. *)
Definition set_locator_scale (scale : pyval) (self : t) : Py t :=
  (if negb (is_float_or_int scale)
   then logger DEBUG "Unable to set locator scale. Invalid input."
   else ret tt) ;;;
  ret (with_locator_scale scale self).

Definition set_attr_dict (attr_dict : pyval) (self : t) : Py t :=
  match attr_dict with
  | PyDict d => ret (with_attr_dict d self)
  | _ =>
      logger WARNING
        ("Unable to set attribute dictionary. Expected a dictionary, but got: "
         ++ dquote ++ type_repr attr_dict ++ dquote) ;;;
      ret self
  end.

Definition add_to_attr_dict (attr : string) (value : pyval) (self : t) : t :=
  with_attr_dict (dict_set attr value (attr_dict self)) self.

Definition set_metadata_dict (metadata : pyval) (self : t) : Py t :=
  match metadata with
  | PyDict d => ret (with_metadata (Some d) self)
  | _ =>
      logger WARNING
        ("Unable to set proxy metadata. Expected a dictionary, but got: "
         ++ dquote ++ type_repr metadata ++ dquote) ;;;
      ret self
  end.

(** [if not self.metadata: self.metadata = {}] *)
Definition metadata_or_empty (self : t) : dict :=
  match metadata self with
  | Some (e :: d) => e :: d
  | _ => []
  end.

Definition add_to_metadata (key : string) (value : pyval) (self : t) : t :=
  with_metadata (Some (dict_set key value (metadata_or_empty self))) self.

(** The argument of [add_meta_parent] and [set_parent_uuid_from_proxy]:
    a Python value or a Proxy object. *)
Inductive proxy_or_val := AVal (v : pyval) | AProxy (p : t).

Definition add_meta_parent (line_parent : proxy_or_val) (self : t) : t :=
  let md := metadata_or_empty self in
  match line_parent with
  | AVal (PyStr s) =>
      if is_uuid_valid s
      then with_metadata (Some (dict_set PROXY_META_PARENT (PyStr s) md)) self
      else with_metadata (Some md) self
  | AVal _ => with_metadata (Some md) self
  | AProxy p =>
      with_metadata (Some (dict_set PROXY_META_PARENT (PyStr (uuid p)) md))
        self
  end.

Definition add_color (rgb_color : pyval) (self : t) : Py t :=
  let items :=
    match rgb_color with
    | PyList l => Some l
    | PyTuple l => Some l
    | _ => None
    end in
  match items with
  | Some (r :: g :: b :: rest) =>
      if forallb is_float_or_int (r :: g :: b :: rest) then
        ret (add_to_attr_dict "colorDefault" (PyList [r; g; b])
               (add_to_attr_dict "autoColor" (PyBool false) self))
      else
        logger DEBUG
          "Unable to set color. Input must contain only numeric values." ;;;
        ret self
  | _ =>
      logger DEBUG
        "Unable to set color. Input must be a tuple or a list with at least 3 elements (RGB)." ;;;
      ret self
  end.

Definition set_uuid (uuid : pyval) (self : t) : Py t :=
  let error_message := "Unable to set proxy UUID. Invalid UUID input." in
  match uuid with
  | PyStr s =>
      if negb (truthy uuid) then logger WARNING error_message ;;; ret self
      else if is_uuid_valid s || is_short_uuid_valid s
      then ret (with_uuid s self)
      else logger WARNING error_message ;;; ret self
  | _ => logger WARNING error_message ;;; ret self
  end.

Definition set_parent_uuid (uuid : pyval) (self : t) : Py t :=
  let error_message :=
    "Unable to set proxy parent UUID. Invalid UUID input." in
  match uuid with
  | PyStr s =>
      if negb (truthy uuid) then logger WARNING error_message ;;; ret self
      else if is_uuid_valid s || is_short_uuid_valid s
      then ret (with_parent_uuid (PyStr s) self)
      else logger WARNING error_message ;;; ret self
  | _ => logger WARNING error_message ;;; ret self
  end.

Definition get_uuid (self : t) : string := uuid self.

Definition set_parent_uuid_from_proxy (parent_proxy : proxy_or_val)
    (self : t) : Py t :=
  match parent_proxy with
  | AProxy p => set_parent_uuid (PyStr (get_uuid p)) self
  | AVal _ =>
      logger WARNING
        "Unable to set proxy parent UUID. Invalid proxy input." ;;;
      ret self
  end.

Definition clear_parent_uuid (self : t) : t := with_parent_uuid PyNone self.

Definition set_meta_type (value : pyval) (self : t) : t :=
  add_to_metadata PROXY_META_TYPE value self.

(** *** Getters *)

Definition get_metadata (self : t) : pyval :=
  match metadata self with Some d => PyDict d | None => PyNone end.

Definition get_meta_parent_uuid (self : t) : pyval :=
  match metadata self with
  | Some (e :: d) => dict_get PROXY_META_PARENT (e :: d)
  | _ => PyNone
  end.

Definition get_parent_uuid (self : t) : pyval := parent_uuid self.
Definition get_locator_scale (self : t) : pyval := locator_scale self.
Definition get_attr_dict (self : t) : dict := attr_dict self.

Definition get_proxy_as_dict (include_uuid include_transform_data
    include_offset_data : bool) (self : t) : dict :=
  let proxy_data :=
    [("name", PyStr (name self));
     ("parent", get_parent_uuid self);
     ("locatorScale", locator_scale self)] in
  let proxy_data :=
    match transform self with
    | Some tr =>
        if include_transform_data
        then dict_set "transform" (TransformOps.get_transform_as_dict tr)
               proxy_data
        else proxy_data
    | None => proxy_data
    end in
  let proxy_data :=
    match offset_transform self with
    | Some tr =>
        if include_offset_data
        then dict_set "offsetTransform"
               (TransformOps.get_transform_as_dict tr) proxy_data
        else proxy_data
    | None => proxy_data
    end in
  let proxy_data :=
    if truthy (PyDict (get_attr_dict self))
    then dict_set "attributes" (PyDict (get_attr_dict self)) proxy_data
    else proxy_data in
  let proxy_data :=
    if truthy (get_metadata self)
    then dict_set "metadata" (get_metadata self) proxy_data
    else proxy_data in
  if include_uuid && truthy (PyStr (get_uuid self))
  then dict_set "uuid" (PyStr (get_uuid self)) proxy_data
  else proxy_data.

(** *** Validation *)

Definition is_valid (self : t) : Py bool :=
  if negb (truthy (PyStr (name self))) then
    logger WARNING "Invalid proxy object. Missing name." ;;;
    ret false
  else if negb (truthy (PyCurve (curve self))) then
    logger WARNING "Invalid proxy object. Missing curve." ;;;
    ret false
  else ret true.

(** *** Reading a proxy description *)

(** [value and len(value) == 3] *)
Definition is_three_items (value : pyval) : Py bool :=
  if truthy value then (n <- py_len value ;; ret (Nat.eqb n 3))
  else ret false.

Definition read_data_from_dict (proxy_dict : pyval) (self : t)
  : Py (t * returned) :=
  if truthy proxy_dict && negb (is_dict proxy_dict) then
    logger DEBUG "Unable o read data from dict. Input must be a dictionary." ;;;
    ret (self, ReturnedNone)
  else
    _name <- py_get proxy_dict "name" ;;
    self <- when (truthy _name) (set_name _name) self ;;
    _parent <- py_get proxy_dict "parent" ;;
    self <- when (truthy _parent) (set_parent_uuid _parent) self ;;
    _loc_scale <- py_get proxy_dict "locatorScale" ;;
    self <- when (truthy _loc_scale) (set_locator_scale _loc_scale) self ;;
    transform <- py_get proxy_dict "transform" ;;
    three <- is_three_items transform ;;
    self <- when three
              (fun self =>
                 ret (map_transform
                        (TransformOps.set_transform_from_dict transform)
                        (_initialize_transform self))) self ;;
    offset_transform <- py_get proxy_dict "offsetTransform" ;;
    three <- is_three_items offset_transform ;;
    self <- when three
              (fun self =>
                 ret (map_offset_transform
                        (TransformOps.set_transform_from_dict transform)
                        (_initialize_offset_transform self))) self ;;
    attributes <- py_get proxy_dict "attributes" ;;
    self <- when (truthy attributes) (set_attr_dict attributes) self ;;
    metadata <- py_get proxy_dict "metadata" ;;
    self <- when (truthy metadata) (set_metadata_dict metadata) self ;;
    _uuid <- py_get proxy_dict "uuid" ;;
    self <- when (truthy _uuid) (set_uuid _uuid) self ;;
    ret (self, ReturnedSelf).

(** *** Construction *)

Definition __init__ (name transform offset_transform curve uuid parent_uuid
    locator_scale attr_dict metadata : pyval) : Py t :=
  new_uuid <- generate_uuid ;;
  let self :=
    {| Proxy.name := "proxy";
       Proxy.transform := None;
       Proxy.offset_transform := None;
       Proxy.curve := CurveOps.set_name "proxy" proxy_joint_curve;
       Proxy.uuid := new_uuid;
       Proxy.parent_uuid := PyNone;
       Proxy.locator_scale := PyInt 1;
       Proxy.attr_dict := [];
       Proxy.metadata := None |} in
  self <- when (truthy name) (set_name name) self ;;
  self <- when (truthy transform) (set_transform transform) self ;;
  self <- when (truthy offset_transform)
            (set_offset_transform offset_transform) self ;;
  self <- when (truthy curve) (set_curve curve false) self ;;
  self <- when (truthy uuid) (set_uuid uuid) self ;;
  self <- when (truthy parent_uuid) (set_parent_uuid parent_uuid) self ;;
  self <- when (truthy locator_scale) (set_locator_scale locator_scale)
            self ;;
  self <- when (truthy attr_dict) (set_attr_dict attr_dict) self ;;
  when (truthy metadata) (set_metadata_dict metadata) self.

(** [Proxy()] *)
Definition new : Py t :=
  __init__ PyNone PyNone PyNone PyNone PyNone PyNone PyNone PyNone PyNone.

(** [Proxy(name=...)] *)
Definition named (name : string) : Py t :=
  __init__ (PyStr name) PyNone PyNone PyNone PyNone PyNone PyNone PyNone
    PyNone.

End WithExternals.

End Proxy.

(** Modelled from the spec: [gt.utils.string_utils.remove_prefix] is not
    among the sources; "modules keyed by their class name (with a
    conventional prefix stripped/re-added)". *)
Definition remove_prefix (input_string prefix : string) : string :=
  if String.prefix prefix input_string
  then substring (String.length prefix)
         (String.length input_string - String.length prefix) input_string
  else input_string.

(** ** ModuleGeneric *)

Module ModuleGeneric.

Import Proxy (returned, ReturnedSelf, ReturnedNone).

Record t := {
  name : option string;
  prefix : option string;
  proxies : list Proxy.t;
  parent_uuid : pyval;
  metadata : option dict;
  active : bool
}.

Definition with_name (v : option string) (m : t) : t :=
  {| name := v; prefix := prefix m; proxies := proxies m;
     parent_uuid := parent_uuid m; metadata := metadata m;
     active := active m |}.

Definition with_prefix (v : option string) (m : t) : t :=
  {| name := name m; prefix := v; proxies := proxies m;
     parent_uuid := parent_uuid m; metadata := metadata m;
     active := active m |}.

Definition with_proxies (v : list Proxy.t) (m : t) : t :=
  {| name := name m; prefix := prefix m; proxies := v;
     parent_uuid := parent_uuid m; metadata := metadata m;
     active := active m |}.

Definition with_parent_uuid (v : pyval) (m : t) : t :=
  {| name := name m; prefix := prefix m; proxies := proxies m;
     parent_uuid := v; metadata := metadata m; active := active m |}.

Definition with_metadata (v : option dict) (m : t) : t :=
  {| name := name m; prefix := prefix m; proxies := proxies m;
     parent_uuid := parent_uuid m; metadata := v; active := active m |}.

Definition with_active (v : bool) (m : t) : t :=
  {| name := name m; prefix := prefix m; proxies := proxies m;
     parent_uuid := parent_uuid m; metadata := metadata m; active := v |}.

Section WithExternals.
Context `{Externals}.

Definition set_name (name : pyval) (self : t) : Py t :=
  match name with
  | PyStr s => ret (with_name (Some s) self)
  | _ =>
      logger WARNING ("Unable to set name. Expected string but got "
                      ++ dquote ++ type_repr name ++ dquote) ;;;
      ret self
  end.

Definition set_prefix (prefix : pyval) (self : t) : Py t :=
  match prefix with
  | PyStr (String c s) => ret (with_prefix (Some (String c s)) self)
  | _ =>
      logger WARNING ("Unable to set prefix. Expected string but got "
                      ++ dquote ++ type_repr prefix ++ dquote) ;;;
      ret self
  end.

(** [set_proxies] for an argument that is a list of Proxy objects. *)
Definition set_proxies (proxy_list : list Proxy.t) (self : t) : Py t :=
  match proxy_list with
  | [] =>
      logger WARNING
        ("Unable to set new list of proxies. Expected list of proxies but got "
         ++ dquote ++ "[]" ++ dquote) ;;;
      ret self
  | _ => ret (with_proxies proxy_list self)
  end.

(** [add_to_proxies] for an argument that is a list of Proxy objects; a
    single Proxy is the list of one. *)
Definition add_to_proxies (proxy : list Proxy.t) (self : t) : Py t :=
  match proxy with
  | [] =>
      logger DEBUG
        ("Unable to add proxy to module. Must be of the type "
         ++ dquote ++ "Proxy" ++ dquote
         ++ " or a list containing only Proxy elements.") ;;;
      ret self
  | _ => ret (with_proxies (proxies self ++ proxy) self)
  end.

Definition set_metadata_dict (metadata : pyval) (self : t) : Py t :=
  match metadata with
  | PyDict d => ret (with_metadata (Some d) self)
  | _ =>
      logger WARNING
        ("Unable to set module metadata. Expected a dictionary, but got: "
         ++ dquote ++ type_repr metadata ++ dquote) ;;;
      ret self
  end.

Definition set_active_state (is_active : pyval) (self : t) : Py t :=
  match is_active with
  | PyBool b => ret (with_active b self)
  | _ =>
      logger WARNING
        ("Unable to set active state. Expected a boolean, but got: "
         ++ dquote ++ type_repr is_active ++ dquote) ;;;
      ret self
  end.

Definition set_parent_uuid (uuid : pyval) (self : t) : Py t :=
  let error_message :=
    "Unable to set proxy parent UUID. Invalid UUID input." in
  match uuid with
  | PyStr s =>
      if negb (truthy uuid) then logger WARNING error_message ;;; ret self
      else if is_uuid_valid s || is_short_uuid_valid s
      then ret (with_parent_uuid (PyStr s) self)
      else logger WARNING error_message ;;; ret self
  | _ => logger WARNING error_message ;;; ret self
  end.

Definition clear_parent_uuid (self : t) : t := with_parent_uuid PyNone self.

(** The body of the loop of [read_proxies_from_dict]. *)
Definition read_proxy_entry (entry : string * pyval) : Py Proxy.t :=
  let '(uuid, description) := entry in
  _proxy <- Proxy.new ;;
  _proxy <- Proxy.set_uuid (PyStr uuid) _proxy ;;
  r <- Proxy.read_data_from_dict description _proxy ;;
  ret (fst r).

(** [for uuid, description in proxy_dict.items(): ... append] *)
Fixpoint read_proxy_entries (entries : dict) (acc : list Proxy.t)
  : Py (list Proxy.t) :=
  match entries with
  | [] => ret acc
  | entry :: rest =>
      _proxy <- read_proxy_entry entry ;;
      read_proxy_entries rest (acc ++ [_proxy])
  end.

Definition read_proxies_from_dict (proxy_dict : pyval) (self : t) : Py t :=
  match proxy_dict with
  | PyDict (e :: d) =>
      ps <- read_proxy_entries (e :: d) [] ;;
      ret (with_proxies ps self)
  | _ =>
      logger DEBUG
        "Unable to read proxies from dictionary. Input must be a dictionary." ;;;
      ret self
  end.

Definition read_data_from_dict (module_dict : pyval) (self : t)
  : Py (t * returned) :=
  if truthy module_dict && negb (is_dict module_dict) then
    logger DEBUG "Unable o read data from dict. Input must be a dictionary." ;;;
    ret (self, ReturnedNone)
  else
    _name <- py_get module_dict "name" ;;
    self <- when (truthy _name) (set_name _name) self ;;
    _prefix <- py_get module_dict "prefix" ;;
    self <- when (truthy _prefix) (set_prefix _prefix) self ;;
    _parent <- py_get module_dict "parent" ;;
    self <- when (truthy _parent) (set_parent_uuid _parent) self ;;
    _proxies <- py_get module_dict "proxies" ;;
    self <- when (truthy _proxies && is_dict _proxies)
              (read_proxies_from_dict _proxies) self ;;
    is_active <- py_get module_dict "active" ;;
    self <- when (is_bool is_active) (set_active_state is_active) self ;;
    metadata <- py_get module_dict "metadata" ;;
    self <- when (truthy metadata) (set_metadata_dict metadata) self ;;
    ret (self, ReturnedSelf).

(** [for proxy in self.proxies: module_proxies[proxy.get_uuid()] = ...] *)
Definition proxies_as_dict (include_offset_data : bool)
    (ps : list Proxy.t) : dict :=
  fold_left
    (fun module_proxies proxy =>
       dict_set (Proxy.get_uuid proxy)
         (PyDict (Proxy.get_proxy_as_dict false true include_offset_data
                    proxy))
         module_proxies)
    ps [].

(** [get_module_as_dict]; [class_name] is [self.__class__.__name__]. *)
Definition get_module_as_dict (class_name : string)
    (include_module_name include_offset_data : bool) (self : t) : dict :=
  let module_data : dict := [] in
  let module_data :=
    match name self with
    | Some (String c s) => dict_set "name" (PyStr (String c s)) module_data
    | _ => module_data
    end in
  let module_data := dict_set "active" (PyBool (active self)) module_data in
  let module_data :=
    match prefix self with
    | Some (String c s) => dict_set "prefix" (PyStr (String c s)) module_data
    | _ => module_data
    end in
  let module_data :=
    if truthy (parent_uuid self)
    then dict_set "parent" (parent_uuid self) module_data
    else module_data in
  let module_data :=
    match metadata self with
    | Some (e :: d) => dict_set "metadata" (PyDict (e :: d)) module_data
    | _ => module_data
    end in
  let module_data :=
    dict_set "proxies"
      (PyDict (proxies_as_dict include_offset_data (proxies self)))
      module_data in
  if include_module_name
  then dict_set "module" (PyStr class_name) module_data
  else module_data.

Definition get_module_class_name (class_name : string)
    (remove_module_prefix : bool) : string :=
  if remove_module_prefix then remove_prefix class_name "Module"
  else class_name.

Definition is_valid (self : t) : Py bool :=
  match proxies self with
  | [] =>
      logger WARNING
        "Missing proxies. A rig module needs at least one proxy to function." ;;;
      ret false
  | _ => ret true
  end.

(** [ModuleGeneric()] *)
Definition new : t :=
  {| name := None; prefix := None; proxies := []; parent_uuid := PyNone;
     metadata := None; active := true |}.

End WithExternals.

End ModuleGeneric.

(** ** Module classes and objects

    A project holds modules of any class of [RigModules]; the class decides
    what [get_module_as_dict] and [read_data_from_dict] do (ModuleSpine
    overrides the first, and [read_proxies_from_dict] used by the second). *)

Record ModuleClass := {
  mc_state : Type;
  (** [cls.__name__] *)
  mc_class_name : string;
  (** [cls()] *)
  mc_new : Py mc_state;
  mc_read_data_from_dict : pyval -> mc_state -> Py (mc_state * Proxy.returned);
  mc_get_module_as_dict : mc_state -> dict;
  mc_get_active_state : mc_state -> bool;
  mc_get_proxies : mc_state -> list Proxy.t
}.

Record ModuleObj := {
  obj_class : ModuleClass;
  obj_state : mc_state obj_class
}.

Definition class_name_of (m : ModuleObj) : string :=
  mc_class_name (obj_class m).

(** A class that inherits every method of ModuleGeneric; [ModuleGeneric]
    itself is the one named "ModuleGeneric". *)
Definition generic_class `{Externals} (class_name : string) : ModuleClass :=
  {| mc_state := ModuleGeneric.t;
     mc_class_name := class_name;
     mc_new := ret ModuleGeneric.new;
     mc_read_data_from_dict := ModuleGeneric.read_data_from_dict;
     mc_get_module_as_dict :=
       ModuleGeneric.get_module_as_dict class_name false true;
     mc_get_active_state := ModuleGeneric.active;
     mc_get_proxies := ModuleGeneric.proxies |}.

Definition ModuleGeneric_class `{Externals} : ModuleClass :=
  generic_class "ModuleGeneric".

Definition generic_obj `{Externals} (m : ModuleGeneric.t) : ModuleObj :=
  {| obj_class := ModuleGeneric_class; obj_state := m |}.

(** ** RigProject *)

Module RigProject.

Import Proxy (returned, ReturnedSelf, ReturnedNone).

Record t := {
  name : string;
  prefix : option string;
  modules : list ModuleObj;
  metadata : option dict
}.

Definition with_name (v : string) (p : t) : t :=
  {| name := v; prefix := prefix p; modules := modules p;
     metadata := metadata p |}.

Definition with_prefix (v : option string) (p : t) : t :=
  {| name := name p; prefix := v; modules := modules p;
     metadata := metadata p |}.

Definition with_modules (v : list ModuleObj) (p : t) : t :=
  {| name := name p; prefix := prefix p; modules := v;
     metadata := metadata p |}.

Definition with_metadata (v : option dict) (p : t) : t :=
  {| name := name p; prefix := prefix p; modules := modules p;
     metadata := v |}.

Section WithExternals.
Context `{Externals}.

(** [vars(RigModules)]: the classes of
    [gt.tools.auto_rigger.rig_modules], by attribute name. *)
Variable RigModules : list (string * ModuleClass).

Fixpoint available_modules_get (class_name : string)
    (registry : list (string * ModuleClass)) : option ModuleClass :=
  match registry with
  | [] => None
  | (k, c) :: rest =>
      if class_name =? k then Some c
      else available_modules_get class_name rest
  end.

Definition set_name (name : pyval) (self : t) : Py t :=
  match name with
  | PyStr s => ret (with_name s self)
  | _ =>
      logger WARNING ("Unable to set name. Expected string but got "
                      ++ dquote ++ type_repr name ++ dquote) ;;;
      ret self
  end.

Definition set_prefix (prefix : pyval) (self : t) : Py t :=
  match prefix with
  | PyStr (String c s) => ret (with_prefix (Some (String c s)) self)
  | _ =>
      logger WARNING ("Unable to set prefix. Expected string but got "
                      ++ dquote ++ type_repr prefix ++ dquote) ;;;
      ret self
  end.

Definition set_metadata_dict (metadata : pyval) (self : t) : Py t :=
  match metadata with
  | PyDict d => ret (with_metadata (Some d) self)
  | _ =>
      logger WARNING
        ("Unable to set rig project metadata. Expected a dictionary, but got: "
         ++ dquote ++ type_repr metadata ++ dquote) ;;;
      ret self
  end.

(** [if not class_name.startswith("Module"): class_name = f'Module{class_name}'] *)
Definition full_class_name (class_name : string) : string :=
  if String.prefix "Module" class_name then class_name
  else "Module" ++ class_name.

(** The body of the loop of [read_modules_from_dict]. *)
Definition read_module_entry (entry : string * pyval) : Py ModuleObj :=
  let '(class_name, description) := entry in
  let class_name := full_class_name class_name in
  match available_modules_get class_name RigModules with
  | Some cls =>
      _module <- mc_new cls ;;
      r <- mc_read_data_from_dict cls description _module ;;
      ret {| obj_class := cls; obj_state := fst r |}
  | None =>
      let _module := ModuleGeneric.new in
      r <- ModuleGeneric.read_data_from_dict description _module ;;
      ret (generic_obj (fst r))
  end.

Fixpoint read_module_entries (entries : dict) (acc : list ModuleObj)
  : Py (list ModuleObj) :=
  match entries with
  | [] => ret acc
  | entry :: rest =>
      _module <- read_module_entry entry ;;
      read_module_entries rest (acc ++ [_module])
  end.

Definition read_modules_from_dict (modules_dict : pyval) (self : t) : Py t :=
  match modules_dict with
  | PyDict (e :: d) =>
      ms <- read_module_entries (e :: d) [] ;;
      ret (with_modules ms self)
  | _ =>
      logger DEBUG
        "Unable to read modules from dictionary. Input must be a dictionary." ;;;
      ret self
  end.

Definition read_data_from_dict (module_dict : pyval) (self : t)
  : Py (t * returned) :=
  let self := with_modules [] self in
  let self := with_metadata None self in
  if truthy module_dict && negb (is_dict module_dict) then
    logger DEBUG "Unable o read data from dict. Input must be a dictionary." ;;;
    ret (self, ReturnedNone)
  else
    _name <- py_get module_dict "name" ;;
    self <- when (truthy _name) (set_name _name) self ;;
    _prefix <- py_get module_dict "prefix" ;;
    self <- when (truthy _prefix) (set_prefix _prefix) self ;;
    _modules <- py_get module_dict "modules" ;;
    self <- when (truthy _modules && is_dict _modules)
              (read_modules_from_dict _modules) self ;;
    metadata <- py_get module_dict "metadata" ;;
    self <- when (truthy metadata) (set_metadata_dict metadata) self ;;
    ret (self, ReturnedSelf).

End WithExternals.

(** [module.get_module_class_name(remove_module_prefix=True)] *)
Definition module_key (m : ModuleObj) : string :=
  ModuleGeneric.get_module_class_name (class_name_of m) true.

(** [for module in self.modules: project_modules[...] = ...] *)
Definition modules_as_dict (ms : list ModuleObj) : dict :=
  fold_left
    (fun project_modules module =>
       dict_set (module_key module)
         (PyDict (mc_get_module_as_dict (obj_class module)
                    (obj_state module)))
         project_modules)
    ms [].

Definition get_project_as_dict (self : t) : dict :=
  let project_modules := modules_as_dict (modules self) in
  let project_data : dict := [] in
  let project_data :=
    if truthy (PyStr (name self))
    then dict_set "name" (PyStr (name self)) project_data
    else project_data in
  let project_data :=
    match prefix self with
    | Some (String c s) => dict_set "prefix" (PyStr (String c s)) project_data
    | _ => project_data
    end in
  let project_data :=
    dict_set "modules" (PyDict project_modules) project_data in
  match metadata self with
  | Some (e :: d) => dict_set "metadata" (PyDict (e :: d)) project_data
  | _ => project_data
  end.

Definition is_valid (self : t) : Py bool :=
  match modules self with
  | [] =>
      logger WARNING
        "Missing modules. A rig project needs at least one module to function." ;;;
      ret false
  | _ => ret true
  end.

(** [RigProject()] *)
Definition new : t :=
  {| name := "Untitled"; prefix := None; modules := []; metadata := None |}.

End RigProject.

(** ** ModuleSpine *)

(** [l[:n]] for a Python integer [n]. *)
Definition py_slice_to {A} (n : Z) (l : list A) : list A :=
  if (0 <=? n)%Z then firstn (Z.to_nat n) l
  else firstn (Z.to_nat (Z.of_nat (length l) + n)) l.

(** [str(n)] for a natural number. *)
Definition str_of_nat (n : nat) : string :=
  NilEmpty.string_of_uint (Nat.to_uint n).

Fixpoint zeros (n : nat) : string :=
  match n with
  | O => ""
  | S n' => String "0" (zeros n')
  end.

(** [s.zfill(width)] for a string of digits. *)
Definition zfill (width : nat) (s : string) : string :=
  zeros (width - String.length s) ++ s.

Module ModuleSpine.

Record t := {
  base : ModuleGeneric.t;      (* the attributes of ModuleGeneric *)
  hip : Proxy.t;
  chest : Proxy.t;
  spines : list Proxy.t
}.

Definition with_base (v : ModuleGeneric.t) (m : t) : t :=
  {| base := v; hip := hip m; chest := chest m; spines := spines m |}.

Definition with_chest (v : Proxy.t) (m : t) : t :=
  {| base := base m; hip := hip m; chest := v; spines := spines m |}.

Definition with_spines (v : list Proxy.t) (m : t) : t :=
  {| base := base m; hip := hip m; chest := chest m; spines := v |}.

Definition proxies (m : t) : list Proxy.t := ModuleGeneric.proxies (base m).

Section WithExternals.
Context `{Externals}.

Definition refresh_proxies_list (self : t) : t :=
  with_base
    (ModuleGeneric.with_proxies ([hip self] ++ spines self ++ [chest self])
       (base self))
    self.

(** [f'spine{str(num + 1).zfill(2)}'] *)
Definition spine_name (num : nat) : string :=
  "spine" ++ zfill 2 (str_of_nat (num + 1)).

(** The body of the loop that creates the spines. *)
Definition new_spine (num : nat) (_parent_uuid : string) : Py Proxy.t :=
  new_spine <- Proxy.named (spine_name num) ;;
  new_spine <- Proxy.set_locator_scale (PyInt 1) new_spine ;;
  new_spine <- Proxy.add_color FOLLOWER new_spine ;;
  let new_spine := Proxy.set_meta_type (PyStr (spine_name num)) new_spine in
  let new_spine :=
    Proxy.add_meta_parent (Proxy.AVal (PyStr _parent_uuid)) new_spine in
  Proxy.set_parent_uuid (PyStr _parent_uuid) new_spine.

(** [for num in range(num, num + count): ...] *)
Fixpoint create_spines (count num : nat) (_parent_uuid : string)
    (spines : list Proxy.t) : Py (list Proxy.t) :=
  match count with
  | O => ret spines
  | S count' =>
      spine <- new_spine num _parent_uuid ;;
      create_spines count' (S num) (Proxy.get_uuid spine) (spines ++ [spine])
  end.

Definition set_spine_num (spine_num : Z) (self : t) : Py t :=
  let spines_len := length (spines self) in
  if (Z.of_nat spines_len =? spine_num)%Z then ret self
  else
    self <-
      (if (Z.of_nat spines_len <? spine_num)%Z then
         let _parent_uuid :=
           match rev (spines self) with
           | last :: _ => Proxy.get_uuid last
           | [] => Proxy.get_uuid (hip self)
           end in
         new_spines <-
           create_spines (Z.to_nat spine_num - spines_len) spines_len
             _parent_uuid (spines self) ;;
         ret (with_spines new_spines self)
       else if (spine_num <? Z.of_nat (length (spines self)))%Z then
         ret (with_spines (py_slice_to spine_num (spines self)) self)
       else ret self) ;;
    let self :=
      match rev (spines self) with
      | last :: _ =>
          with_chest
            (Proxy.add_meta_parent
               (Proxy.AVal (PyStr (Proxy.get_uuid last))) (chest self))
            self
      | [] =>
          with_chest
            (Proxy.add_meta_parent
               (Proxy.AVal (PyStr (Proxy.get_uuid (hip self))))
               (chest self))
            self
      end in
    ret (refresh_proxies_list self).

(** [get_module_as_dict] takes keyword arguments and does not pass them
    on; [self.__class__.__name__] is "ModuleSpine". *)
Definition get_module_as_dict (kwargs : dict) (self : t) : dict :=
  ModuleGeneric.get_module_as_dict "ModuleSpine" false false (base self).

End WithExternals.

End ModuleSpine.

(** ** Project level build: [RigProject.build_proxy], [RigProject.build_rig]

    The build functions act on the scene of the host application.  Every
    call they make is appended to a trace.  A [Backend] says, from the calls
    made so far, whether a call raises and what it returns.  The build
    hooks of the modules are calls as well: which method runs depends on the
    class of the module.  The hooks of ModuleGeneric do not assign to the
    attributes of the module, so the list of modules is read, not changed,
    by the build.

    [add_attr] is a function of [gt.utils.attr_utils], which is among the
    sources: a call to it first binds its arguments to the parameters of
    the function, and only then enters its body, which acts on the
    scene. *)

Module Build.

Record ProxyData := {
  pd_name : string;
  pd_offset : string;
  pd_setup : list (option string);
  pd_uuid : string
}.

Inductive Call :=
| cmds_refresh_suspend (suspend : bool)   (* cmds.refresh(suspend=...) *)
| cmds_refresh                            (* cmds.refresh() *)
| create_proxy_root_curve
| create_control_root_curve
| cmds_group (name : string)
| Node (path : string)
| add_attr (target : string)              (* the body of attr_utils.add_attr *)
| set_attr (target : string)
| hierarchy_parent (source_objects : list (option string))
    (target_parent : string)
| add_side_color_setup (obj : string)
| module_build_proxy (i : nat)            (* modules[i].build_proxy() *)
| parent_proxies (i : nat)
| create_proxy_visualization_lines (i : nat) (lines_parent : string)
| proxy_apply_attr_dict (i : nat) (uuid : string)
| module_build_proxy_post (i : nat)       (* modules[i].build_proxy_post() *)
| module_build_rig (i : nat)              (* modules[i].build_rig() *)
| module_build_rig_post (i : nat).        (* modules[i].build_rig_post() *)

Definition Trace := list Call.

Record Backend := {
  (** the exception a call raises, if any, after the calls made so far *)
  raises : Trace -> Call -> option PyExc;
  (** [(root_transform, root_group)] of the root curve created *)
  root_curve : Trace -> string * string;
  (** the name [cmds.group] gives to the group *)
  group_name : Trace -> string -> string;
  (** the path held by the [Node] created *)
  node_path : Trace -> string -> string;
  (** what [module.build_proxy()] returns *)
  built_proxies : Trace -> nat -> list (option ProxyData)
}.

Definition B (A : Type) : Type := Eff Trace A.

Section WithBackend.
Variable backend : Backend.

(** A call: recorded, then it raises or returns [result]. *)
Definition call {A} (c : Call) (result : Trace -> A) : B A :=
  fun tr =>
    match raises backend tr c with
    | Some e => (Raised e, tr ++ [c])
    | None => (Return (result tr), tr ++ [c])
    end.

Definition call_ (c : Call) : B unit := call c (fun _ => tt).

(** [for x in l: body(x)] *)
Fixpoint for_each {A} (l : list A) (body : A -> B unit) : B unit :=
  match l with
  | [] => ret tt
  | x :: rest => bind (body x) (fun _ => for_each rest body)
  end.

(** [enumerate(self.modules)] *)
Definition enumerate {A} (l : list A) : list (nat * A) :=
  combine (seq 0 (length l)) l.

Definition active_state (m : ModuleObj) : bool :=
  mc_get_active_state (obj_class m) (obj_state m).

(** [NamingConstants.Suffix.GRP] is not among the sources. *)
Variable GRP : string.

Definition setup_name : string := "setup_" ++ GRP.

(** [proxy_data.get_long_name()] and the like on an element of the list
    returned by [module.build_proxy()], which is [None] for a proxy that
    is not valid. *)
Definition proxy_data_attr {A} (attr : string) (get : ProxyData -> A)
    (proxy_data : option ProxyData) : B A :=
  match proxy_data with
  | Some d => ret (get d)
  | None =>
      raise (AttributeError
               ("'NoneType' object has no attribute '" ++ attr ++ "'"))
  end.

(** [def add_attr(obj_list, attributes, attr_type="double", minimum=None,
    maximum=None, enum=None, default=None, is_keyable=True,
    verbose=False)]: the parameters, and those without a default. *)
Definition add_attr_parameters : list string :=
  ["obj_list"; "attributes"; "attr_type"; "minimum"; "maximum"; "enum";
   "default"; "is_keyable"; "verbose"].

Definition add_attr_required : list string := ["obj_list"; "attributes"].

(** [add_attr(target_list=setup, attr_type="string", is_keyable=False,
    attributes=RiggerConstants.SETUP_DATA_ATTR, verbose=True)]: the names
    the two build functions give to the arguments of the call. *)
Definition setup_attr_keywords : list string :=
  ["target_list"; "attr_type"; "is_keyable"; "attributes"; "verbose"].

Definition is_among (names : list string) (name : string) : bool :=
  existsb (String.eqb name) names.

(** A call of [add_attr] with every argument given by keyword.  Python
    raises TypeError for the first keyword that names no parameter, then
    for the parameters without a default that were given no value; the
    body of the function runs when the arguments are bound. *)
Definition call_add_attr (keywords : list string) (target : string)
  : B unit :=
  match find (fun k => negb (is_among add_attr_parameters k)) keywords with
  | Some k =>
      raise (TypeError
               ("add_attr() got an unexpected keyword argument '" ++ k
                ++ "'"))
  | None =>
      match filter (fun p => negb (is_among keywords p)) add_attr_required
      with
      | [] => call_ (add_attr target)
      | [p] =>
          raise (TypeError
                   ("add_attr() missing 1 required positional argument: '"
                    ++ p ++ "'"))
      | p :: q :: _ =>
          raise (TypeError
                   ("add_attr() missing 2 required positional arguments: '"
                    ++ p ++ "' and '" ++ q ++ "'"))
      end
  end.

(** [for module in self.modules: ... proxy_data_list += module.build_proxy()] *)
Fixpoint build_modules (ims : list (nat * ModuleObj))
    (proxy_data_list : list (option ProxyData))
  : B (list (option ProxyData)) :=
  match ims with
  | [] => ret proxy_data_list
  | im :: rest =>
      if negb (active_state (snd im)) then build_modules rest proxy_data_list
      else
        built <- call (module_build_proxy (fst im))
                   (fun tr => built_proxies backend tr (fst im)) ;;
        build_modules rest (proxy_data_list ++ built)
  end.

(** The loops of [build_proxy] over the modules and over the proxies they
    built: the statements from [# Build Proxy] to the end of [try:]. *)
Definition build_proxy_modules (modules : list ModuleObj)
    (setup root_transform : string) : B unit :=
  (* Build Proxy *)
  proxy_data_list <- build_modules (enumerate modules) [] ;;
  for_each proxy_data_list
    (fun proxy_data =>
       long_name <- proxy_data_attr "get_long_name" pd_name proxy_data ;;
       call_ (add_side_color_setup long_name) ;;;
       setup_items <- proxy_data_attr "get_setup" pd_setup proxy_data ;;
       call_ (hierarchy_parent setup_items setup) ;;;
       offset <- proxy_data_attr "get_offset" pd_offset proxy_data ;;
       call_ (hierarchy_parent [Some offset] root_transform)) ;;;
  (* Parent Proxy *)
  for_each (enumerate modules)
    (fun im =>
       if negb (active_state (snd im)) then ret tt
       else
         call_ (parent_proxies (fst im)) ;;;
         call_ (create_proxy_visualization_lines (fst im) setup) ;;;
         for_each (mc_get_proxies (obj_class (snd im)) (obj_state (snd im)))
           (fun proxy =>
              call_ (proxy_apply_attr_dict (fst im) (Proxy.get_uuid proxy))) ;;;
         call_ (module_build_proxy_post (fst im))).

(** The statements under [try:] in [build_proxy]. *)
Definition build_proxy_body (modules : list ModuleObj) : B unit :=
  roots <- call create_proxy_root_curve (root_curve backend) ;;
  let '(root_transform, root_group) := roots in
  setup <- call (cmds_group setup_name)
             (fun tr => group_name backend tr setup_name) ;;
  call_add_attr setup_attr_keywords setup ;;;
  call_ (set_attr setup) ;;;
  call_ (hierarchy_parent [Some setup] root_group) ;;;
  build_proxy_modules modules setup root_transform.

Definition build_proxy (modules : list ModuleObj) : B unit :=
  call_ (cmds_refresh_suspend true) ;;;
  try_finally
    (try_except (build_proxy_body modules) (fun e => raise e))
    (call_ (cmds_refresh_suspend false) ;;; call_ cmds_refresh).

(** The two loops of [build_rig] over the modules: the statements from
    [# Build Rig] to the end of [try:]. *)
Definition build_rig_modules (modules : list ModuleObj) : B unit :=
  (* Build Rig *)
  for_each (enumerate modules)
    (fun im =>
       if negb (active_state (snd im)) then ret tt
       else call_ (module_build_rig (fst im))) ;;;
  (* Build Rig Post *)
  for_each (enumerate modules)
    (fun im =>
       if negb (active_state (snd im)) then ret tt
       else call_ (module_build_rig_post (fst im))).

(** The statements under [try:] in [build_rig]. *)
Definition build_rig_body (modules : list ModuleObj) : B unit :=
  roots <- call create_control_root_curve (root_curve backend) ;;
  let '(root_transform, root_group) := roots in
  setup <- call (cmds_group setup_name)
             (fun tr => group_name backend tr setup_name) ;;
  setup <- call (Node setup) (fun tr => node_path backend tr setup) ;;
  call_add_attr setup_attr_keywords setup ;;;
  call_ (set_attr setup) ;;;
  call_ (hierarchy_parent [Some setup] root_group) ;;;
  build_rig_modules modules.

Definition build_rig (modules : list ModuleObj) : B unit :=
  call_ (cmds_refresh_suspend true) ;;;
  try_finally
    (try_except (build_rig_body modules) (fun e => raise e))
    (call_ (cmds_refresh_suspend false) ;;; call_ cmds_refresh).

End WithBackend.

End Build.

(** ** [gt.utils.hierarchy_utils.parent]

    The function is called by the build with the names of objects of the
    scene.  Its calls into the host application, and into [log_when_true]
    of [gt.utils.feedback_utils] (not among the sources), are recorded in a
    trace; a [Backend] says, from the calls made so far, whether a call
    raises and what it returns.  The names are Python strings. *)

Module HierarchyUtils.

Inductive Call :=
| cmds_ls_selection                       (* cmds.ls(selection=True) *)
| cmds_objExists (name : string)
| cmds_listRelatives (child : string)     (* cmds.listRelatives(child, parent=True) *)
| cmds_parent (child target_parent : string)
| cmds_select (objects : list string)
| log_when_true (input_string : string) (do_log : bool)
    (level : option LogLevel).

Definition Trace := list Call.

Record Backend := {
  (** the exception a call raises, if any, after the calls made so far *)
  raises : Trace -> Call -> option PyExc;
  (** [cmds.ls(selection=True) or []] *)
  ls_selection : Trace -> list string;
  objExists : Trace -> string -> bool;
  (** [cmds.listRelatives(child, parent=True) or []] *)
  listRelatives : Trace -> string -> list string;
  (** [cmds.parent(child, target_parent) or []] *)
  parented : Trace -> string -> string -> list string
}.

Definition H (A : Type) : Type := Eff Trace A.

(** [source_objects]: [None], a string, or a list or tuple of names, each
    a string or [None]. *)
Inductive sources :=
| SourceNone
| SourceStr (s : string)
| SourceSeq (l : list (option string)).

(** [str(name)] *)
Definition str_of (name : option string) : string :=
  match name with
  | Some s => s
  | None => "None"
  end.

(** [str(e)]: the message of the exception. *)
Definition exc_str (e : PyExc) : string :=
  match e with
  | AttributeError msg => msg
  | TypeError msg => msg
  | RuntimeError msg => msg
  end.

Section WithBackend.
Variable backend : Backend.

(** A call: recorded, then it raises or returns [result]. *)
Definition call {A} (c : Call) (result : Trace -> A) : H A :=
  fun tr =>
    match raises backend tr c with
    | Some e => (Raised e, tr ++ [c])
    | None => (Return (result tr), tr ++ [c])
    end.

Definition call_ (c : Call) : H unit := call c (fun _ => tt).

Definition missing_source (child : option string) (target_parent : string)
  : string :=
  "Missing source object " ++ dquote ++ str_of child ++ dquote
  ++ " while parenting it to " ++ dquote ++ target_parent ++ dquote ++ ".".

(** The body of the loop over the children. *)
Definition parent_child (target_parent : string) (verbose : bool)
    (parented_objects : list string) (child : option string)
  : H (list string) :=
  match child with
  | Some (String c s) =>
      let child := String c s in
      found <- call (cmds_objExists child)
                 (fun tr => objExists backend tr child) ;;
      if negb found then
        call_ (log_when_true (missing_source (Some child) target_parent)
                 verbose None) ;;;
        ret parented_objects
      else
        current_parent <- call (cmds_listRelatives child)
                            (fun tr => listRelatives backend tr child) ;;
        match current_parent with
        | current_parent :: _ =>
            if negb (current_parent =? target_parent) then
              objs <- call (cmds_parent child target_parent)
                        (fun tr => parented backend tr child target_parent) ;;
              ret (parented_objects ++ objs)
            else ret parented_objects
        | [] =>
            objs <- call (cmds_parent child target_parent)
                      (fun tr => parented backend tr child target_parent) ;;
            ret (parented_objects ++ objs)
        end
  | _ =>
      call_ (log_when_true (missing_source child target_parent) verbose
               None) ;;;
      ret parented_objects
  end.

(** [for child in source_objects: ...] *)
Fixpoint parent_children (target_parent : string) (verbose : bool)
    (children : list (option string)) (parented_objects : list string)
  : H (list string) :=
  match children with
  | [] => ret parented_objects
  | child :: rest =>
      parented_objects <-
        parent_child target_parent verbose parented_objects child ;;
      parent_children target_parent verbose rest parented_objects
  end.

(** What the loop iterates over: a string that is not empty has become a
    list of one item, the empty string has no character to iterate over,
    [None] is not iterable. *)
Definition children_of (source_objects : sources)
  : H (list (option string)) :=
  match source_objects with
  | SourceStr (String c s) => ret [Some (String c s)]
  | SourceStr EmptyString => ret []
  | SourceSeq l => ret l
  | SourceNone => raise (TypeError "'NoneType' object is not iterable")
  end.

Definition parent (source_objects : sources) (target_parent : option string)
    (verbose : bool) : H (list string) :=
  store_selection <- call cmds_ls_selection (ls_selection backend) ;;
  missing <-
    match target_parent with
    | Some (String c s) =>
        found <- call (cmds_objExists (String c s))
                   (fun tr => objExists backend tr (String c s)) ;;
        ret (negb found)
    | _ => ret true
    end ;;
  if (missing : bool) then
    call_ (log_when_true
             ("Unable to execute parenting operation."
              ++ "Missing target parent object " ++ dquote
              ++ str_of target_parent ++ dquote ++ ".")
             verbose None) ;;;
    ret []
  else
    children <- children_of source_objects ;;
    parented_objects <-
      parent_children (str_of target_parent) verbose children [] ;;
    match store_selection with
    | [] => ret tt
    | _ =>
        try_except (call_ (cmds_select store_selection))
          (fun e =>
             call_ (log_when_true
                      ("Unable to recover previous selection. Issue: "
                       ++ dquote ++ exc_str e ++ dquote ++ ".")
                      verbose (Some DEBUG)))
    end ;;;
    ret parented_objects.

End WithBackend.

End HierarchyUtils.

(** ** A concrete setting: hexadecimal UUIDs of 32 digits *)

Module Sample.

Definition hex_chars : list ascii :=
  ["0"; "1"; "2"; "3"; "4"; "5"; "6"; "7"; "8"; "9";
   "a"; "b"; "c"; "d"; "e"; "f"]%char.

Definition is_hex (c : ascii) : bool :=
  existsb (Ascii.eqb c) hex_chars.

Fixpoint all_hex (s : string) : bool :=
  match s with
  | EmptyString => true
  | String c rest => is_hex c && all_hex rest
  end.

Definition hex_char (n : N) : ascii :=
  nth (N.to_nat (n mod 16)) hex_chars "0"%char.

(** The [k] low hexadecimal digits of [n], lowest first. *)
Fixpoint hex_digits (k : nat) (n : N) : string :=
  match k with
  | O => ""
  | S k' => String (hex_char n) (hex_digits k' (n / 16))
  end.

Definition valid32 (s : string) : bool :=
  Nat.eqb (String.length s) 32 && all_hex s.

Definition short_valid (s : string) : bool :=
  negb (Nat.eqb (String.length s) 0) && all_hex s.

Definition joint_shape : CurveShape :=
  {| shape_name := "proxy_jointShape";
     shape_points := [TransformOps.zero3; TransformOps.one3] |}.

#[export] Instance externals : Externals := {|
  uuid4_hex := fun n => hex_digits 32 (N.of_nat n + 2779096485);
  is_uuid_valid := valid32;
  is_short_uuid_valid := short_valid;
  PROXY_META_PARENT := "metaParentUUID";
  PROXY_META_TYPE := "proxyType";
  FOLLOWER := PyTuple [PyFloat 0.25; PyFloat 0.5; PyFloat 0];
  proxy_joint_curve :=
    {| curve_name := Some "_proxy_joint"; curve_shapes := [joint_shape] |}
|}.

Definition world0 : World := {| uuid_count := 0; log := [] |}.

Definition vec (x y z : float) : Vector3 := {| vx := x; vy := y; vz := z |}.

(** A proxy whose transform and offset transform differ. *)
Definition arm : Proxy.t :=
  {| Proxy.name := "arm";
     Proxy.transform :=
       Some {| position := vec 1 2 3; rotation := TransformOps.zero3;
               scale := TransformOps.one3 |};
     Proxy.offset_transform :=
       Some {| position := vec 4 5 6; rotation := TransformOps.zero3;
               scale := TransformOps.one3 |};
     Proxy.curve := CurveOps.set_name "arm" proxy_joint_curve;
     Proxy.uuid := uuid4_hex 7;
     Proxy.parent_uuid := PyStr (uuid4_hex 3);
     Proxy.locator_scale := PyFloat 1.5;
     Proxy.attr_dict := [("autoColor", PyBool false)];
     Proxy.metadata := Some [("proxyType", PyStr "arm")] |}.

(** The proxy that [Proxy()] builds in [world0]. *)
Definition fresh : Proxy.t :=
  {| Proxy.name := "proxy"; Proxy.transform := None;
     Proxy.offset_transform := None;
     Proxy.curve := CurveOps.set_name "proxy" proxy_joint_curve;
     Proxy.uuid := uuid4_hex 0; Proxy.parent_uuid := PyNone;
     Proxy.locator_scale := PyInt 1; Proxy.attr_dict := [];
     Proxy.metadata := None |}.

(** A generic module holding [arm], and a project with two modules of
    class ModuleGeneric. *)
Definition arm_module : ModuleGeneric.t :=
  {| ModuleGeneric.name := Some "arm"; ModuleGeneric.prefix := Some "left";
     ModuleGeneric.proxies := [arm]; ModuleGeneric.parent_uuid := PyNone;
     ModuleGeneric.metadata := None; ModuleGeneric.active := true |}.

Definition leg_module : ModuleGeneric.t :=
  {| ModuleGeneric.name := Some "leg"; ModuleGeneric.prefix := None;
     ModuleGeneric.proxies := [fresh]; ModuleGeneric.parent_uuid := PyNone;
     ModuleGeneric.metadata := None; ModuleGeneric.active := true |}.

Definition project : RigProject.t :=
  {| RigProject.name := "biped"; RigProject.prefix := None;
     RigProject.modules := [generic_obj arm_module; generic_obj leg_module];
     RigProject.metadata := Some [("author", PyStr "gt")] |}.

(** [RigModules] with the one class ModuleGeneric. *)
Definition registry : list (string * ModuleClass) :=
  [("ModuleGeneric", ModuleGeneric_class)].

(** An entry of "modules" whose key names no class of the registry; its
    one proxy has the description [get_proxy_as_dict] gives of [arm],
    offset transform included. *)
Definition tail_entry : string * pyval :=
  ("Tail",
   PyDict [("name", PyStr "tail"); ("active", PyBool false);
           ("proxies",
            PyDict [(uuid4_hex 9,
                     PyDict (Proxy.get_proxy_as_dict false true true
                               arm))])]).

(** A scene in which [Node(setup)] raises and nothing else does. *)
Definition failing_backend : Build.Backend :=
  {| Build.raises :=
       fun _ c =>
         match c with
         | Build.Node _ => Some (RuntimeError "No object matches name")
         | _ => None
         end;
     Build.root_curve := fun _ => ("root_ctrl", "rig_grp");
     Build.group_name := fun _ name => name;
     Build.node_path := fun _ path => ("|" ++ path)%string;
     Build.built_proxies := fun _ _ => [] |}.

(** [Vector3(y=...)] *)
Definition Vector3_y (y : float) : Vector3 := {| vx := 0; vy := y; vz := 0 |}.

(** A hip and a chest set up by the calls that [rig_module_spine.py] makes
    on them, in a module without spines. *)
Definition hip_and_chest : Py ModuleSpine.t :=
  base <- ModuleGeneric.set_name (PyStr "Spine") ModuleGeneric.new ;;
  hip <- Proxy.named "hip" ;;
  let hip := Proxy.set_initial_position (Vector3_y 84.5) hip in
  hip <- Proxy.set_locator_scale (PyFloat 1.5) hip ;;
  let hip := Proxy.set_meta_type (PyStr "hip") hip in
  chest <- Proxy.named "chest" ;;
  let chest := Proxy.set_initial_position (Vector3_y 114.5) chest in
  chest <- Proxy.set_locator_scale (PyFloat 1.5) chest ;;
  let chest := Proxy.set_meta_type (PyStr "chest") chest in
  ret {| ModuleSpine.base := base; ModuleSpine.hip := hip;
         ModuleSpine.chest := chest; ModuleSpine.spines := [] |}.

(** A spine module with three spines: [set_spine_num(3)] on the module
    above, run in [world0]. *)
Definition spine : ModuleSpine.t :=
  Eval vm_compute in
    match (m <- hip_and_chest ;; ModuleSpine.set_spine_num 3 m) world0 with
    | (Return m, _) => m
    | (Raised _, _) =>
        {| ModuleSpine.base := ModuleGeneric.new; ModuleSpine.hip := fresh;
           ModuleSpine.chest := fresh; ModuleSpine.spines := [] |}
    end.

(** A scene in which no call raises. *)
Definition quiet_backend : Build.Backend :=
  {| Build.raises := fun _ _ => None;
     Build.root_curve := fun _ => ("root_ctrl", "rig_grp");
     Build.group_name := fun _ name => name;
     Build.node_path := fun _ path => ("|" ++ path)%string;
     Build.built_proxies := fun _ _ => [] |}.


(** A proxy whose UUID is a short one: [set_uuid] takes it,
    [is_uuid_valid] does not. *)
Definition short_proxy : Proxy.t := Proxy.with_uuid "ab" fresh.


(** A project description in which one proxy description is [None]. *)
Definition tail_with_null : dict :=
  [("proxies",
    PyDict [("aa", PyDict [("name", PyStr "hip")]);
            ("bb", PyNone);
            ("cc", PyDict [("name", PyStr "tip")])])].

Definition project_with_null : dict :=
  [("name", PyStr "biped");
   ("modules", PyDict [("Tail", PyDict tail_with_null)])].



(** A scene with one selected object in which every object exists and has
    no parent, and in which [cmds.select] raises. *)
Definition flat_scene : HierarchyUtils.Backend :=
  {| HierarchyUtils.raises :=
       fun _ c =>
         match c with
         | HierarchyUtils.cmds_select _ =>
             Some (RuntimeError "No object matches name")
         | _ => None
         end;
     HierarchyUtils.ls_selection := fun _ => ["pCube1"];
     HierarchyUtils.objExists := fun _ _ => true;
     HierarchyUtils.listRelatives := fun _ _ => [];
     HierarchyUtils.parented := fun _ child _ => [child] |}.


(** The spine module of [spine] after [hip.set_uuid] gave the hip a short
    UUID. *)
Definition short_hip_spine : ModuleSpine.t :=
  {| ModuleSpine.base := ModuleSpine.base spine;
     ModuleSpine.hip := Proxy.with_uuid "ab" (ModuleSpine.hip spine);
     ModuleSpine.chest := ModuleSpine.chest spine;
     ModuleSpine.spines := ModuleSpine.spines spine |}.

End Sample.

(** ** Predicates used to state the properties *)

(** [parent_uuid] is [None] or a string that one of the validators
    accepts. *)
Definition parent_uuid_ok `{Externals} (v : pyval) : bool :=
  match v with
  | PyNone => true
  | PyStr s => is_uuid_valid s || is_short_uuid_valid s
  | _ => false
  end.

(** A string the setters of a UUID accept: not empty and validated. *)
Definition accepted_uuid `{Externals} (v : pyval) : bool :=
  match v with
  | PyStr s => truthy v && (is_uuid_valid s || is_short_uuid_valid s)
  | _ => false
  end.

(** The operations of a Proxy that change the object. *)
Inductive proxy_op :=
| op_set_name (v : pyval)
| op_set_transform (v : pyval)
| op_set_offset_transform (v : pyval)
| op_set_position (xyz : Vector3)
| op_set_offset_position (xyz : Vector3)
| op_set_initial_position (xyz : Vector3)
| op_set_curve (v : pyval) (inherit_curve_name : bool)
| op_set_locator_scale (v : pyval)
| op_set_attr_dict (v : pyval)
| op_add_to_attr_dict (attr : string) (v : pyval)
| op_set_metadata_dict (v : pyval)
| op_add_to_metadata (key : string) (v : pyval)
| op_add_meta_parent (a : Proxy.proxy_or_val)
| op_add_color (v : pyval)
| op_set_uuid (v : pyval)
| op_set_parent_uuid (v : pyval)
| op_set_parent_uuid_from_proxy (a : Proxy.proxy_or_val)
| op_clear_parent_uuid
| op_set_meta_type (v : pyval)
| op_read_data_from_dict (v : pyval).

Definition run_op `{Externals} (op : proxy_op) (p : Proxy.t) : Py Proxy.t :=
  match op with
  | op_set_name v => Proxy.set_name v p
  | op_set_transform v => Proxy.set_transform v p
  | op_set_offset_transform v => Proxy.set_offset_transform v p
  | op_set_position xyz => ret (Proxy.set_position xyz p)
  | op_set_offset_position xyz => ret (Proxy.set_offset_position xyz p)
  | op_set_initial_position xyz => ret (Proxy.set_initial_position xyz p)
  | op_set_curve v b => Proxy.set_curve v b p
  | op_set_locator_scale v => Proxy.set_locator_scale v p
  | op_set_attr_dict v => Proxy.set_attr_dict v p
  | op_add_to_attr_dict k v => ret (Proxy.add_to_attr_dict k v p)
  | op_set_metadata_dict v => Proxy.set_metadata_dict v p
  | op_add_to_metadata k v => ret (Proxy.add_to_metadata k v p)
  | op_add_meta_parent a => ret (Proxy.add_meta_parent a p)
  | op_add_color v => Proxy.add_color v p
  | op_set_uuid v => Proxy.set_uuid v p
  | op_set_parent_uuid v => Proxy.set_parent_uuid v p
  | op_set_parent_uuid_from_proxy a => Proxy.set_parent_uuid_from_proxy a p
  | op_clear_parent_uuid => ret (Proxy.clear_parent_uuid p)
  | op_set_meta_type v => ret (Proxy.set_meta_type v p)
  | op_read_data_from_dict v =>
      r <- Proxy.read_data_from_dict v p ;; ret (fst r)
  end.

(** The record of one more call to the logger. *)
Definition logged (lvl : LogLevel) (msg : string) (w : World) : World :=
  {| uuid_count := uuid_count w; log := log w ++ [(lvl, msg)] |}.

(** A method that leaves [parent_uuid] as it finds it. *)
Definition keeps_parent_uuid (f : Proxy.t -> Py Proxy.t) : Prop :=
  forall p w p' w',
    f p w = (Return p', w') -> Proxy.parent_uuid p' = Proxy.parent_uuid p.

(** The last module of the list whose class gives the key [k]. *)
Definition last_with_key (k : string) (ms : list ModuleObj)
  : option ModuleObj :=
  find (fun m => RigProject.module_key m =? k) (rev ms).

Definition module_as_dict (m : ModuleObj) : pyval :=
  PyDict (mc_get_module_as_dict (obj_class m) (obj_state m)).

(** ** What a reader keeps of the values of a description *)

(** A name or prefix: a string that is not empty. *)
Definition as_nonempty_str (v : pyval) : option string :=
  match v with
  | PyStr (String c s) => Some (String c s)
  | _ => None
  end.

Definition read_metadata (v : pyval) : option dict :=
  match v with
  | PyDict (e :: d) => Some (e :: d)
  | _ => None
  end.

Definition read_active (v : pyval) : bool :=
  match v with
  | PyBool b => b
  | _ => true
  end.

(** A transform block of the persisted format: absent or a list. *)
Definition transform_block_ok (v : pyval) : bool :=
  match v with
  | PyNone | PyList _ => true
  | _ => false
  end.

(** A proxy description of the persisted format: a dictionary whose
    transform blocks are absent or lists. *)
Definition proxy_desc_ok (v : pyval) : bool :=
  match v with
  | PyDict pd =>
      transform_block_ok (dict_get "transform" pd)
      && transform_block_ok (dict_get "offsetTransform" pd)
  | _ => false
  end.

(** A module description of the persisted format: a dictionary whose
    "proxies", when a dictionary, holds proxy descriptions. *)
Definition module_desc_ok (v : pyval) : bool :=
  match v with
  | PyDict d =>
      match dict_get "proxies" d with
      | PyDict pd => forallb (fun e => proxy_desc_ok (snd e)) pd
      | _ => true
      end
  | _ => false
  end.

(** The name, the transform, the offset transform and the curve of a
    Proxy. *)
Definition proxy_shape (p : Proxy.t) :=
  (Proxy.name p, Proxy.transform p, Proxy.offset_transform p, Proxy.curve p).

(** A method that leaves these four as it finds them. *)
Definition keeps_shape (f : Proxy.t -> Py Proxy.t) : Prop :=
  forall p w p' w', f p w = (Return p', w') -> proxy_shape p' = proxy_shape p.

(** A transform block of three items. *)
Definition block_of_three (v : pyval) : bool :=
  match v with
  | PyList [_; _; _] => true
  | _ => false
  end.

(** The transform there, or [Transform()] when there is none, after
    [set_transform_from_dict(block)]. *)
Definition transform_from (block : pyval) (old : option Transform)
  : Transform :=
  TransformOps.set_transform_from_dict block
    match old with
    | Some t => t
    | None => TransformOps.default
    end.

(** The name a value gives: itself when a string that is not empty. *)
Definition name_or (v : pyval) (old : string) : string :=
  match as_nonempty_str v with
  | Some s => s
  | None => old
  end.

(** The curve of a Proxy after [set_curve(v)]. *)
Definition curve_or (v : pyval) (name : string) (old : Curve) : Curve :=
  match v with
  | PyCurve c =>
      if CurveOps.is_curve_valid c then CurveOps.set_name name c else old
  | _ => old
  end.

(** The fields of a Proxy that a description gives. *)
Definition proxy_core (p : Proxy.t) :=
  (Proxy.name p, Proxy.parent_uuid p, Proxy.locator_scale p,
   Proxy.attr_dict p, Proxy.metadata p, Proxy.uuid p).

(** The proxy [px] holds what the entry [(uuid, description)] of a
    "proxies" dictionary says, and defaults otherwise.  The UUID is the
    one of the description if accepted, else the key if accepted, else a
    generated one.  A transform is there for a block of three items; the
    block read into the offset transform is the one under "transform"
    ([set_transform_from_dict(transform_dict=transform)] in both
    branches).  The curve is the default one, named after the proxy. *)
Definition proxy_read_from `{Externals} (entry : string * pyval)
    (px : Proxy.t) : Prop :=
  exists pd,
    snd entry = PyDict pd /\
    Proxy.name px =
      match as_nonempty_str (dict_get "name" pd) with
      | Some s => s
      | None => "proxy"
      end /\
    Proxy.parent_uuid px =
      (if accepted_uuid (dict_get "parent" pd) then dict_get "parent" pd
       else PyNone) /\
    Proxy.locator_scale px =
      (if truthy (dict_get "locatorScale" pd) then dict_get "locatorScale" pd
       else PyInt 1) /\
    Proxy.attr_dict px =
      match read_metadata (dict_get "attributes" pd) with
      | Some d => d
      | None => []
      end /\
    Proxy.metadata px = read_metadata (dict_get "metadata" pd) /\
    (accepted_uuid (dict_get "uuid" pd) = false ->
     accepted_uuid (PyStr (fst entry)) = true ->
     Proxy.uuid px = fst entry) /\
    (accepted_uuid (dict_get "uuid" pd) = true ->
     PyStr (Proxy.uuid px) = dict_get "uuid" pd) /\
    (accepted_uuid (dict_get "uuid" pd) = false ->
     accepted_uuid (PyStr (fst entry)) = false ->
     exists n, Proxy.uuid px = uuid4_hex n) /\
    Proxy.transform px =
      (if block_of_three (dict_get "transform" pd)
       then Some (transform_from (dict_get "transform" pd) None)
       else None) /\
    Proxy.offset_transform px =
      (if block_of_three (dict_get "offsetTransform" pd)
       then Some (transform_from (dict_get "transform" pd) None)
       else None) /\
    Proxy.curve px = CurveOps.set_name (Proxy.name px) proxy_joint_curve.

(** The module object [m] is a plain ModuleGeneric that holds what the
    description of the entry says. *)
Definition read_as_generic `{Externals} (entry : string * pyval)
    (m : ModuleObj) : Prop :=
  exists d gm,
    snd entry = PyDict d /\
    m = generic_obj gm /\
    ModuleGeneric.name gm = as_nonempty_str (dict_get "name" d) /\
    ModuleGeneric.prefix gm = as_nonempty_str (dict_get "prefix" d) /\
    ModuleGeneric.parent_uuid gm =
      (if accepted_uuid (dict_get "parent" d) then dict_get "parent" d
       else PyNone) /\
    ModuleGeneric.active gm = read_active (dict_get "active" d) /\
    ModuleGeneric.metadata gm = read_metadata (dict_get "metadata" d) /\
    match dict_get "proxies" d with
    | PyDict pd => Forall2 proxy_read_from pd (ModuleGeneric.proxies gm)
    | _ => ModuleGeneric.proxies gm = []
    end.

(** The key of an entry of "modules" names a class of the registry. *)
Definition registered (RigModules : list (string * ModuleClass))
    (class_name : string) : bool :=
  match RigProject.available_modules_get
          (RigProject.full_class_name class_name) RigModules with
  | Some _ => true
  | None => false
  end.

(** The attributes of a ModuleGeneric. *)
Definition module_core (m : ModuleGeneric.t) :=
  (ModuleGeneric.name m, ModuleGeneric.prefix m, ModuleGeneric.parent_uuid m,
   ModuleGeneric.proxies m, ModuleGeneric.active m, ModuleGeneric.metadata m).

(** ** The calls of the project build *)

(** The message of the TypeError raised by
    [add_attr(target_list=setup, ...)]. *)
Definition unexpected_target_list : string :=
  "add_attr() got an unexpected keyword argument 'target_list'".

(** The calls that come before [add_attr] in the two build functions,
    and the refresh calls around them. *)
Definition before_add_attr (c : Build.Call) : bool :=
  match c with
  | Build.cmds_refresh_suspend _
  | Build.cmds_refresh
  | Build.create_proxy_root_curve
  | Build.create_control_root_curve
  | Build.cmds_group _
  | Build.Node _ => true
  | _ => false
  end.

(** Phase 3, joint creation: [module.build_rig()]. *)
Definition is_build_rig (c : Build.Call) : bool :=
  match c with Build.module_build_rig _ => true | _ => false end.

(** Phase 4, joint parenting: [module.build_rig_post()]. *)
Definition is_build_rig_post (c : Build.Call) : bool :=
  match c with Build.module_build_rig_post _ => true | _ => false end.

(** Phase 1: [module.build_proxy()]. *)
Definition is_build_proxy (c : Build.Call) : bool :=
  match c with Build.module_build_proxy _ => true | _ => false end.

(** The second pass of [build_proxy]: parenting of the proxies, the
    visualization lines, the attributes and [module.build_proxy_post()]. *)
Definition is_wiring (c : Build.Call) : bool :=
  match c with
  | Build.parent_proxies _
  | Build.create_proxy_visualization_lines _ _
  | Build.proxy_apply_attr_dict _ _
  | Build.module_build_proxy_post _ => true
  | _ => false
  end.

(** The positions of the active modules among [ims]. *)
Definition active_indices (ims : list (nat * ModuleObj)) : list nat :=
  map fst (filter (fun im => Build.active_state (snd im)) ims).

(** The calls made split in two parts: no late call in the first, no
    early call in the second, and all the [required] calls in the first
    when a late call is made at all. *)
Definition two_passes (early late : Build.Call -> bool)
    (required : list Build.Call) (made : list Build.Call) : Prop :=
  exists L R,
    made = L ++ R /\
    Forall (fun c => late c = false) L /\
    Forall (fun c => early c = false) R /\
    (existsb late R = true -> incl required L).

(** A computation that only adds calls satisfying [P] to the trace. *)
Definition appends {A} (P : Build.Call -> Prop) (m : Build.B A) : Prop :=
  forall tr, exists o made, m tr = (o, tr ++ made) /\ Forall P made.

(** The refresh bracket of [build_proxy] and [build_rig] around [body]. *)
Definition refresh_bracket (backend : Build.Backend) (body : Build.B unit)
  : Build.B unit :=
  (Build.call_ backend (Build.cmds_refresh_suspend true) ;;;
   try_finally
     (try_except body (fun e => raise e))
     (Build.call_ backend (Build.cmds_refresh_suspend false) ;;;
      Build.call_ backend Build.cmds_refresh))%py.

(** The calls to [cmds.refresh] do not raise. *)
Definition refresh_total (backend : Build.Backend) : Prop :=
  forall tr,
    (forall b, Build.raises backend tr (Build.cmds_refresh_suspend b) = None)
    /\ Build.raises backend tr Build.cmds_refresh = None.

(** ** The chain of a spine *)

(** A UUID that [set_parent_uuid] and [add_meta_parent] both take. *)
Definition full_uuid `{Externals} (u : string) : bool :=
  negb (u =? "") && is_uuid_valid u.

(** Each proxy of the list has the one before it as parent, the first one
    has [parent]. *)
Fixpoint chained (parent : string) (spines : list Proxy.t) : Prop :=
  match spines with
  | [] => True
  | s :: rest =>
      Proxy.parent_uuid s = PyStr parent /\ chained (Proxy.uuid s) rest
  end.

(** [self.spines[-1].get_uuid()], or the UUID of the hip when there is no
    spine. *)
Definition last_uuid (hip_uuid : string) (spines : list Proxy.t) : string :=
  match rev spines with
  | last :: _ => Proxy.get_uuid last
  | [] => hip_uuid
  end.

(** The UUIDs of a spine module validate and its spines are chained from
    the hip. *)
Definition spine_chain `{Externals} (m : ModuleSpine.t) : Prop :=
  full_uuid (Proxy.uuid (ModuleSpine.hip m)) = true /\
  Forall (fun s => full_uuid (Proxy.uuid s) = true) (ModuleSpine.spines m) /\
  chained (Proxy.uuid (ModuleSpine.hip m)) (ModuleSpine.spines m).

(** What holds of a ModuleSpine once constructed, and after each
    [set_spine_num]. *)
Definition spine_wf `{Externals} (m : ModuleSpine.t) : Prop :=
  spine_chain m /\
  Proxy.get_meta_parent_uuid (ModuleSpine.chest m) =
    PyStr (last_uuid (Proxy.get_uuid (ModuleSpine.hip m))
             (ModuleSpine.spines m)) /\
  ModuleSpine.proxies m =
    ModuleSpine.hip m :: ModuleSpine.spines m ++ [ModuleSpine.chest m].

(** The end of [set_spine_num]: the chest is given the last spine (or the
    hip) as meta parent and the list of proxies is refreshed. *)
Definition relink_chest `{Externals} (m : ModuleSpine.t) : ModuleSpine.t :=
  ModuleSpine.refresh_proxies_list
    (ModuleSpine.with_chest
       (Proxy.add_meta_parent
          (Proxy.AVal
             (PyStr (last_uuid (Proxy.get_uuid (ModuleSpine.hip m))
                       (ModuleSpine.spines m))))
          (ModuleSpine.chest m))
       m).

(** ** Further predicates *)

(** The items of a list or a tuple. *)
Definition sequence_items (v : pyval) : option (list pyval) :=
  match v with
  | PyList l => Some l
  | PyTuple l => Some l
  | _ => None
  end.

(** The fields of a Proxy other than its attribute dictionary. *)
Definition proxy_but_attr_dict (p : Proxy.t) :=
  (Proxy.name p, Proxy.transform p, Proxy.offset_transform p, Proxy.curve p,
   Proxy.uuid p, Proxy.parent_uuid p, Proxy.locator_scale p,
   Proxy.metadata p).


(** The entry of the "proxies" dictionary of a module for one proxy. *)
Definition proxy_entry `{Externals} (include_offset_data : bool)
    (p : Proxy.t) : string * pyval :=
  (Proxy.get_uuid p,
   PyDict (Proxy.get_proxy_as_dict false true include_offset_data p)).

(** What a fresh [Proxy()] holds after it read the description of [p]
    under the key [Proxy.uuid p].  The transform comes back; the offset
    transform, when the description has one, comes back as the transform
    of [p], since the reader fills it from the block under "transform";
    the curve is not part of the description. *)
Definition proxy_restored `{Externals} (include_offset_data : bool)
    (p px : Proxy.t) : Prop :=
  Proxy.name px = (if Proxy.name p =? "" then "proxy" else Proxy.name p) /\
  Proxy.parent_uuid px =
    (if accepted_uuid (Proxy.parent_uuid p) then Proxy.parent_uuid p
     else PyNone) /\
  Proxy.locator_scale px =
    (if truthy (Proxy.locator_scale p) then Proxy.locator_scale p
     else PyInt 1) /\
  Proxy.attr_dict px = Proxy.attr_dict p /\
  Proxy.metadata px =
    match Proxy.metadata p with
    | Some (e :: m) => Some (e :: m)
    | _ => None
    end /\
  (accepted_uuid (PyStr (Proxy.uuid p)) = true ->
   Proxy.uuid px = Proxy.uuid p) /\
  (accepted_uuid (PyStr (Proxy.uuid p)) = false ->
   exists n, Proxy.uuid px = uuid4_hex n) /\
  Proxy.transform px = Proxy.transform p /\
  Proxy.offset_transform px =
    match Proxy.offset_transform p with
    | Some _ =>
        if include_offset_data
        then Some match Proxy.transform p with
                  | Some tr => tr
                  | None => TransformOps.default
                  end
        else None
    | None => None
    end /\
  Proxy.curve px = CurveOps.set_name (Proxy.name px) proxy_joint_curve.


(** The proxies of the list are named after their position, counted from
    [offset]: [spine01], [spine02], ... for [offset = 0]. *)
Definition spine_named `{Externals} (offset : nat) (l : list Proxy.t)
  : Prop :=
  forall i s,
    nth_error l i = Some s ->
    Proxy.name s = ModuleSpine.spine_name (offset + i).


(** The module that a call of the project build is made for, if any. *)
Definition call_module (c : Build.Call) : option nat :=
  match c with
  | Build.module_build_proxy i
  | Build.parent_proxies i
  | Build.create_proxy_visualization_lines i _
  | Build.proxy_apply_attr_dict i _
  | Build.module_build_proxy_post i
  | Build.module_build_rig i
  | Build.module_build_rig_post i => Some i
  | _ => None
  end.

(** A call made for a module is made for an active module of the list. *)
Definition for_active_module (modules : list ModuleObj) (c : Build.Call)
  : Prop :=
  match call_module c with
  | Some i =>
      exists m, nth_error modules i = Some m /\ Build.active_state m = true
  | None => True
  end.


(** ** Calls of [hierarchy_utils.parent] *)

(** A computation over a trace that only adds calls satisfying [P]. *)
Definition adds {C A} (P : C -> Prop) (m : Eff (list C) A) : Prop :=
  forall tr, exists o made, m tr = (o, tr ++ made) /\ Forall P made.

(** [target_parent] is a string that is not empty. *)
Definition has_name (name : option string) : bool :=
  match name with
  | Some (String _ _) => true
  | _ => false
  end.

(** A call that neither reads nor changes the hierarchy of the scene. *)
Definition no_scene_access (c : HierarchyUtils.Call) : bool :=
  match c with
  | HierarchyUtils.cmds_ls_selection
  | HierarchyUtils.log_when_true _ _ _ => true
  | _ => false
  end.

Definition is_cmds_parent (c : HierarchyUtils.Call) : bool :=
  match c with
  | HierarchyUtils.cmds_parent _ _ => true
  | _ => false
  end.

Definition is_cmds_select (c : HierarchyUtils.Call) : bool :=
  match c with
  | HierarchyUtils.cmds_select _ => true
  | _ => false
  end.

(** The names among the children that are strings and not empty. *)
Definition child_names (children : list (option string)) : list string :=
  flat_map
    (fun child =>
       match child with
       | Some (String c s) => [String c s]
       | _ => []
       end)
    children.

(** The names among [source_objects] that are strings and not empty. *)
Definition source_names (source_objects : HierarchyUtils.sources)
  : list string :=
  match source_objects with
  | HierarchyUtils.SourceStr (String c s) => [String c s]
  | HierarchyUtils.SourceSeq l => child_names l
  | _ => []
  end.

(** A call to [cmds.parent] moves one of [names] under [target]. *)
Definition reparents (names : list string) (target : string)
    (c : HierarchyUtils.Call) : Prop :=
  match c with
  | HierarchyUtils.cmds_parent child target_parent =>
      In child names /\ target_parent = target
  | _ => True
  end.

(** In the scene every object has [target] as its first parent. *)
Definition all_under (backend : HierarchyUtils.Backend) (target : string)
  : Prop :=
  forall tr child,
    exists rest,
      HierarchyUtils.listRelatives backend tr child = target :: rest.

(** No call raises, except maybe [cmds.select]. *)
Definition quiet_but_select (backend : HierarchyUtils.Backend) : Prop :=
  forall tr c,
    is_cmds_select c = false -> HierarchyUtils.raises backend tr c = None.


(** A computation over a trace that only adds calls satisfying [P] and
    whose result, when it returns, satisfies [R]. *)
Definition adds_giving {C A} (P : C -> Prop) (R : A -> Prop)
    (m : Eff (list C) A) : Prop :=
  forall tr,
    exists o made,
      m tr = (o, tr ++ made) /\ Forall P made /\
      (forall a, o = Return a -> R a).

(** * Properties *)

(** ** The monad and dictionaries *)

Lemma bind_ret_l {S A B} (a : A) (f : A -> Eff S B) (w : S) :
  bind (ret a) f w = f a w.
Proof. reflexivity. Qed.

Lemma bind_Return {S A B} (m : Eff S A) (f : A -> Eff S B) w a w' :
  m w = (Return a, w') -> bind m f w = f a w'.
Proof. intros E. unfold bind. now rewrite E. Qed.

Lemma bind_Raised {S A B} (m : Eff S A) (f : A -> Eff S B) w e w' :
  m w = (Raised e, w') -> bind m f w = (Raised e, w').
Proof. intros E. unfold bind. now rewrite E. Qed.

Lemma bind_inv_Return {S A B} (m : Eff S A) (f : A -> Eff S B) w b w2 :
  bind m f w = (Return b, w2) ->
  exists a w1, m w = (Return a, w1) /\ f a w1 = (Return b, w2).
Proof.
  unfold bind. destruct (m w) as [[a | e] w1]; intros E.
  - now exists a, w1.
  - discriminate.
Qed.

Lemma dict_get_set_eq k v d : dict_get k (dict_set k v d) = v.
Proof.
  induction d as [| [k' v'] d IH]; simpl.
  - now rewrite String.eqb_refl.
  - destruct (k =? k') eqn:E; simpl; rewrite E; auto.
Qed.

Lemma dict_get_set_neq k k' v d :
  k <> k' -> dict_get k (dict_set k' v d) = dict_get k d.
Proof.
  intros N. induction d as [| [k2 v2] d IH]; simpl.
  - destruct (String.eqb_spec k k'); congruence.
  - destruct (String.eqb_spec k' k2) as [-> | N2]; simpl.
    + destruct (String.eqb_spec k k2); congruence.
    + destruct (String.eqb_spec k k2); auto.
Qed.

Lemma dict_mem_set k k' v d :
  dict_mem k (dict_set k' v d) = (k =? k') || dict_mem k d.
Proof.
  induction d as [| [k2 v2] d IH]; simpl.
  - now destruct (k =? k').
  - destruct (String.eqb_spec k' k2) as [-> | N2]; simpl.
    + destruct (k =? k2); reflexivity.
    + rewrite IH. destruct (k =? k2), (k =? k'); reflexivity.
Qed.

Lemma dict_set_length k v d :
  length (dict_set k v d) = if dict_mem k d then length d else S (length d).
Proof.
  induction d as [| [k2 v2] d IH]; simpl; auto.
  destruct (k =? k2); simpl; auto.
  rewrite IH. now destruct (dict_mem k d).
Qed.

(** ** Running the monad in proofs *)

Ltac inv H := inversion H; subst; clear H.

(** Split a hypothesis [bind m f w = (Return b, w')] into its steps. *)
Ltac bind_inv H :=
  let a := fresh "a" in
  let w1 := fresh "w" in
  let H1 := fresh "Hstep" in
  apply bind_inv_Return in H; destruct H as (a & w1 & H1 & H).

Ltac ret_inv H :=
  unfold ret in H; inv H.

(** ** Proxy setters *)

Section ProxySetters.
Context `{Externals}.

Lemma set_locator_scale_spec (scale : pyval) (p : Proxy.t) (w : World) :
  Proxy.set_locator_scale scale p w =
    (Return (Proxy.with_locator_scale scale p),
     if is_float_or_int scale then w
     else logged DEBUG "Unable to set locator scale. Invalid input." w).
Proof.
  unfold Proxy.set_locator_scale, bind.
  destruct (is_float_or_int scale); reflexivity.
Qed.

(** The setters other than [set_locator_scale] turn down a value of the
    wrong type: one call to the logger, no exception, the proxy as it was. *)
Lemma setters_reject_wrong_type (p : Proxy.t) (w : World) :
  (forall v, is_str v = false ->
     exists lvl msg, Proxy.set_name v p w = (Return p, logged lvl msg w)) /\
  (forall v, is_Transform v = false ->
     exists lvl msg,
       Proxy.set_transform v p w = (Return p, logged lvl msg w)) /\
  (forall v, is_Transform v = false ->
     exists lvl msg,
       Proxy.set_offset_transform v p w = (Return p, logged lvl msg w)) /\
  (forall v b, is_Curve v = false ->
     exists lvl msg, Proxy.set_curve v b p w = (Return p, logged lvl msg w)) /\
  (forall v, is_dict v = false ->
     exists lvl msg,
       Proxy.set_attr_dict v p w = (Return p, logged lvl msg w)) /\
  (forall v, is_dict v = false ->
     exists lvl msg,
       Proxy.set_metadata_dict v p w = (Return p, logged lvl msg w)) /\
  (forall v, is_str v = false ->
     exists lvl msg, Proxy.set_uuid v p w = (Return p, logged lvl msg w)) /\
  (forall v, is_str v = false ->
     exists lvl msg,
       Proxy.set_parent_uuid v p w = (Return p, logged lvl msg w)).
Proof.
  repeat split; intros v; intros;
    destruct v; try discriminate; simpl; do 2 eexists; reflexivity.
Qed.

End ProxySetters.

(** C2 (the code departs from the claim): on a Proxy as constructed,
    [set_locator_scale] called with a string logs, raises nothing, and
    stores the string all the same: the locator scale was [1] and is the
    string afterwards. *)
Theorem set_locator_scale_wrong_type_assigns :
  exists p w,
    @Proxy.new Sample.externals Sample.world0 = (Return p, w) /\
    Proxy.locator_scale p = PyInt 1 /\
    Proxy.set_locator_scale (PyStr "big") p w =
      (Return (Proxy.with_locator_scale (PyStr "big") p),
       logged DEBUG "Unable to set locator scale. Invalid input." w) /\
    Proxy.with_locator_scale (PyStr "big") p <> p.
Proof.
  eexists. eexists. split; [reflexivity |].
  split; [reflexivity |].
  split; [apply set_locator_scale_spec |].
  intros E. apply (f_equal Proxy.locator_scale) in E. discriminate E.
Qed.

(** ** Serialization of a Proxy *)

Lemma vec_of_as_list (v : Vector3) :
  TransformOps.vec_of_list (TransformOps.vec_as_list v) = Some v.
Proof. destruct v; reflexivity. Qed.

Lemma transform_dict_roundtrip (t t0 : Transform) :
  TransformOps.set_transform_from_dict
    (TransformOps.get_transform_as_dict t) t0 = t.
Proof.
  unfold TransformOps.set_transform_from_dict,
    TransformOps.get_transform_as_dict.
  rewrite !vec_of_as_list. destruct t; reflexivity.
Qed.

Lemma float_1_neq_4 : 1%float <> 4%float.
Proof.
  intros E.
  assert (F : PrimFloat.eqb 1 4 = true) by (rewrite <- E; reflexivity).
  vm_compute in F. discriminate F.
Qed.

Section ProxyRoundTrip.
Context `{Externals}.

(** What [read_data_from_dict] makes of the dictionary of a proxy [p] whose
    name, locator scale and parent are values the reader takes: every field
    named by the dictionary is the one of [p], except that the offset
    transform receives the data of the transform block. *)
Lemma read_proxy_as_dict (p q : Proxy.t) (w : World) :
  Proxy.name p <> "" ->
  truthy (Proxy.locator_scale p) = true ->
  Proxy.parent_uuid p = PyNone \/ accepted_uuid (Proxy.parent_uuid p) = true ->
  Proxy.transform p <> None ->
  Proxy.offset_transform p <> None ->
  Proxy.attr_dict p <> [] ->
  (exists e d, Proxy.metadata p = Some (e :: d)) ->
  Proxy.parent_uuid q = PyNone ->
  exists q' w',
    Proxy.read_data_from_dict
      (PyDict (Proxy.get_proxy_as_dict false true true p)) q w
    = (Return (q', Proxy.ReturnedSelf), w') /\
    Proxy.name q' = Proxy.name p /\
    Proxy.parent_uuid q' = Proxy.parent_uuid p /\
    Proxy.locator_scale q' = Proxy.locator_scale p /\
    Proxy.transform q' = Proxy.transform p /\
    Proxy.attr_dict q' = Proxy.attr_dict p /\
    Proxy.metadata q' = Proxy.metadata p /\
    Proxy.uuid q' = Proxy.uuid q /\
    Proxy.offset_transform q' = Proxy.transform p.
Proof.
  intros Hname Hscale Hparent Htr Hoff Hattr (e & d & Hmeta) Hq.
  destruct p as [pname ptr poff pcurve puuid pparent pscale pattr pmeta].
  destruct q as [qname qtr qoff qcurve quuid qparent qscale qattr qmeta].
  simpl in *. subst pmeta qparent.
  destruct pname as [| c pname]; [congruence |].
  destruct ptr as [ptr |]; [| congruence].
  destruct poff as [poff |]; [| congruence].
  destruct pattr as [| a pattr]; [congruence |].
  unfold Proxy.read_data_from_dict, Proxy.get_proxy_as_dict,
    Proxy.get_metadata, Proxy.get_attr_dict, Proxy.get_parent_uuid.
  cbn -[TransformOps.get_transform_as_dict
        TransformOps.set_transform_from_dict].
  unfold bind at 1. cbn -[TransformOps.get_transform_as_dict
        TransformOps.set_transform_from_dict].
  assert (Hset :
    forall r : Proxy.t, Proxy.parent_uuid r = PyNone ->
      forall w0, exists r',
        when (truthy pparent) (Proxy.set_parent_uuid pparent) r w0
        = (Return r', w0) /\
        Proxy.parent_uuid r' = pparent /\
        Proxy.with_parent_uuid PyNone r' = Proxy.with_parent_uuid PyNone r).
  { intros r Hr w0. destruct Hparent as [-> | Hacc].
    - exists r. simpl. repeat split; auto.
    - destruct pparent; try discriminate. unfold accepted_uuid in Hacc.
      apply andb_prop in Hacc. destruct Hacc as [Ht Hv].
      exists (Proxy.with_parent_uuid (PyStr s) r).
      unfold when, Proxy.set_parent_uuid.
      rewrite Ht. simpl. rewrite Hv. repeat split; auto. }
  match goal with
  | |- context [when (truthy pparent) _ ?r] =>
      destruct (Hset r eq_refl w) as (r' & Er & Hp & Hrest)
  end.
  unfold bind at 1. rewrite Er.
  destruct r' as [n1 t1 o1 c1 u1 pa1 s1 a1 m1].
  unfold Proxy.with_parent_uuid in Hrest. simpl in Hrest, Hp.
  injection Hrest as -> -> -> -> -> -> -> ->. subst pa1.
  rewrite Hscale.
  unfold when at 1. unfold bind at 1. rewrite set_locator_scale_spec.
  unfold bind. 
  cbn -[TransformOps.get_transform_as_dict
        TransformOps.set_transform_from_dict].
  do 2 eexists. split; [reflexivity |].
  destruct qtr, qoff;
    cbn -[TransformOps.get_transform_as_dict
          TransformOps.set_transform_from_dict];
    rewrite ?transform_dict_roundtrip; repeat split; reflexivity.
Qed.

End ProxyRoundTrip.

(** C1 (the code departs from the claim): the dictionary of the proxy
    [Sample.arm], read into a Proxy as constructed, gives back the name,
    parent, locator scale, transform, attributes and metadata, and puts the
    data of the transform block into the offset transform: the offset
    transform of [Sample.arm] is not reproduced. *)
Theorem proxy_dict_roundtrip_loses_offset_transform :
  exists q0 w0 q w,
    @Proxy.new Sample.externals Sample.world0 = (Return q0, w0) /\
    @Proxy.read_data_from_dict Sample.externals
      (PyDict (Proxy.get_proxy_as_dict false true true Sample.arm)) q0 w0
    = (Return (q, Proxy.ReturnedSelf), w) /\
    Proxy.name q = Proxy.name Sample.arm /\
    Proxy.parent_uuid q = Proxy.parent_uuid Sample.arm /\
    Proxy.locator_scale q = Proxy.locator_scale Sample.arm /\
    Proxy.transform q = Proxy.transform Sample.arm /\
    Proxy.attr_dict q = Proxy.attr_dict Sample.arm /\
    Proxy.metadata q = Proxy.metadata Sample.arm /\
    Proxy.offset_transform q = Proxy.transform Sample.arm /\
    Proxy.offset_transform q <> Proxy.offset_transform Sample.arm.
Proof.
  assert (Hname : Proxy.name Sample.arm <> "") by (simpl; congruence).
  assert (Hscale : truthy (Proxy.locator_scale Sample.arm) = true)
    by reflexivity.
  assert (Hparent : Proxy.parent_uuid Sample.arm = PyNone \/
                    @accepted_uuid Sample.externals
                      (Proxy.parent_uuid Sample.arm) = true)
    by (right; vm_compute; reflexivity).
  assert (Htr : Proxy.transform Sample.arm <> None) by (simpl; congruence).
  assert (Hoff : Proxy.offset_transform Sample.arm <> None)
    by (simpl; congruence).
  assert (Hattr : Proxy.attr_dict Sample.arm <> []) by (simpl; congruence).
  assert (Hmeta : exists e d, Proxy.metadata Sample.arm = Some (e :: d))
    by (simpl; eauto).
  destruct (@read_proxy_as_dict Sample.externals Sample.arm Sample.fresh
              {| uuid_count := 1; log := [] |}
              Hname Hscale Hparent Htr Hoff Hattr Hmeta eq_refl)
    as (q & w & Hrun & Hn & Hp & Hs & Ht & Ha & Hm & _ & Ho).
  exists Sample.fresh, {| uuid_count := 1; log := [] |}, q, w.
  split; [reflexivity |].
  split; [exact Hrun |].
  repeat (split; [assumption |]).
  rewrite Ho. intros E.
  apply (f_equal (fun o => match o with
                           | Some t => vx (position t)
                           | None => 0%float
                           end)) in E.
  now apply float_1_neq_4.
Qed.

(** ** The parent UUID of a Proxy *)

Section ProxyParent.
Context `{Externals}.

Ltac run_in E :=
  unfold bind, logger, ret, when, raise in E; simpl in E.

Ltac split_cases E :=
  repeat (match type of E with
          | context [match ?x with _ => _ end] =>
              destruct x eqn:?; simpl in E
          end);
  try discriminate E; try (inv E; reflexivity).

Lemma accepted_uuid_ok v : accepted_uuid v = true -> parent_uuid_ok v = true.
Proof.
  destruct v; simpl; try discriminate.
  intros E. apply andb_prop in E. tauto.
Qed.

Lemma set_parent_uuid_spec (v : pyval) (p : Proxy.t) (w : World) :
  Proxy.set_parent_uuid v p w =
    if accepted_uuid v then (Return (Proxy.with_parent_uuid v p), w)
    else (Return p,
          logged WARNING
            "Unable to set proxy parent UUID. Invalid UUID input." w).
Proof.
  destruct v; try reflexivity.
  unfold Proxy.set_parent_uuid, accepted_uuid.
  destruct (truthy (PyStr s)); simpl; [| reflexivity].
  destruct (is_uuid_valid s || is_short_uuid_valid s); reflexivity.
Qed.

Lemma when_keeps_parent_uuid c f :
  keeps_parent_uuid f -> keeps_parent_uuid (when c f).
Proof.
  intros K p w p' w' E. destruct c; simpl in E.
  - eauto.
  - now inv E.
Qed.

Lemma set_name_keeps v : keeps_parent_uuid (Proxy.set_name v).
Proof.
  intros p w p' w' E. unfold Proxy.set_name in E. run_in E. split_cases E.
Qed.

Lemma set_transform_keeps v : keeps_parent_uuid (Proxy.set_transform v).
Proof.
  intros p w p' w' E. unfold Proxy.set_transform in E. run_in E.
  split_cases E.
Qed.

Lemma set_offset_transform_keeps v :
  keeps_parent_uuid (Proxy.set_offset_transform v).
Proof.
  intros p w p' w' E. unfold Proxy.set_offset_transform in E. run_in E.
  split_cases E.
Qed.

Lemma set_locator_scale_keeps v :
  keeps_parent_uuid (Proxy.set_locator_scale v).
Proof.
  intros p w p' w' E. rewrite set_locator_scale_spec in E. now inv E.
Qed.

Lemma set_attr_dict_keeps v : keeps_parent_uuid (Proxy.set_attr_dict v).
Proof.
  intros p w p' w' E. unfold Proxy.set_attr_dict in E. run_in E.
  split_cases E.
Qed.

Lemma set_metadata_dict_keeps v :
  keeps_parent_uuid (Proxy.set_metadata_dict v).
Proof.
  intros p w p' w' E. unfold Proxy.set_metadata_dict in E. run_in E.
  split_cases E.
Qed.

Lemma set_uuid_keeps v : keeps_parent_uuid (Proxy.set_uuid v).
Proof.
  intros p w p' w' E. unfold Proxy.set_uuid in E. run_in E. split_cases E.
Qed.

Lemma set_curve_keeps v b : keeps_parent_uuid (Proxy.set_curve v b).
Proof.
  intros p w p' w' E. unfold Proxy.set_curve in E.
  destruct v; try (run_in E; now inv E).
  destruct (negb (CurveOps.is_curve_valid c)); [run_in E; now inv E |].
  destruct b; [| run_in E; now inv E].
  bind_inv E. ret_inv E. simpl. eapply set_name_keeps; eauto.
Qed.

Lemma add_color_keeps v : keeps_parent_uuid (Proxy.add_color v).
Proof.
  intros p w p' w' E. unfold Proxy.add_color in E. run_in E. split_cases E.
Qed.

Lemma map_transform_parent f p :
  Proxy.parent_uuid (Proxy.map_transform f p) = Proxy.parent_uuid p.
Proof. unfold Proxy.map_transform. now destruct (Proxy.transform p). Qed.

Lemma map_offset_transform_parent f p :
  Proxy.parent_uuid (Proxy.map_offset_transform f p) = Proxy.parent_uuid p.
Proof.
  unfold Proxy.map_offset_transform. now destruct (Proxy.offset_transform p).
Qed.

Lemma _initialize_transform_parent p :
  Proxy.parent_uuid (Proxy._initialize_transform p) = Proxy.parent_uuid p.
Proof.
  unfold Proxy._initialize_transform. now destruct (Proxy.transform p).
Qed.

Lemma _initialize_offset_transform_parent p :
  Proxy.parent_uuid (Proxy._initialize_offset_transform p)
  = Proxy.parent_uuid p.
Proof.
  unfold Proxy._initialize_offset_transform.
  now destruct (Proxy.offset_transform p).
Qed.

Lemma add_meta_parent_parent a p :
  Proxy.parent_uuid (Proxy.add_meta_parent a p) = Proxy.parent_uuid p.
Proof.
  unfold Proxy.add_meta_parent.
  destruct a as [[] |]; try reflexivity.
  now destruct (is_uuid_valid s).
Qed.

(** After [when (truthy v) (set_parent_uuid v)] the parent is the old one,
    or it is [v] and [v] was accepted. *)
Lemma when_set_parent_uuid v p w p' w' :
  when (truthy v) (Proxy.set_parent_uuid v) p w = (Return p', w') ->
  (Proxy.parent_uuid p' = Proxy.parent_uuid p /\
   (accepted_uuid v = true -> Proxy.parent_uuid p = v)) \/
  (accepted_uuid v = true /\ Proxy.parent_uuid p' = v).
Proof.
  unfold when. destruct (truthy v) eqn:T.
  - rewrite set_parent_uuid_spec. destruct (accepted_uuid v) eqn:A; intros E.
    + inv E. right. auto.
    + inv E. left. split; [reflexivity | discriminate].
  - intros E. inv E. left. split; [reflexivity |].
    destruct v; try discriminate. unfold accepted_uuid. rewrite T.
    discriminate.
Qed.

(** What [read_data_from_dict] does to the parent: it is the old one, or it
    is the accepted value found under "parent". *)
Lemma read_data_from_dict_parent v p w p' r w' :
  Proxy.read_data_from_dict v p w = (Return (p', r), w') ->
  Proxy.parent_uuid p' = Proxy.parent_uuid p \/
  (exists d, v = PyDict d /\ accepted_uuid (dict_get "parent" d) = true /\
             Proxy.parent_uuid p' = dict_get "parent" d).
Proof.
  unfold Proxy.read_data_from_dict.
  destruct (truthy v && negb (is_dict v)).
  - intros E. run_in E. inv E. now left.
  - intros E.
    destruct v; try (unfold bind, py_get, raise in E; discriminate E).
    unfold py_get at 1 in E. rewrite bind_ret_l in E.
    bind_inv E. apply (when_keeps_parent_uuid _ (set_name_keeps _)) in Hstep.
    unfold py_get at 1 in E. rewrite bind_ret_l in E.
    bind_inv E. apply when_set_parent_uuid in Hstep0.
    unfold py_get at 1 in E. rewrite bind_ret_l in E.
    bind_inv E. apply (when_keeps_parent_uuid _ (set_locator_scale_keeps _))
      in Hstep1.
    unfold py_get at 1 in E. rewrite bind_ret_l in E.
    bind_inv E. bind_inv E.
    assert (K1 : Proxy.parent_uuid a3 = Proxy.parent_uuid a1).
    { destruct a2; simpl in Hstep3; inv Hstep3; [| reflexivity].
      now rewrite map_transform_parent, _initialize_transform_parent. }
    unfold py_get at 1 in E. rewrite bind_ret_l in E.
    bind_inv E. bind_inv E.
    assert (K2 : Proxy.parent_uuid a5 = Proxy.parent_uuid a3).
    { destruct a4; simpl in Hstep5; inv Hstep5; [| reflexivity].
      now rewrite map_offset_transform_parent,
        _initialize_offset_transform_parent. }
    unfold py_get at 1 in E. rewrite bind_ret_l in E.
    bind_inv E. apply (when_keeps_parent_uuid _ (set_attr_dict_keeps _))
      in Hstep6.
    unfold py_get at 1 in E. rewrite bind_ret_l in E.
    bind_inv E. apply (when_keeps_parent_uuid _ (set_metadata_dict_keeps _))
      in Hstep7.
    unfold py_get at 1 in E. rewrite bind_ret_l in E.
    bind_inv E. apply (when_keeps_parent_uuid _ (set_uuid_keeps _)) in Hstep8.
    ret_inv E.
    assert (K : Proxy.parent_uuid p' = Proxy.parent_uuid a0) by congruence.
    rewrite K.
    destruct Hstep0 as [[E0 _] | [A E0]].
    + left. congruence.
    + right. exists d. repeat split; auto.
Qed.

End ProxyParent.

Section ProxyParentInvariant.
Context `{Externals}.

Lemma run_op_parent (op : proxy_op) p w p' w' :
  run_op op p w = (Return p', w') ->
  Proxy.parent_uuid p' = Proxy.parent_uuid p \/
  parent_uuid_ok (Proxy.parent_uuid p') = true.
Proof.
  destruct op; cbn [run_op]; intros E;
    try (left; ret_inv E; reflexivity).
  - left. eapply set_name_keeps; eauto.
  - left. eapply set_transform_keeps; eauto.
  - left. eapply set_offset_transform_keeps; eauto.
  - left. ret_inv E. unfold Proxy.set_position.
    now rewrite map_transform_parent, _initialize_transform_parent.
  - left. ret_inv E. unfold Proxy.set_offset_position.
    now rewrite map_offset_transform_parent,
      _initialize_offset_transform_parent.
  - left. ret_inv E.
    unfold Proxy.set_initial_position, Proxy.set_offset_position,
      Proxy.set_position.
    now rewrite map_offset_transform_parent,
      _initialize_offset_transform_parent, map_transform_parent,
      _initialize_transform_parent.
  - left. eapply set_curve_keeps; eauto.
  - left. eapply set_locator_scale_keeps; eauto.
  - left. eapply set_attr_dict_keeps; eauto.
  - left. eapply set_metadata_dict_keeps; eauto.
  - left. ret_inv E. apply add_meta_parent_parent.
  - left. eapply add_color_keeps; eauto.
  - left. eapply set_uuid_keeps; eauto.
  - rewrite set_parent_uuid_spec in E.
    destruct (accepted_uuid v) eqn:A; inv E; [right | now left].
    now apply accepted_uuid_ok.
  - destruct a as [v | q]; cbn [Proxy.set_parent_uuid_from_proxy] in E.
    + left. unfold bind, logger, ret in E. now inv E.
    + rewrite set_parent_uuid_spec in E.
      destruct (accepted_uuid (PyStr (Proxy.get_uuid q))) eqn:A; inv E;
        [right | now left].
      now apply accepted_uuid_ok.
  - right. ret_inv E. reflexivity.
  - bind_inv E. ret_inv E. destruct a as [q r]. simpl.
    apply read_data_from_dict_parent in Hstep.
    destruct Hstep as [K | (d & _ & A & K)]; [now left | right].
    rewrite K. now apply accepted_uuid_ok.
Qed.

Lemma __init___parent_ok name transform offset_transform curve uuid
    parent_uuid locator_scale attr_dict metadata w p w' :
  Proxy.__init__ name transform offset_transform curve uuid parent_uuid
    locator_scale attr_dict metadata w = (Return p, w') ->
  parent_uuid_ok (Proxy.parent_uuid p) = true.
Proof.
  unfold Proxy.__init__. intros E.
  bind_inv E. bind_inv E.
  apply (when_keeps_parent_uuid _ (set_name_keeps _)) in Hstep0.
  bind_inv E.
  apply (when_keeps_parent_uuid _ (set_transform_keeps _)) in Hstep1.
  bind_inv E.
  apply (when_keeps_parent_uuid _ (set_offset_transform_keeps _)) in Hstep2.
  bind_inv E.
  apply (when_keeps_parent_uuid _ (set_curve_keeps _ _)) in Hstep3.
  bind_inv E.
  apply (when_keeps_parent_uuid _ (set_uuid_keeps _)) in Hstep4.
  bind_inv E. apply when_set_parent_uuid in Hstep5.
  bind_inv E.
  apply (when_keeps_parent_uuid _ (set_locator_scale_keeps _)) in Hstep6.
  bind_inv E.
  apply (when_keeps_parent_uuid _ (set_attr_dict_keeps _)) in Hstep7.
  apply (when_keeps_parent_uuid _ (set_metadata_dict_keeps _)) in E.
  simpl in Hstep0.
  assert (K : Proxy.parent_uuid p = Proxy.parent_uuid a5) by congruence.
  rewrite K.
  destruct Hstep5 as [[E5 _] | [A E5]].
  - assert (K' : Proxy.parent_uuid a5 = PyNone) by congruence.
    now rewrite K'.
  - rewrite E5. now apply accepted_uuid_ok.
Qed.

End ProxyParentInvariant.

(** C9: on a Proxy whose [parent_uuid] is [None] or a string that a UUID
    validator accepts, every operation that returns leaves a
    [parent_uuid] of that kind.  [set_parent_uuid] called with anything
    that is not an accepted UUID string returns the proxy as it was;
    [read_data_from_dict] keeps the parent when the value under "parent"
    is not accepted; [set_parent_uuid_from_proxy] stores the UUID of the
    other proxy when it validates and nothing otherwise;
    [clear_parent_uuid] stores [None].  The constructor gives such a
    proxy. *)
Theorem proxy_parent_uuid_invariant `{Externals} (p : Proxy.t) (w : World) :
  parent_uuid_ok (Proxy.parent_uuid p) = true ->
  (forall op p' w',
     run_op op p w = (Return p', w') ->
     parent_uuid_ok (Proxy.parent_uuid p') = true) /\
  (forall v, accepted_uuid v = false ->
     exists w', Proxy.set_parent_uuid v p w = (Return p, w')) /\
  (forall v p' r w',
     Proxy.read_data_from_dict v p w = (Return (p', r), w') ->
     (forall d, v = PyDict d -> accepted_uuid (dict_get "parent" d) = false) ->
     Proxy.parent_uuid p' = Proxy.parent_uuid p) /\
  (forall q,
     exists w',
       Proxy.set_parent_uuid_from_proxy (Proxy.AProxy q) p w =
         (Return (if accepted_uuid (PyStr (Proxy.uuid q))
                  then Proxy.with_parent_uuid (PyStr (Proxy.uuid q)) p
                  else p), w')) /\
  (forall v,
     exists w',
       Proxy.set_parent_uuid_from_proxy (Proxy.AVal v) p w = (Return p, w')) /\
  Proxy.parent_uuid (Proxy.clear_parent_uuid p) = PyNone /\
  (forall a1 a2 a3 a4 a5 a6 a7 a8 a9 w0 p0 w1,
     Proxy.__init__ a1 a2 a3 a4 a5 a6 a7 a8 a9 w0 = (Return p0, w1) ->
     parent_uuid_ok (Proxy.parent_uuid p0) = true).
Proof.
  intros Hok. repeat split.
  - intros op p' w' E. apply run_op_parent in E.
    destruct E as [K | K]; [now rewrite K | exact K].
  - intros v A. rewrite set_parent_uuid_spec, A. eauto.
  - intros v p' r w' E Hrej.
    apply read_data_from_dict_parent in E.
    destruct E as [K | (d & -> & A & _)]; [exact K |].
    rewrite (Hrej d eq_refl) in A. discriminate A.
  - intros q. unfold Proxy.set_parent_uuid_from_proxy, Proxy.get_uuid.
    rewrite set_parent_uuid_spec.
    destruct (accepted_uuid (PyStr (Proxy.uuid q))); eauto.
  - intros v. simpl. unfold bind, logger, ret. eauto.
  - intros. eapply __init___parent_ok; eauto.
Qed.

Lemma proxy_parent_uuid_invariant_witness :
  @parent_uuid_ok Sample.externals (Proxy.parent_uuid Sample.arm) = true /\
  forall op p' w',
    @run_op Sample.externals op Sample.arm Sample.world0 = (Return p', w') ->
    @parent_uuid_ok Sample.externals (Proxy.parent_uuid p') = true.
Proof.
  split.
  - vm_compute. reflexivity.
  - apply (@proxy_parent_uuid_invariant Sample.externals Sample.arm
             Sample.world0).
    vm_compute. reflexivity.
Defined.

(** ** Reading a project dictionary that is not a dictionary *)

(** C10: [RigProject.read_data_from_dict] called with a value that is
    truthy and not a dictionary returns [None] (one debug record, no
    exception) and leaves the project with no modules and no metadata; its
    name and prefix are kept. *)
Theorem project_read_rejects_after_clearing `{Externals}
    (RigModules : list (string * ModuleClass)) (module_dict : pyval)
    (self : RigProject.t) (w : World) :
  truthy module_dict = true ->
  is_dict module_dict = false ->
  RigProject.read_data_from_dict RigModules module_dict self w =
    (Return ({| RigProject.name := RigProject.name self;
                RigProject.prefix := RigProject.prefix self;
                RigProject.modules := [];
                RigProject.metadata := None |},
             Proxy.ReturnedNone),
     logged DEBUG "Unable o read data from dict. Input must be a dictionary."
       w).
Proof.
  intros T D. unfold RigProject.read_data_from_dict.
  rewrite T, D. reflexivity.
Qed.

Lemma project_read_rejects_after_clearing_witness :
  truthy (PyInt 5) = true /\
  is_dict (PyInt 5) = false /\
  exists q w,
    @RigProject.read_data_from_dict Sample.externals Sample.registry
      (PyInt 5) Sample.project Sample.world0
    = (Return (q, Proxy.ReturnedNone), w) /\
    RigProject.modules q = [] /\ RigProject.metadata q = None /\
    RigProject.modules Sample.project <> [] /\
    RigProject.metadata Sample.project <> None.
Proof.
  split; [reflexivity |]. split; [reflexivity |].
  do 2 eexists. split.
  - apply (@project_read_rejects_after_clearing Sample.externals
             Sample.registry (PyInt 5) Sample.project Sample.world0);
      reflexivity.
  - repeat split; simpl; congruence.
Defined.

(** ** Modules keyed by class name *)

Lemma modules_as_dict_snoc ms m :
  RigProject.modules_as_dict (ms ++ [m]) =
    dict_set (RigProject.module_key m) (module_as_dict m)
      (RigProject.modules_as_dict ms).
Proof.
  unfold RigProject.modules_as_dict. now rewrite fold_left_app.
Qed.

Lemma modules_as_dict_get ms k :
  dict_get k (RigProject.modules_as_dict ms) =
    match last_with_key k ms with
    | Some m => module_as_dict m
    | None => PyNone
    end.
Proof.
  induction ms as [| m ms IH] using rev_ind; [reflexivity |].
  rewrite modules_as_dict_snoc. unfold last_with_key.
  rewrite rev_app_distr. simpl.
  destruct (String.eqb_spec (RigProject.module_key m) k) as [<- | N].
  - apply dict_get_set_eq.
  - rewrite dict_get_set_neq by congruence. exact IH.
Qed.

Lemma modules_as_dict_mem ms k :
  dict_mem k (RigProject.modules_as_dict ms) = true <->
  In k (map RigProject.module_key ms).
Proof.
  induction ms as [| m ms IH] using rev_ind; [simpl; split; easy |].
  rewrite modules_as_dict_snoc, dict_mem_set, map_app, in_app_iff.
  rewrite orb_true_iff, IH. simpl.
  destruct (String.eqb_spec k (RigProject.module_key m)); intuition congruence.
Qed.

Lemma modules_as_dict_length ms :
  length (RigProject.modules_as_dict ms) <= length ms /\
  (length (RigProject.modules_as_dict ms) = length ms ->
   NoDup (map RigProject.module_key ms)).
Proof.
  induction ms as [| m ms [IHle IHeq]] using rev_ind.
  - simpl. split; [lia | constructor].
  - rewrite modules_as_dict_snoc, dict_set_length, length_app. simpl.
    destruct (dict_mem (RigProject.module_key m)
                (RigProject.modules_as_dict ms)) eqn:M.
    + split; [lia | lia].
    + split; [lia |]. intros E.
      rewrite map_app. simpl.
      apply NoDup_app.
      * apply IHeq. lia.
      * repeat constructor. simpl. tauto.
      * intros k Hin [<- | []].
        apply modules_as_dict_mem in Hin. congruence.
Qed.

Lemma NoDup_of_map {A B} (f : A -> B) (l : list A) :
  NoDup (map f l) -> NoDup l.
Proof.
  induction l as [| a l IH]; simpl; intros N; [constructor |].
  inversion N as [| x xs Hnotin Hnd]; subst.
  constructor; [| auto].
  intros Hin. apply Hnotin. now apply in_map.
Qed.

Section ProjectRoundTrip.
Context `{Externals}.
Variable RigModules : list (string * ModuleClass).

Lemma read_module_entries_length entries :
  forall acc w ms w',
    RigProject.read_module_entries RigModules entries acc w = (Return ms, w') ->
    length ms = length acc + length entries.
Proof.
  induction entries as [| entry rest IH]; simpl; intros acc w ms w' E.
  - ret_inv E. lia.
  - bind_inv E. apply IH in E. rewrite length_app in E. simpl in E. lia.
Qed.

Lemma project_set_name_modules v p w p' w' :
  when (truthy v) (RigProject.set_name v) p w = (Return p', w') ->
  RigProject.modules p' = RigProject.modules p.
Proof.
  unfold when, RigProject.set_name. intros E.
  destruct (truthy v); [| now inv E].
  destruct v; unfold bind, logger, ret in E; now inv E.
Qed.

Lemma project_set_prefix_modules v p w p' w' :
  when (truthy v) (RigProject.set_prefix v) p w = (Return p', w') ->
  RigProject.modules p' = RigProject.modules p.
Proof.
  unfold when, RigProject.set_prefix. intros E.
  destruct (truthy v); [| now inv E].
  destruct v as [| b | z | f | [| c s] | l | l | d | t | c];
    unfold bind, logger, ret in E; now inv E.
Qed.

Lemma project_set_metadata_modules v p w p' w' :
  when (truthy v) (RigProject.set_metadata_dict v) p w = (Return p', w') ->
  RigProject.modules p' = RigProject.modules p.
Proof.
  unfold when, RigProject.set_metadata_dict. intros E.
  destruct (truthy v); [| now inv E].
  destruct v; unfold bind, logger, ret in E; now inv E.
Qed.

Lemma project_dict_modules (p : RigProject.t) :
  dict_get "modules" (RigProject.get_project_as_dict p) =
    PyDict (RigProject.modules_as_dict (RigProject.modules p)).
Proof.
  unfold RigProject.get_project_as_dict.
  destruct (RigProject.name p) as [| c n];
    destruct (RigProject.prefix p) as [[| c' s] |];
    destruct (RigProject.metadata p) as [[| e d] |]; reflexivity.
Qed.

(** Reading a dictionary puts one module in the project for each entry
    under "modules". *)
Lemma project_read_modules_length d q w q' r w' :
  RigProject.read_data_from_dict RigModules (PyDict d) q w
  = (Return (q', r), w') ->
  length (RigProject.modules q') =
    match dict_get "modules" d with
    | PyDict entries => length entries
    | _ => 0
    end.
Proof.
  unfold RigProject.read_data_from_dict.
  replace (truthy (PyDict d) && negb (is_dict (PyDict d))) with false
    by (simpl; now rewrite andb_false_r).
  intros E.
  unfold py_get at 1 in E. rewrite bind_ret_l in E.
  bind_inv E. apply project_set_name_modules in Hstep.
  unfold py_get at 1 in E. rewrite bind_ret_l in E.
  bind_inv E. apply project_set_prefix_modules in Hstep0.
  unfold py_get at 1 in E. rewrite bind_ret_l in E.
  bind_inv E.
  unfold py_get at 1 in E. rewrite bind_ret_l in E.
  bind_inv E. apply project_set_metadata_modules in Hstep2.
  ret_inv E. rewrite Hstep2.
  assert (K : RigProject.modules a0 = []) by (rewrite Hstep0, Hstep; reflexivity).
  destruct (dict_get "modules" d) as [| b | z | f | s | l | l | entries | t | c];
    unfold when in Hstep1; simpl is_dict in Hstep1;
    rewrite ?andb_false_r, ?andb_true_r in Hstep1;
    try (ret_inv Hstep1; now rewrite K).
  destruct entries as [| e entries];
    [simpl in Hstep1; ret_inv Hstep1; now rewrite K |].
  change (truthy (PyDict (e :: entries))) with true in Hstep1.
  cbv iota in Hstep1. unfold RigProject.read_modules_from_dict in Hstep1.
  bind_inv Hstep1. ret_inv Hstep1.
  apply read_module_entries_length in Hstep3. simpl in *. lia.
Qed.

End ProjectRoundTrip.

(** C3: the "modules" entry of [get_project_as_dict] is keyed by the class
    name without "Module" and holds, under each key, the dictionary of
    the last module of the project with that key; when two modules of the
    project have the same class the entry has fewer items than the project
    has modules; and when the dictionary is read back and the project read
    has as many modules as the one written, the class names of the modules
    written are pairwise distinct. *)
Theorem project_modules_keyed_by_class `{Externals}
    (RigModules : list (string * ModuleClass)) (p : RigProject.t) :
  dict_get "modules" (RigProject.get_project_as_dict p) =
    PyDict (RigProject.modules_as_dict (RigProject.modules p)) /\
  (forall m, In m (RigProject.modules p) ->
     RigProject.module_key m = remove_prefix (class_name_of m) "Module") /\
  (forall k,
     dict_get k (RigProject.modules_as_dict (RigProject.modules p)) =
       match last_with_key k (RigProject.modules p) with
       | Some m => module_as_dict m
       | None => PyNone
       end) /\
  (forall ms1 m1 ms2 m2 ms3,
     RigProject.modules p = ms1 ++ m1 :: ms2 ++ m2 :: ms3 ->
     class_name_of m1 = class_name_of m2 ->
     length (RigProject.modules_as_dict (RigProject.modules p))
     < length (RigProject.modules p)) /\
  (forall q w q' r w',
     RigProject.read_data_from_dict RigModules
       (PyDict (RigProject.get_project_as_dict p)) q w
     = (Return (q', r), w') ->
     length (RigProject.modules q') = length (RigProject.modules p) ->
     NoDup (map class_name_of (RigProject.modules p))).
Proof.
  pose proof (modules_as_dict_length (RigProject.modules p)) as [Hle Heq].
  split; [apply project_dict_modules |].
  split; [reflexivity |].
  split; [intros k; apply modules_as_dict_get |].
  split.
  - intros ms1 m1 ms2 m2 ms3 Hms Hcls.
    destruct (Nat.eq_dec
                (length (RigProject.modules_as_dict (RigProject.modules p)))
                (length (RigProject.modules p))) as [E | N]; [| lia].
    exfalso. apply Heq in E. rewrite Hms in E.
    rewrite map_app in E. apply NoDup_app_remove_l in E.
    simpl in E. inversion E as [| x xs Hnotin _]; subst.
    apply Hnotin. rewrite map_app, in_app_iff. right. simpl. left.
    unfold RigProject.module_key. now rewrite Hcls.
  - intros q w q' r w' E Hlen.
    apply project_read_modules_length in E.
    rewrite project_dict_modules in E.
    assert (NoDup (map RigProject.module_key (RigProject.modules p)))
      as N by (apply Heq; lia).
    unfold RigProject.module_key in N.
    rewrite <- (map_map class_name_of
                  (fun c => ModuleGeneric.get_module_class_name c true)) in N.
    now apply NoDup_of_map in N.
Qed.

(** The project [Sample.project] has two modules of class ModuleGeneric:
    its dictionary has one item under "modules", the data of the second
    module, and reading it back gives a project with one module. *)
Example project_two_generic_modules :
  RigProject.modules_as_dict (RigProject.modules Sample.project) =
    [("Generic",
      module_as_dict (@generic_obj Sample.externals Sample.leg_module))] /\
  option_map (fun qr => length (RigProject.modules (fst qr)))
    (returned_value
       (@RigProject.read_data_from_dict Sample.externals Sample.registry
          (PyDict (RigProject.get_project_as_dict Sample.project))
          RigProject.new Sample.world0))
  = Some 1.
Proof.
  split; [reflexivity |]. vm_compute. reflexivity.
Qed.

(** ** The transforms and the curve of a Proxy *)

Section ProxyShape.
Context `{Externals}.

Ltac run_in E :=
  unfold bind, logger, ret, when, raise in E; simpl in E.

Ltac split_cases E :=
  repeat (match type of E with
          | context [match ?x with _ => _ end] =>
              destruct x eqn:?; simpl in E
          end);
  try discriminate E; try (inv E; reflexivity).

Lemma when_keeps_shape c f : keeps_shape f -> keeps_shape (when c f).
Proof.
  intros K p w p' w' E. destruct c; simpl in E.
  - eauto.
  - now inv E.
Qed.

Lemma set_parent_uuid_shape v : keeps_shape (Proxy.set_parent_uuid v).
Proof.
  intros p w p' w' E. rewrite set_parent_uuid_spec in E.
  destruct (accepted_uuid v); now inv E.
Qed.

Lemma set_locator_scale_shape v : keeps_shape (Proxy.set_locator_scale v).
Proof.
  intros p w p' w' E. rewrite set_locator_scale_spec in E. now inv E.
Qed.

Lemma set_attr_dict_shape v : keeps_shape (Proxy.set_attr_dict v).
Proof.
  intros p w p' w' E. unfold Proxy.set_attr_dict in E. run_in E.
  split_cases E.
Qed.

Lemma set_metadata_dict_shape v : keeps_shape (Proxy.set_metadata_dict v).
Proof.
  intros p w p' w' E. unfold Proxy.set_metadata_dict in E. run_in E.
  split_cases E.
Qed.

Lemma set_uuid_shape v : keeps_shape (Proxy.set_uuid v).
Proof.
  intros p w p' w' E. unfold Proxy.set_uuid in E. run_in E. split_cases E.
Qed.

(** [if name: self.set_name(name)] renames the proxy and its curve. *)
Lemma when_set_name_shape v p w p' w' :
  when (truthy v) (Proxy.set_name v) p w = (Return p', w') ->
  proxy_shape p' =
    (name_or v (Proxy.name p), Proxy.transform p, Proxy.offset_transform p,
     match as_nonempty_str v with
     | Some s => CurveOps.set_name s (Proxy.curve p)
     | None => Proxy.curve p
     end).
Proof.
  intros E.
  destruct v as [| b | z | f | [| c s] | l | l | d | t | c];
    unfold when, Proxy.set_name in E;
    match type of E with
    | context [if ?c then _ else _] => destruct c eqn:T
    end;
    try (cbv in T; discriminate T);
    run_in E; now inv E.
Qed.

Lemma when_set_transform_shape v p w p' w' :
  when (truthy v) (Proxy.set_transform v) p w = (Return p', w') ->
  proxy_shape p' =
    (Proxy.name p,
     match v with PyTransform t => Some t | _ => Proxy.transform p end,
     Proxy.offset_transform p, Proxy.curve p).
Proof.
  intros E. unfold when in E. destruct (truthy v) eqn:T.
  - destruct v; run_in E; now inv E.
  - destruct v; try discriminate T; now inv E.
Qed.

Lemma when_set_offset_transform_shape v p w p' w' :
  when (truthy v) (Proxy.set_offset_transform v) p w = (Return p', w') ->
  proxy_shape p' =
    (Proxy.name p, Proxy.transform p,
     match v with PyTransform t => Some t | _ => Proxy.offset_transform p end,
     Proxy.curve p).
Proof.
  intros E. unfold when in E. destruct (truthy v) eqn:T.
  - destruct v; run_in E; now inv E.
  - destruct v; try discriminate T; now inv E.
Qed.

Lemma when_set_curve_shape v p w p' w' :
  when (truthy v) (Proxy.set_curve v false) p w = (Return p', w') ->
  proxy_shape p' =
    (Proxy.name p, Proxy.transform p, Proxy.offset_transform p,
     curve_or v (Proxy.name p) (Proxy.curve p)).
Proof.
  intros E. unfold when in E. destruct (truthy v) eqn:T.
  - destruct v; try (run_in E; now inv E).
    unfold Proxy.set_curve in E. unfold curve_or.
    destruct (CurveOps.is_curve_valid c); run_in E; now inv E.
  - destruct v; try discriminate T; now inv E.
Qed.

Lemma is_three_items_block v w :
  transform_block_ok v = true ->
  Proxy.is_three_items v w = (Return (block_of_three v), w).
Proof.
  destruct v as [| | | | | l | | | |]; try discriminate; intros _.
  - reflexivity.
  - destruct l as [| a [| b [| c [| d l]]]]; reflexivity.
Qed.

(** What [Proxy(...)] makes of the transforms and of the curve it is
    given. *)
Lemma proxy_init_shape name transform offset_transform curve uuid
    parent_uuid locator_scale attr_dict metadata w p w' :
  Proxy.__init__ name transform offset_transform curve uuid parent_uuid
    locator_scale attr_dict metadata w = (Return p, w') ->
  proxy_shape p =
    (name_or name "proxy",
     match transform with PyTransform t => Some t | _ => None end,
     match offset_transform with PyTransform t => Some t | _ => None end,
     CurveOps.set_name (name_or name "proxy")
       match curve with
       | PyCurve c =>
           if CurveOps.is_curve_valid c then c else proxy_joint_curve
       | _ => proxy_joint_curve
       end).
Proof.
  intros E. unfold Proxy.__init__ in E.
  bind_inv E. unfold generate_uuid in Hstep. inv Hstep.
  bind_inv E. apply when_set_name_shape in Hstep.
  bind_inv E. apply when_set_transform_shape in Hstep0.
  bind_inv E. apply when_set_offset_transform_shape in Hstep1.
  bind_inv E. apply when_set_curve_shape in Hstep2.
  bind_inv E. apply (when_keeps_shape _ (set_uuid_shape _)) in Hstep3.
  bind_inv E. apply (when_keeps_shape _ (set_parent_uuid_shape _)) in Hstep4.
  bind_inv E.
  apply (when_keeps_shape _ (set_locator_scale_shape _)) in Hstep5.
  bind_inv E. apply (when_keeps_shape _ (set_attr_dict_shape _)) in Hstep6.
  apply (when_keeps_shape _ (set_metadata_dict_shape _)) in E.
  rewrite E, Hstep6, Hstep5, Hstep4, Hstep3, Hstep2.
  unfold proxy_shape in *. simpl in Hstep.
  injection Hstep as N0 T0 O0 C0.
  injection Hstep0 as N1 T1 O1 C1.
  injection Hstep1 as N2 T2 O2 C2.
  rewrite N2, N1, N0, T2, T1, T0, O2, O1, O0, C2, C1, C0.
  unfold curve_or, name_or.
  destruct curve; destruct (as_nonempty_str name);
    try reflexivity;
    destruct (CurveOps.is_curve_valid c); reflexivity.
Qed.

(** What [read_data_from_dict] makes of the name and of the transform
    blocks of a description of the persisted format: the offset transform
    is filled from the block under "transform". *)
Lemma read_proxy_dict_shape pd p w p' r w' :
  proxy_desc_ok (PyDict pd) = true ->
  Proxy.read_data_from_dict (PyDict pd) p w = (Return (p', r), w') ->
  proxy_shape p' =
    (name_or (dict_get "name" pd) (Proxy.name p),
     (if block_of_three (dict_get "transform" pd)
      then Some (transform_from (dict_get "transform" pd)
                   (Proxy.transform p))
      else Proxy.transform p),
     (if block_of_three (dict_get "offsetTransform" pd)
      then Some (transform_from (dict_get "transform" pd)
                   (Proxy.offset_transform p))
      else Proxy.offset_transform p),
     match as_nonempty_str (dict_get "name" pd) with
     | Some s => CurveOps.set_name s (Proxy.curve p)
     | None => Proxy.curve p
     end).
Proof.
  intros Hok E. simpl in Hok. apply andb_prop in Hok.
  destruct Hok as [Ht Ho].
  unfold Proxy.read_data_from_dict in E.
  change (truthy (PyDict pd) && negb (is_dict (PyDict pd)))
    with (truthy (PyDict pd) && false) in E.
  rewrite andb_false_r in E.
  unfold py_get in E. rewrite bind_ret_l in E.
  bind_inv E. apply when_set_name_shape in Hstep.
  rewrite bind_ret_l in E.
  bind_inv E. apply (when_keeps_shape _ (set_parent_uuid_shape _)) in Hstep0.
  rewrite bind_ret_l in E.
  bind_inv E.
  apply (when_keeps_shape _ (set_locator_scale_shape _)) in Hstep1.
  rewrite bind_ret_l in E.
  rewrite (bind_Return _ _ _ (is_three_items_block _ _ Ht)) in E.
  bind_inv E.
  rewrite bind_ret_l in E.
  rewrite (bind_Return _ _ _ (is_three_items_block _ _ Ho)) in E.
  bind_inv E.
  rewrite bind_ret_l in E.
  bind_inv E. apply (when_keeps_shape _ (set_attr_dict_shape _)) in Hstep4.
  rewrite bind_ret_l in E.
  bind_inv E.
  apply (when_keeps_shape _ (set_metadata_dict_shape _)) in Hstep5.
  rewrite bind_ret_l in E.
  bind_inv E. apply (when_keeps_shape _ (set_uuid_shape _)) in Hstep6.
  ret_inv E.
  rewrite Hstep6, Hstep5, Hstep4.
  assert (S3 : proxy_shape a3 =
               (Proxy.name a2, Proxy.transform a2,
                (if block_of_three (dict_get "offsetTransform" pd)
                 then Some (transform_from (dict_get "transform" pd)
                              (Proxy.offset_transform a2))
                 else Proxy.offset_transform a2),
                Proxy.curve a2)).
  { destruct (block_of_three (dict_get "offsetTransform" pd));
      simpl in Hstep3; inv Hstep3; [| reflexivity].
    destruct a2 as [n t [o |] c u pa ls ad md]; reflexivity. }
  assert (S2 : proxy_shape a2 =
               (Proxy.name a1,
                (if block_of_three (dict_get "transform" pd)
                 then Some (transform_from (dict_get "transform" pd)
                              (Proxy.transform a1))
                 else Proxy.transform a1),
                Proxy.offset_transform a1, Proxy.curve a1)).
  { destruct (block_of_three (dict_get "transform" pd));
      simpl in Hstep2; inv Hstep2; [| reflexivity].
    destruct a1 as [n [t |] o c u pa ls ad md]; reflexivity. }
  unfold proxy_shape in *.
  injection S2 as N2 T2 O2 C2.
  injection Hstep1 as N1 T1 O1 C1.
  injection Hstep0 as N0 T0 O0 C0.
  injection Hstep as N T O C.
  rewrite S3, N2, T2, O2, C2, N1, T1, O1, C1, N0, T0, O0, C0, N, T, O, C.
  reflexivity.
Qed.

End ProxyShape.

(** ** Reading descriptions *)

Section ReadProxy.
Context `{Externals}.

Lemma step_set_name v p w :
  exists p' w',
    when (truthy v) (Proxy.set_name v) p w = (Return p', w') /\
    proxy_core p' =
      (match as_nonempty_str v with Some s => s | None => Proxy.name p end,
       Proxy.parent_uuid p, Proxy.locator_scale p, Proxy.attr_dict p,
       Proxy.metadata p, Proxy.uuid p).
Proof.
  destruct v as [| b | z | f | [| c s] | l | l | d | t | c];
    unfold when, Proxy.set_name;
    match goal with
    | |- context [if ?c then _ else _] => destruct c eqn:T
    end;
    try (cbv in T; discriminate T);
    simpl; unfold bind, logger, ret; do 2 eexists; split; reflexivity.
Qed.

Lemma step_set_parent_uuid v p w :
  exists p' w',
    when (truthy v) (Proxy.set_parent_uuid v) p w = (Return p', w') /\
    proxy_core p' =
      (Proxy.name p,
       (if accepted_uuid v then v else Proxy.parent_uuid p),
       Proxy.locator_scale p, Proxy.attr_dict p, Proxy.metadata p,
       Proxy.uuid p).
Proof.
  unfold when. destruct (truthy v) eqn:T.
  - rewrite set_parent_uuid_spec.
    destruct (accepted_uuid v); do 2 eexists; split; reflexivity.
  - assert (A : accepted_uuid v = false).
    { destruct v; try reflexivity. unfold accepted_uuid. now rewrite T. }
    rewrite A. do 2 eexists; split; reflexivity.
Qed.

Lemma step_set_locator_scale v p w :
  exists p' w',
    when (truthy v) (Proxy.set_locator_scale v) p w = (Return p', w') /\
    proxy_core p' =
      (Proxy.name p, Proxy.parent_uuid p,
       (if truthy v then v else Proxy.locator_scale p),
       Proxy.attr_dict p, Proxy.metadata p, Proxy.uuid p).
Proof.
  unfold when. destruct (truthy v).
  - rewrite set_locator_scale_spec. do 2 eexists; split; reflexivity.
  - do 2 eexists; split; reflexivity.
Qed.

Lemma is_three_items_ok v w :
  transform_block_ok v = true ->
  exists b, Proxy.is_three_items v w = (Return b, w).
Proof.
  destruct v; try discriminate; intros _; unfold Proxy.is_three_items.
  - simpl. exists false. reflexivity.
  - destruct (truthy (PyList l)); simpl; eexists; reflexivity.
Qed.

Lemma proxy_core_map_transform f p :
  proxy_core (Proxy.map_transform f (Proxy._initialize_transform p))
  = proxy_core p.
Proof.
  destruct p as [n [tr |] o c u pa ls a m]; reflexivity.
Qed.

Lemma proxy_core_map_offset_transform f p :
  proxy_core
    (Proxy.map_offset_transform f (Proxy._initialize_offset_transform p))
  = proxy_core p.
Proof.
  destruct p as [n tr [o |] c u pa ls a m]; reflexivity.
Qed.

Lemma step_set_attr_dict v p w :
  exists p' w',
    when (truthy v) (Proxy.set_attr_dict v) p w = (Return p', w') /\
    proxy_core p' =
      (Proxy.name p, Proxy.parent_uuid p, Proxy.locator_scale p,
       match read_metadata v with Some d => d | None => Proxy.attr_dict p end,
       Proxy.metadata p, Proxy.uuid p).
Proof.
  destruct v as [| b | z | f | s | l | l | [| e d] | t | c];
    unfold when, Proxy.set_attr_dict;
    match goal with
    | |- context [if ?c then _ else _] => destruct c eqn:T
    end;
    try (cbv in T; discriminate T);
    simpl; unfold bind, logger, ret; do 2 eexists; split; reflexivity.
Qed.

Lemma step_set_metadata_dict v p w :
  exists p' w',
    when (truthy v) (Proxy.set_metadata_dict v) p w = (Return p', w') /\
    proxy_core p' =
      (Proxy.name p, Proxy.parent_uuid p, Proxy.locator_scale p,
       Proxy.attr_dict p,
       match read_metadata v with
       | Some d => Some d
       | None => Proxy.metadata p
       end,
       Proxy.uuid p).
Proof.
  destruct v as [| b | z | f | s | l | l | [| e d] | t | c];
    unfold when, Proxy.set_metadata_dict;
    match goal with
    | |- context [if ?c then _ else _] => destruct c eqn:T
    end;
    try (cbv in T; discriminate T);
    simpl; unfold bind, logger, ret; do 2 eexists; split; reflexivity.
Qed.

Lemma set_uuid_spec v p w :
  exists w',
    Proxy.set_uuid v p w =
      (Return (match v with
               | PyStr s => if accepted_uuid v then Proxy.with_uuid s p else p
               | _ => p
               end), w').
Proof.
  destruct v;
    try (simpl; unfold bind, logger, ret; eexists; reflexivity).
  unfold Proxy.set_uuid, accepted_uuid.
  destruct (truthy (PyStr s)); simpl;
    [| unfold bind, logger, ret; eexists; reflexivity].
  destruct (is_uuid_valid s || is_short_uuid_valid s);
    unfold bind, logger, ret; eexists; reflexivity.
Qed.

Lemma step_set_uuid v p w :
  exists p' w',
    when (truthy v) (Proxy.set_uuid v) p w = (Return p', w') /\
    proxy_core p' =
      (Proxy.name p, Proxy.parent_uuid p, Proxy.locator_scale p,
       Proxy.attr_dict p, Proxy.metadata p,
       match v with
       | PyStr s => if accepted_uuid v then s else Proxy.uuid p
       | _ => Proxy.uuid p
       end).
Proof.
  unfold when. destruct (truthy v) eqn:T.
  - destruct (set_uuid_spec v p w) as (w' & E). rewrite E.
    do 2 eexists. split; [reflexivity |].
    destruct v; try reflexivity. now destruct (accepted_uuid (PyStr s)).
  - do 2 eexists. split; [reflexivity |].
    destruct v; try reflexivity.
    unfold accepted_uuid. now rewrite T.
Qed.

End ReadProxy.

Section ReadProxyDict.
Context `{Externals}.

Ltac step L :=
  let p' := fresh "p" in
  let w' := fresh "w" in
  let E := fresh "E" in
  let C := fresh "C" in
  destruct L as (p' & w' & E & C);
  rewrite (bind_Return _ _ _ E); clear E.

Lemma read_proxy_dict_spec pd p w :
  proxy_desc_ok (PyDict pd) = true ->
  exists p' w',
    Proxy.read_data_from_dict (PyDict pd) p w
    = (Return (p', Proxy.ReturnedSelf), w') /\
    proxy_core p' =
      (match as_nonempty_str (dict_get "name" pd) with
       | Some s => s
       | None => Proxy.name p
       end,
       (if accepted_uuid (dict_get "parent" pd) then dict_get "parent" pd
        else Proxy.parent_uuid p),
       (if truthy (dict_get "locatorScale" pd)
        then dict_get "locatorScale" pd else Proxy.locator_scale p),
       match read_metadata (dict_get "attributes" pd) with
       | Some d => d
       | None => Proxy.attr_dict p
       end,
       match read_metadata (dict_get "metadata" pd) with
       | Some d => Some d
       | None => Proxy.metadata p
       end,
       match dict_get "uuid" pd with
       | PyStr s =>
           if accepted_uuid (dict_get "uuid" pd) then s else Proxy.uuid p
       | _ => Proxy.uuid p
       end).
Proof.
  intros Hok. simpl in Hok. apply andb_prop in Hok. destruct Hok as [Ht Ho].
  unfold Proxy.read_data_from_dict.
  replace (truthy (PyDict pd) && negb (is_dict (PyDict pd))) with false
    by (simpl; now rewrite andb_false_r).
  unfold py_get. rewrite !bind_ret_l.
  step (step_set_name (dict_get "name" pd) p w).
  rewrite bind_ret_l.
  step (step_set_parent_uuid (dict_get "parent" pd) p0 w0).
  rewrite bind_ret_l.
  step (step_set_locator_scale (dict_get "locatorScale" pd) p1 w1).
  rewrite bind_ret_l.
  destruct (is_three_items_ok _ w2 Ht) as (b1 & E1).
  rewrite (bind_Return _ _ _ E1); clear E1.
  assert (S1 : exists p3,
    when b1
      (fun self =>
         ret (Proxy.map_transform
                (TransformOps.set_transform_from_dict
                   (dict_get "transform" pd))
                (Proxy._initialize_transform self))) p2 w2
    = (Return p3, w2) /\ proxy_core p3 = proxy_core p2).
  { destruct b1; simpl; eexists; split; try reflexivity.
    apply proxy_core_map_transform. }
  destruct S1 as (p3 & E3 & C3). rewrite (bind_Return _ _ _ E3); clear E3.
  rewrite bind_ret_l.
  destruct (is_three_items_ok _ w2 Ho) as (b2 & E2).
  rewrite (bind_Return _ _ _ E2); clear E2.
  assert (S2 : exists p4,
    when b2
      (fun self =>
         ret (Proxy.map_offset_transform
                (TransformOps.set_transform_from_dict
                   (dict_get "transform" pd))
                (Proxy._initialize_offset_transform self))) p3 w2
    = (Return p4, w2) /\ proxy_core p4 = proxy_core p3).
  { destruct b2; simpl; eexists; split; try reflexivity.
    apply proxy_core_map_offset_transform. }
  destruct S2 as (p4 & E4 & C4). rewrite (bind_Return _ _ _ E4); clear E4.
  rewrite bind_ret_l.
  step (step_set_attr_dict (dict_get "attributes" pd) p4 w2).
  rewrite bind_ret_l.
  step (step_set_metadata_dict (dict_get "metadata" pd) p5 w3).
  rewrite bind_ret_l.
  step (step_set_uuid (dict_get "uuid" pd) p6 w4).
  do 2 eexists. split; [reflexivity |].
  unfold proxy_core in *.
  inv C. inv C0. inv C1. inv C3. inv C4. inv C2. inv C5. inv C6.
  repeat match goal with
         | Hq : _ = _ |- _ => rewrite Hq
         end.
  reflexivity.
Qed.

Lemma proxy_new_spec w :
  exists p,
    Proxy.new w =
      (Return p, {| uuid_count := S (uuid_count w); log := log w |}) /\
    proxy_core p =
      ("proxy", PyNone, PyInt 1, [], None, uuid4_hex (uuid_count w)).
Proof. eexists. split; reflexivity. Qed.

Lemma read_proxy_entry_spec (entry : string * pyval) w :
  proxy_desc_ok (snd entry) = true ->
  exists px w',
    ModuleGeneric.read_proxy_entry entry w = (Return px, w') /\
    proxy_read_from entry px.
Proof.
  destruct entry as [k desc]. simpl. intros Hok.
  destruct desc as [| b | z | f | s | l | l | pd | t | c]; try discriminate.
  unfold ModuleGeneric.read_proxy_entry.
  destruct (proxy_new_spec w) as (p0 & E0 & C0).
  assert (S0 : proxy_shape p0 =
               ("proxy", None, None,
                CurveOps.set_name "proxy" proxy_joint_curve)).
  { unfold Proxy.new in E0. exact (proxy_init_shape _ _ _ _ _ _ _ _ _ _ E0). }
  rewrite (bind_Return _ _ _ E0); clear E0.
  destruct (set_uuid_spec (PyStr k) p0
              {| uuid_count := S (uuid_count w); log := log w |})
    as (w1 & E1).
  rewrite (bind_Return _ _ _ E1); clear E1.
  remember (if accepted_uuid (PyStr k) then Proxy.with_uuid k p0 else p0)
    as q eqn:Eq.
  assert (Cq : proxy_core q =
               ("proxy", PyNone, PyInt 1, [], None,
                if accepted_uuid (PyStr k) then k
                else uuid4_hex (uuid_count w))).
  { subst q. unfold proxy_core in *.
    injection C0 as N0 P0 L0 A0 M0 U0.
    destruct (accepted_uuid (PyStr k)); simpl;
      rewrite N0, P0, L0, A0, M0, ?U0; reflexivity. }
  assert (Sq : proxy_shape q = proxy_shape p0)
    by (subst q; destruct (accepted_uuid (PyStr k)); reflexivity).
  rewrite S0 in Sq. clear Eq C0 S0.
  destruct (@read_proxy_dict_spec pd q w1 Hok) as (p' & w' & E & C).
  pose proof (read_proxy_dict_shape _ _ _ Hok E) as Sh.
  rewrite (bind_Return _ _ _ E); clear E.
  do 2 eexists. split; [reflexivity |].
  exists pd. unfold proxy_core, proxy_shape in *.
  injection Cq as N0 P0 L0 A0 M0 U0.
  injection C as N1 P1 L1 A1 M1 U1.
  injection Sq as _ T0 O0 K0.
  injection Sh as _ T1 O1 K1.
  rewrite N0 in N1. rewrite P0 in P1. rewrite L0 in L1. rewrite A0 in A1.
  rewrite M0 in M1. rewrite U0 in U1.
  rewrite T0 in T1. rewrite O0 in O1. rewrite K0 in K1.
  change (accepted_uuid (PyStr k))
    with (negb (k =? "") && (is_uuid_valid k || is_short_uuid_valid k))
    in U1.
  simpl fst. simpl snd.
  split; [reflexivity |]. split; [exact N1 |]. split; [exact P1 |].
  split; [exact L1 |]. split; [exact A1 |].
  split; [rewrite M1; now destruct (read_metadata (dict_get "metadata" pd)) |].
  split.
  { intros B1 B2.
    change (accepted_uuid (PyStr k))
      with (negb (k =? "") && (is_uuid_valid k || is_short_uuid_valid k))
      in B2.
    rewrite U1, B1, B2.
    now destruct (dict_get "uuid" pd). }
  split.
  { intros B1. rewrite U1, B1.
    destruct (dict_get "uuid" pd); try discriminate B1. reflexivity. }
  split.
  { intros B1 B2.
    change (accepted_uuid (PyStr k))
      with (negb (k =? "") && (is_uuid_valid k || is_short_uuid_valid k))
      in B2.
    rewrite U1, B1, B2. exists (uuid_count w).
    now destruct (dict_get "uuid" pd). }
  split; [exact T1 |]. split; [exact O1 |].
  rewrite K1, N1.
  now destruct (as_nonempty_str (dict_get "name" pd)).
Qed.

Lemma read_proxy_entries_spec entries :
  forallb (fun e => proxy_desc_ok (snd e)) entries = true ->
  forall acc w,
    exists ps w',
      ModuleGeneric.read_proxy_entries entries acc w = (Return (acc ++ ps), w')
      /\ Forall2 proxy_read_from entries ps.
Proof.
  induction entries as [| entry rest IH]; simpl; intros Hok acc w.
  - exists [], w. rewrite app_nil_r. split; [reflexivity | constructor].
  - apply andb_prop in Hok. destruct Hok as [Hentry Hrest].
    destruct (@read_proxy_entry_spec entry w Hentry) as (px & w1 & E & R).
    rewrite (bind_Return _ _ _ E).
    destruct (IH Hrest (acc ++ [px]) w1) as (ps & w2 & E2 & F).
    exists (px :: ps), w2. rewrite E2, <- app_assoc. simpl.
    split; [reflexivity | now constructor].
Qed.

End ReadProxyDict.

Section ReadModuleDict.
Context `{Externals}.

Ltac step L :=
  let p' := fresh "m" in
  let w' := fresh "w" in
  let E := fresh "E" in
  let C := fresh "C" in
  destruct L as (p' & w' & E & C);
  rewrite (bind_Return _ _ _ E); clear E.

Lemma step_module_set_name v m w :
  exists m' w',
    when (truthy v) (ModuleGeneric.set_name v) m w = (Return m', w') /\
    module_core m' =
      (match as_nonempty_str v with
       | Some s => Some s
       | None => ModuleGeneric.name m
       end,
       ModuleGeneric.prefix m, ModuleGeneric.parent_uuid m,
       ModuleGeneric.proxies m, ModuleGeneric.active m,
       ModuleGeneric.metadata m).
Proof.
  destruct v as [| b | z | f | [| c s] | l | l | d | t | c];
    unfold when, ModuleGeneric.set_name;
    match goal with
    | |- context [if ?c then _ else _] => destruct c eqn:T
    end;
    try (cbv in T; discriminate T);
    simpl; unfold bind, logger, ret; do 2 eexists; split; reflexivity.
Qed.

Lemma step_module_set_prefix v m w :
  exists m' w',
    when (truthy v) (ModuleGeneric.set_prefix v) m w = (Return m', w') /\
    module_core m' =
      (ModuleGeneric.name m,
       match as_nonempty_str v with
       | Some s => Some s
       | None => ModuleGeneric.prefix m
       end,
       ModuleGeneric.parent_uuid m,
       ModuleGeneric.proxies m, ModuleGeneric.active m,
       ModuleGeneric.metadata m).
Proof.
  destruct v as [| b | z | f | [| c s] | l | l | d | t | c];
    unfold when, ModuleGeneric.set_prefix;
    match goal with
    | |- context [if ?c then _ else _] => destruct c eqn:T
    end;
    try (cbv in T; discriminate T);
    simpl; unfold bind, logger, ret; do 2 eexists; split; reflexivity.
Qed.

Lemma module_set_parent_uuid_spec v m w :
  ModuleGeneric.set_parent_uuid v m w =
    if accepted_uuid v then (Return (ModuleGeneric.with_parent_uuid v m), w)
    else (Return m,
          logged WARNING
            "Unable to set proxy parent UUID. Invalid UUID input." w).
Proof.
  destruct v; try reflexivity.
  unfold ModuleGeneric.set_parent_uuid, accepted_uuid.
  destruct (truthy (PyStr s)); simpl; [| reflexivity].
  destruct (is_uuid_valid s || is_short_uuid_valid s); reflexivity.
Qed.

Lemma step_module_set_parent_uuid v m w :
  exists m' w',
    when (truthy v) (ModuleGeneric.set_parent_uuid v) m w = (Return m', w') /\
    module_core m' =
      (ModuleGeneric.name m, ModuleGeneric.prefix m,
       (if accepted_uuid v then v else ModuleGeneric.parent_uuid m),
       ModuleGeneric.proxies m, ModuleGeneric.active m,
       ModuleGeneric.metadata m).
Proof.
  unfold when. destruct (truthy v) eqn:T.
  - rewrite module_set_parent_uuid_spec.
    destruct (accepted_uuid v); do 2 eexists; split; reflexivity.
  - assert (A : accepted_uuid v = false).
    { destruct v; try reflexivity. unfold accepted_uuid. now rewrite T. }
    rewrite A. do 2 eexists; split; reflexivity.
Qed.

Lemma step_module_read_proxies v m w :
  match v with
  | PyDict pd => forallb (fun e => proxy_desc_ok (snd e)) pd = true
  | _ => True
  end ->
  exists m' w',
    when (truthy v && is_dict v) (ModuleGeneric.read_proxies_from_dict v) m w
    = (Return m', w') /\
    (match v with
     | PyDict (e :: pd) => Forall2 proxy_read_from (e :: pd)
     | _ => eq (ModuleGeneric.proxies m)
     end) (ModuleGeneric.proxies m') /\
    module_core m' =
      (ModuleGeneric.name m, ModuleGeneric.prefix m,
       ModuleGeneric.parent_uuid m, ModuleGeneric.proxies m',
       ModuleGeneric.active m, ModuleGeneric.metadata m).
Proof.
  intros Hok.
  destruct v as [| b | z | f | s | l | l | [| e pd] | t | c];
    try (unfold when; simpl is_dict; rewrite ?andb_false_r;
         do 2 eexists; repeat split; reflexivity).
  change (truthy (PyDict (e :: pd)) && is_dict (PyDict (e :: pd)))
    with true.
  unfold when, ModuleGeneric.read_proxies_from_dict.
  destruct (read_proxy_entries_spec (e :: pd) Hok [] w)
    as (ps & w' & E & F).
  rewrite (bind_Return _ _ _ E).
  do 2 eexists. repeat split; [exact F].
Qed.

Lemma step_module_set_active v m w :
  exists m' w',
    when (is_bool v) (ModuleGeneric.set_active_state v) m w = (Return m', w')
    /\ module_core m' =
      (ModuleGeneric.name m, ModuleGeneric.prefix m,
       ModuleGeneric.parent_uuid m, ModuleGeneric.proxies m,
       match v with PyBool b => b | _ => ModuleGeneric.active m end,
       ModuleGeneric.metadata m).
Proof.
  destruct v; simpl; do 2 eexists; split; reflexivity.
Qed.

Lemma step_module_set_metadata v m w :
  exists m' w',
    when (truthy v) (ModuleGeneric.set_metadata_dict v) m w = (Return m', w')
    /\ module_core m' =
      (ModuleGeneric.name m, ModuleGeneric.prefix m,
       ModuleGeneric.parent_uuid m, ModuleGeneric.proxies m,
       ModuleGeneric.active m,
       match read_metadata v with
       | Some d => Some d
       | None => ModuleGeneric.metadata m
       end).
Proof.
  destruct v as [| b | z | f | s | l | l | [| e d] | t | c];
    unfold when, ModuleGeneric.set_metadata_dict;
    match goal with
    | |- context [if ?c then _ else _] => destruct c eqn:T
    end;
    try (cbv in T; discriminate T);
    simpl; unfold bind, logger, ret; do 2 eexists; split; reflexivity.
Qed.

(** A description of the persisted format read into [ModuleGeneric()]. *)
Lemma read_module_dict_spec d w :
  module_desc_ok (PyDict d) = true ->
  exists m w',
    ModuleGeneric.read_data_from_dict (PyDict d) ModuleGeneric.new w
    = (Return (m, Proxy.ReturnedSelf), w') /\
    read_as_generic ("", PyDict d) (generic_obj m).
Proof.
  intros Hok. simpl in Hok.
  unfold ModuleGeneric.read_data_from_dict.
  replace (truthy (PyDict d) && negb (is_dict (PyDict d))) with false
    by (simpl; now rewrite andb_false_r).
  unfold py_get. rewrite bind_ret_l.
  step (step_module_set_name (dict_get "name" d) ModuleGeneric.new w).
  rewrite bind_ret_l.
  step (step_module_set_prefix (dict_get "prefix" d) m w0).
  rewrite bind_ret_l.
  step (step_module_set_parent_uuid (dict_get "parent" d) m0 w1).
  rewrite bind_ret_l.
  assert (Hp : match dict_get "proxies" d with
               | PyDict pd =>
                   forallb (fun e => proxy_desc_ok (snd e)) pd = true
               | _ => True
               end)
    by (destruct (dict_get "proxies" d); auto).
  destruct (step_module_read_proxies (dict_get "proxies" d) m1 w2 Hp)
    as (m2 & w3 & E2 & F & C2).
  rewrite (bind_Return _ _ _ E2); clear E2.
  rewrite bind_ret_l.
  step (step_module_set_active (dict_get "active" d) m2 w3).
  rewrite bind_ret_l.
  step (step_module_set_metadata (dict_get "metadata" d) m3 w4).
  do 2 eexists. split; [reflexivity |].
  exists d, m4. unfold module_core in *.
  injection C as N0 P0 U0 X0 A0 M0.
  injection C0 as N1 P1 U1 X1 A1 M1.
  injection C1 as N2 P2 U2 X2 A2 M2.
  injection C2 as N3 P3 U3 A3 M3.
  injection C3 as N4 P4 U4 X4 A4 M4.
  injection C4 as N5 P5 U5 X5 A5 M5.
  simpl in N0, P0, U0, X0, A0, M0.
  repeat split.
  - rewrite N5, N4, N3, N2, N1, N0.
    now destruct (as_nonempty_str (dict_get "name" d)).
  - rewrite P5, P4, P3, P2, P1, P0.
    now destruct (as_nonempty_str (dict_get "prefix" d)).
  - now rewrite U5, U4, U3, U2, U1, U0.
  - rewrite A5, A4, A3, A2, A1, A0.
    now destruct (dict_get "active" d).
  - rewrite M5, M4, M3, M2, M1, M0.
    now destruct (read_metadata (dict_get "metadata" d)).
  - rewrite X5, X4.
    destruct (dict_get "proxies" d) as [| b | z | f | s | l | l | [| e pd] | t | c];
      try (rewrite <- F, X2, X1, X0; reflexivity).
    + rewrite <- F, X2, X1, X0. constructor.
    + exact F.
Qed.

End ReadModuleDict.

Section ReadModules.
Context `{Externals}.
Variable RigModules : list (string * ModuleClass).

Lemma read_unregistered_entry (entry : string * pyval) w :
  registered RigModules (fst entry) = false ->
  module_desc_ok (snd entry) = true ->
  exists m w',
    RigProject.read_module_entry RigModules entry w = (Return m, w') /\
    read_as_generic entry m.
Proof.
  destruct entry as [k desc]. unfold registered. simpl. intros Hreg Hok.
  unfold RigProject.read_module_entry.
  destruct (RigProject.available_modules_get (RigProject.full_class_name k)
              RigModules); [discriminate |].
  destruct desc as [| b | z | f | s | l | l | d | t | c]; try discriminate.
  destruct (read_module_dict_spec d w Hok) as (m & w' & E & R).
  rewrite (bind_Return _ _ _ E).
  exists (generic_obj m), w'. split; [reflexivity | exact R].
Qed.


End ReadModules.




(** The module read from [Sample.tail_entry]: the proxy has the transform
    of the description; its offset transform holds the same three
    vectors, not those of the block under "offsetTransform". *)
Example tail_entry_read :
  exists gm px w',
    @RigProject.read_modules_from_dict Sample.externals Sample.registry
      (PyDict [Sample.tail_entry]) RigProject.new Sample.world0
    = (Return (RigProject.with_modules
                 [@generic_obj Sample.externals gm] RigProject.new), w')
    /\
    ModuleGeneric.name gm = Some "tail" /\
    ModuleGeneric.active gm = false /\
    ModuleGeneric.proxies gm = [px] /\
    Proxy.name px = "arm" /\
    Proxy.uuid px = @uuid4_hex Sample.externals 9 /\
    Proxy.transform px = Proxy.transform Sample.arm /\
    Proxy.offset_transform px = Proxy.transform Sample.arm /\
    Proxy.offset_transform px <> Proxy.offset_transform Sample.arm.
Proof.
  do 3 eexists. split; [vm_compute; reflexivity |].
  repeat split; try reflexivity.
  intros E.
  apply (f_equal (fun o => match o with
                           | Some t => vx (position t)
                           | None => 0%float
                           end)) in E.
  exact (float_1_neq_4 E).
Qed.

(** ** The calls of the project build *)

Section BuildRuns.
Variable backend : Build.Backend.
Variable GRP : string.

Lemma bind_call {A C} (c : Build.Call) (r : Build.Trace -> A)
    (k : A -> Build.B C) tr :
  bind (Build.call backend c r) k tr =
    match Build.raises backend tr c with
    | Some e => (Raised e, tr ++ [c])
    | None => k (r tr) (tr ++ [c])
    end.
Proof.
  unfold bind, Build.call. now destruct (Build.raises backend tr c).
Qed.

Lemma bind_call_ {C} (c : Build.Call) (k : unit -> Build.B C) tr :
  bind (Build.call_ backend c) k tr =
    match Build.raises backend tr c with
    | Some e => (Raised e, tr ++ [c])
    | None => k tt (tr ++ [c])
    end.
Proof. apply bind_call. Qed.

Lemma call_run {A} (c : Build.Call) (r : Build.Trace -> A) tr :
  exists o, Build.call backend c r tr = (o, tr ++ [c]).
Proof.
  unfold Build.call. destruct (Build.raises backend tr c); eexists; reflexivity.
Qed.

(** The keyword [target_list] of the call names no parameter of
    [add_attr]: the call raises before the body of the function runs. *)
Lemma call_add_attr_raises target tr :
  Build.call_add_attr backend Build.setup_attr_keywords target tr
  = (Raised (TypeError unexpected_target_list), tr).
Proof. reflexivity. Qed.

Lemma bind_call_add_attr {C} target (k : unit -> Build.B C) tr :
  bind (Build.call_add_attr backend Build.setup_attr_keywords target) k tr
  = (Raised (TypeError unexpected_target_list), tr).
Proof. reflexivity. Qed.

Ltac pre_call :=
  (rewrite bind_call_ || rewrite bind_call);
  match goal with
  | |- context [Build.raises backend ?tr ?c] =>
      let Q := fresh "Q" in
      destruct (Build.raises backend tr c) eqn:Q
  end;
  [ eexists; eexists; split;
    [ rewrite <- ?app_assoc; simpl; reflexivity
    | split; [repeat constructor |];
      let H := fresh "H" in
      intros H; rewrite H in *; discriminate ]
  | ].

(** The statements of [build_rig] under [try:] end at [add_attr]: the
    calls made are those that come before it, and TypeError is raised
    unless one of them raised already. *)
Lemma build_rig_body_stops modules tr :
  exists e made,
    Build.build_rig_body backend GRP modules tr = (Raised e, tr ++ made) /\
    Forall (fun c => before_add_attr c = true) made /\
    ((forall tr' c, Build.raises backend tr' c = None) ->
     e = TypeError unexpected_target_list /\ length made = 3).
Proof.
  unfold Build.build_rig_body.
  pre_call.
  destruct (Build.root_curve backend tr) as [root_transform root_group].
  pre_call. pre_call.
  rewrite bind_call_add_attr.
  eexists; eexists. split; [rewrite <- !app_assoc; simpl; reflexivity |].
  split; [repeat constructor | intros _; split; reflexivity].
Qed.

(** Likewise for [build_proxy], which makes no [Node] of the group. *)
Lemma build_proxy_body_stops modules tr :
  exists e made,
    Build.build_proxy_body backend GRP modules tr = (Raised e, tr ++ made) /\
    Forall (fun c => before_add_attr c = true) made /\
    ((forall tr' c, Build.raises backend tr' c = None) ->
     e = TypeError unexpected_target_list /\ length made = 2).
Proof.
  unfold Build.build_proxy_body.
  pre_call.
  destruct (Build.root_curve backend tr) as [root_transform root_group].
  pre_call.
  rewrite bind_call_add_attr.
  eexists; eexists. split; [rewrite <- !app_assoc; simpl; reflexivity |].
  split; [repeat constructor | intros _; split; reflexivity].
Qed.

End BuildRuns.

Section BuildAppends.
Variable backend : Build.Backend.
Variable P : Build.Call -> Prop.

Lemma appends_ret {A} (a : A) : appends P (ret a).
Proof. intros tr. exists (Return a), []. rewrite app_nil_r. auto. Qed.

Lemma appends_raise {A} e : appends P (@raise Build.Trace A e).
Proof. intros tr. exists (Raised e), []. rewrite app_nil_r. auto. Qed.

Lemma appends_call {A} c (r : Build.Trace -> A) :
  P c -> appends P (Build.call backend c r).
Proof.
  intros Hc tr. destruct (call_run backend c r tr) as (o & E).
  exists o, [c]. auto.
Qed.

Lemma appends_call_add_attr keywords target :
  P (Build.add_attr target) ->
  appends P (Build.call_add_attr backend keywords target).
Proof.
  intros Hc. unfold Build.call_add_attr.
  destruct (find _ keywords); [apply appends_raise |].
  destruct (filter _ Build.add_attr_required) as [| p [| q l]];
    [now apply appends_call | apply appends_raise | apply appends_raise].
Qed.

Lemma appends_bind {A C} (m : Build.B A) (k : A -> Build.B C) :
  appends P m -> (forall a, appends P (k a)) -> appends P (bind m k).
Proof.
  intros Hm Hk tr. destruct (Hm tr) as ([a | e] & made & E & F).
  - destruct (Hk a (tr ++ made)) as (o & made' & E' & F').
    exists o, (made ++ made'). rewrite (bind_Return _ _ _ E), E', app_assoc.
    split; [reflexivity | now apply Forall_app].
  - exists (Raised e), made. now rewrite (bind_Raised _ _ _ E).
Qed.

Lemma appends_for_each {A} (l : list A) (body : A -> Build.B unit) :
  (forall x, appends P (body x)) -> appends P (Build.for_each l body).
Proof.
  intros Hb. induction l as [| x l IH]; simpl.
  - apply appends_ret.
  - apply appends_bind; auto.
Qed.

Lemma appends_proxy_data_attr {A} attr (get : Build.ProxyData -> A) d :
  appends P (Build.proxy_data_attr attr get d).
Proof. destruct d; simpl; [apply appends_ret | apply appends_raise]. Qed.

End BuildAppends.

(** ** The loops of the build over the modules

    The statements after the call to [add_attr], taken on their own. *)

Lemma split_after_prefix {A} (l1 l2 t1 t2 : list A) (c : A) :
  l1 ++ l2 = t1 ++ c :: t2 -> ~ In c l1 ->
  exists r, t1 = l1 ++ r /\ l2 = r ++ c :: t2.
Proof.
  revert t1. induction l1 as [| a l1 IH]; intros t1 E N.
  - exists t1. auto.
  - destruct t1 as [| b t1]; simpl in E; injection E as -> E.
    + exfalso. apply N. now left.
    + destruct (IH t1 E) as (r & -> & ->).
      * intros Hin. apply N. now right.
      * exists r. auto.
Qed.

(** What [two_passes] says of a late call in the trace. *)
Lemma two_passes_order early late required made :
  two_passes early late required made ->
  forall t1 c t2,
    made = t1 ++ c :: t2 -> late c = true ->
    incl required t1 /\ Forall (fun c' => early c' = false) (c :: t2).
Proof.
  intros (L & R & -> & HL & HR & Hreq) t1 c t2 E Hc.
  assert (N : ~ In c L).
  { intros Hin. rewrite Forall_forall in HL. apply HL in Hin. congruence. }
  destruct (@split_after_prefix _ L R t1 t2 c E N) as (r & -> & ->).
  split.
  - intros x Hx. apply in_or_app. left. apply Hreq; [| exact Hx].
    apply existsb_exists. exists c. split; [| exact Hc].
    apply in_or_app. right. now left.
  - apply Forall_app in HR. tauto.
Qed.

Lemma in_enumerate {A} (l : list A) i x :
  nth_error l i = Some x -> In (i, x) (Build.enumerate l).
Proof.
  unfold Build.enumerate.
  assert (G : forall s j, nth_error l j = Some x ->
                          In (s + j, x) (combine (seq s (length l)) l)).
  { induction l as [| a l IH]; intros s j E.
    - destruct j; discriminate.
    - destruct j as [| j]; simpl in *.
      + injection E as ->. left. now rewrite Nat.add_0_r.
      + right. replace (s + S j) with (S s + j) by lia. now apply IH. }
  intros E. exact (G 0 i E).
Qed.

Lemma in_active_indices (modules : list ModuleObj) i m :
  nth_error modules i = Some m -> Build.active_state m = true ->
  In i (active_indices (Build.enumerate modules)).
Proof.
  intros E Ha. unfold active_indices.
  apply in_map_iff. exists (i, m). split; [reflexivity |].
  apply filter_In. split; [now apply in_enumerate | exact Ha].
Qed.

Section ModuleLoops.
Variable backend : Build.Backend.

(** A loop that makes one call for each active module: the calls made are
    those of the first active modules, of all of them when the loop
    returns. *)
Lemma phase_run (f : nat -> Build.Call) ims :
  forall tr,
    exists k o,
      Build.for_each ims
        (fun im => if negb (Build.active_state (snd im)) then ret tt
                   else Build.call_ backend (f (fst im))) tr
      = (o, tr ++ map f (firstn k (active_indices ims))) /\
      (o = Return tt ->
       firstn k (active_indices ims) = active_indices ims).
Proof.
  unfold active_indices.
  induction ims as [| [i m] ims IH]; intros tr; simpl.
  - exists 0, (Return tt). rewrite app_nil_r. auto.
  - destruct (Build.active_state m); simpl.
    + rewrite bind_call_.
      destruct (Build.raises backend tr (f i)) as [e |].
      * exists 1, (Raised e). simpl. split; [reflexivity | discriminate].
      * destruct (IH (tr ++ [f i])) as (k & o & E & Hc).
        exists (S k), o. simpl. rewrite E, <- app_assoc. simpl.
        split; [reflexivity |]. intros Ho. now rewrite (Hc Ho).
    + rewrite bind_ret_l. apply IH.
Qed.

Lemma Forall_map_calls (P : Build.Call -> Prop) (f : nat -> Build.Call) l :
  (forall i, P (f i)) -> Forall P (map f l).
Proof. intros Hf. induction l; simpl; constructor; auto. Qed.

(** The two loops of [build_rig]: [build_rig] is called on the active
    modules in order, then, if the first loop returned, [build_rig_post]
    is; when the loops return, both were called on every active module. *)
Lemma build_rig_modules_run modules tr :
  exists k1 k2 o,
    Build.build_rig_modules backend modules tr
    = (o, tr ++
          map Build.module_build_rig
            (firstn k1 (active_indices (Build.enumerate modules))) ++
          map Build.module_build_rig_post
            (firstn k2 (active_indices (Build.enumerate modules)))) /\
    (firstn k1 (active_indices (Build.enumerate modules))
     = active_indices (Build.enumerate modules) \/ k2 = 0) /\
    (o = Return tt ->
     firstn k1 (active_indices (Build.enumerate modules))
     = active_indices (Build.enumerate modules) /\
     firstn k2 (active_indices (Build.enumerate modules))
     = active_indices (Build.enumerate modules)).
Proof.
  unfold Build.build_rig_modules.
  destruct (phase_run Build.module_build_rig (Build.enumerate modules) tr)
    as (k1 & o1 & E1 & C1).
  destruct o1 as [[] | e].
  - rewrite (bind_Return _ _ _ E1).
    match goal with
    | |- context [Build.for_each _ _ ?t] =>
        destruct (phase_run Build.module_build_rig_post
                    (Build.enumerate modules) t) as (k2 & o2 & E2 & C2)
    end.
    exists k1, k2, o2. rewrite E2, <- app_assoc.
    split; [reflexivity |]. split; [left; exact (C1 eq_refl) |].
    intros Ho. split; [exact (C1 eq_refl) | exact (C2 Ho)].
  - rewrite (bind_Raised _ _ _ E1).
    exists k1, 0, (Raised e). simpl. rewrite app_nil_r.
    split; [reflexivity |]. split; [now right | discriminate].
Qed.

Lemma build_rig_modules_passes modules tr :
  exists o made,
    Build.build_rig_modules backend modules tr = (o, tr ++ made) /\
    two_passes is_build_rig is_build_rig_post
      (map Build.module_build_rig
         (active_indices (Build.enumerate modules))) made /\
    (o = Return tt ->
     made = map Build.module_build_rig
              (active_indices (Build.enumerate modules)) ++
            map Build.module_build_rig_post
              (active_indices (Build.enumerate modules))).
Proof.
  destruct (build_rig_modules_run modules tr)
    as (k1 & k2 & o & E & Hk & Hret).
  eexists; eexists. split; [exact E |]. split.
  - eexists; eexists. split; [reflexivity |].
    split; [apply Forall_map_calls; intros j; reflexivity |].
    split; [apply Forall_map_calls; intros j; reflexivity |].
    intros Hex. destruct Hk as [-> | ->]; [apply incl_refl |].
    simpl in Hex. discriminate Hex.
  - intros Ho. destruct (Hret Ho) as [-> ->]. reflexivity.
Qed.

(** The first pass of [build_proxy]: one call for each of the first active
    modules, for all of them when the loop returns. *)
Lemma build_modules_run ims :
  forall acc tr,
    exists k o,
      Build.build_modules backend ims acc tr
      = (o, tr ++ map Build.module_build_proxy
                    (firstn k (active_indices ims))) /\
      (forall l, o = Return l ->
       firstn k (active_indices ims) = active_indices ims).
Proof.
  unfold active_indices.
  induction ims as [| [i m] ims IH]; intros acc tr; simpl.
  - exists 0, (Return acc). rewrite app_nil_r. auto.
  - destruct (Build.active_state m); simpl.
    + rewrite bind_call.
      destruct (Build.raises backend tr (Build.module_build_proxy i))
        as [e |].
      * exists 1, (Raised e). simpl. split; [reflexivity | discriminate].
      * destruct (IH (acc ++ Build.built_proxies backend tr i)
                     (tr ++ [Build.module_build_proxy i]))
          as (k & o & E & Hc).
        exists (S k), o. simpl. rewrite E, <- app_assoc. simpl.
        split; [reflexivity |]. intros l Ho. now rewrite (Hc l Ho).
    + apply IH.
Qed.

Lemma build_proxy_modules_passes modules setup root_transform tr :
  exists o made,
    Build.build_proxy_modules backend modules setup root_transform tr
    = (o, tr ++ made) /\
    two_passes is_build_proxy is_wiring
      (map Build.module_build_proxy
         (active_indices (Build.enumerate modules))) made /\
    (o = Return tt ->
     incl (map Build.module_build_proxy
             (active_indices (Build.enumerate modules))) made).
Proof.
  unfold Build.build_proxy_modules.
  destruct (build_modules_run (Build.enumerate modules) [] tr)
    as (k1 & o1 & E1 & C1).
  destruct o1 as [proxy_data_list | e].
  - rewrite (bind_Return _ _ _ E1). rewrite (C1 _ eq_refl).
    match goal with
    | |- context [bind (Build.for_each proxy_data_list ?body) ?k ?t] =>
        assert (Hmid : appends
                         (fun c => is_build_proxy c = false /\
                                   is_wiring c = false)
                         (Build.for_each proxy_data_list body));
        [| assert (Hwire : appends (fun c => is_build_proxy c = false)
                             (k tt));
           [| destruct (Hmid t) as (o2 & M & E2 & F2) ] ]
    end.
    { apply appends_for_each. intros d.
      repeat (apply appends_bind; [| intros ?]);
        try apply appends_proxy_data_attr;
        apply appends_call; split; reflexivity. }
    { apply appends_for_each. intros [i m].
      destruct (negb (Build.active_state (snd (i, m))));
        [apply appends_ret |].
      repeat (apply appends_bind; [| intros ?]);
        try (apply appends_call; reflexivity).
      apply appends_for_each. intros proxy. apply appends_call. reflexivity. }
    destruct o2 as [[] | e].
    + rewrite (bind_Return _ _ _ E2).
      destruct (Hwire
                  ((tr ++ map Build.module_build_proxy
                            (active_indices (Build.enumerate modules)))
                   ++ M))
        as (o3 & W & E3 & F3).
      rewrite E3.
      exists o3,
        ((map Build.module_build_proxy
            (active_indices (Build.enumerate modules)) ++ M) ++ W).
      split; [rewrite <- !app_assoc; reflexivity |]. split.
      * exists (map Build.module_build_proxy
                  (active_indices (Build.enumerate modules)) ++ M), W.
        split; [reflexivity |].
        split; [| split; [exact F3 |]].
        -- apply Forall_app.
           split; [apply Forall_map_calls; intros j; reflexivity |].
           eapply Forall_impl; [| exact F2]. simpl. tauto.
        -- intros _. apply incl_appl, incl_refl.
      * intros _. apply incl_appl, incl_appl, incl_refl.
    + rewrite (bind_Raised _ _ _ E2).
      exists (Raised e),
        (map Build.module_build_proxy
           (active_indices (Build.enumerate modules)) ++ M).
      split; [rewrite <- !app_assoc; reflexivity |]. split.
      * eexists; exists []. rewrite app_nil_r. split; [reflexivity |].
        split; [| split; [constructor | discriminate]].
        apply Forall_app.
        split; [apply Forall_map_calls; intros j; reflexivity |].
        eapply Forall_impl; [| exact F2]. simpl. tauto.
      * discriminate.
  - rewrite (bind_Raised _ _ _ E1).
    eexists; eexists. split; [reflexivity |]. split.
    + eexists; exists []. rewrite app_nil_r. split; [reflexivity |].
      split; [| split; [constructor | discriminate]].
      apply Forall_map_calls. intros j. reflexivity.
    + discriminate.
Qed.

End ModuleLoops.

(** The loops that follow the call to [add_attr] are written for the
    order of the phases: run on their own, whatever the scene, the
    modules and their order, the loops of [build_rig] call
    [build_rig_post] on a module only after [build_rig] was called on
    every active module, and call no [build_rig] after that; when they
    return they have called [build_rig] on every active module, then
    [build_rig_post] on every active module, in the order of the list.
    Likewise the loops of [build_proxy] make the calls of their second
    pass only after [build_proxy] was called on every active module. *)
Lemma module_loops_in_order (backend : Build.Backend)
    (modules : list ModuleObj) (tr0 : Build.Trace) :
  (exists o made,
     Build.build_rig_modules backend modules tr0 = (o, tr0 ++ made) /\
     (forall t1 c t2,
        made = t1 ++ c :: t2 -> is_build_rig_post c = true ->
        (forall i m, nth_error modules i = Some m ->
                     Build.active_state m = true ->
                     In (Build.module_build_rig i) t1) /\
        Forall (fun c' => is_build_rig c' = false) (c :: t2)) /\
     (o = Return tt ->
      made = map Build.module_build_rig
               (active_indices (Build.enumerate modules)) ++
             map Build.module_build_rig_post
               (active_indices (Build.enumerate modules)))) /\
  (forall setup root_transform,
     exists o made,
       Build.build_proxy_modules backend modules setup root_transform tr0
       = (o, tr0 ++ made) /\
       (forall t1 c t2,
          made = t1 ++ c :: t2 -> is_wiring c = true ->
          (forall i m, nth_error modules i = Some m ->
                       Build.active_state m = true ->
                       In (Build.module_build_proxy i) t1) /\
          Forall (fun c' => is_build_proxy c' = false) (c :: t2)) /\
       (o = Return tt ->
        forall i m, nth_error modules i = Some m ->
                    Build.active_state m = true ->
                    In (Build.module_build_proxy i) made)).
Proof.
  split.
  - destruct (build_rig_modules_passes backend modules tr0)
      as (o & made & E & Hp & Hret).
    exists o, made. split; [exact E |]. split; [| exact Hret].
    intros t1 c t2 Hmade Hc.
    destruct (two_passes_order Hp _ _ _ Hmade Hc) as [Hreq Hrest].
    split; [| exact Hrest].
    intros i m Hi Ha. apply Hreq. apply in_map.
    eapply in_active_indices; eauto.
  - intros setup root_transform.
    destruct (build_proxy_modules_passes backend modules setup
                root_transform tr0)
      as (o & made & E & Hp & Hret).
    exists o, made. split; [exact E |]. split.
    + intros t1 c t2 Hmade Hc.
      destruct (two_passes_order Hp _ _ _ Hmade Hc) as [Hreq Hrest].
      split; [| exact Hrest].
      intros i m Hi Ha. apply Hreq. apply in_map.
      eapply in_active_indices; eauto.
    + intros Ho i m Hi Ha. apply (Hret Ho). apply in_map.
      eapply in_active_indices; eauto.
Qed.

(** In a scene where nothing raises, the loops of [build_rig] on the two
    modules of [Sample.project] make both [build_rig] calls, then both
    [build_rig_post] calls. *)
Example build_rig_modules_two_modules :
  Build.build_rig_modules Sample.quiet_backend
    (RigProject.modules Sample.project) []
  = (Return tt,
     [Build.module_build_rig 0;
      Build.module_build_rig 1;
      Build.module_build_rig_post 0;
      Build.module_build_rig_post 1]).
Proof. vm_compute. reflexivity. Qed.

(** ** The refresh bracket *)

Section Bracket.
Variable backend : Build.Backend.

Lemma try_except_reraise {A} (body : Build.B A) tr :
  try_except body (fun e => raise e) tr = body tr.
Proof.
  unfold try_except, raise. now destruct (body tr) as [[a | e] tr'].
Qed.

(** With refresh calls that do not raise, the bracket suspends, runs the
    body, resumes and refreshes, and has the outcome of the body. *)
Lemma refresh_bracket_run (body : Build.B unit) tr o trb :
  refresh_total backend ->
  body (tr ++ [Build.cmds_refresh_suspend true]) = (o, trb) ->
  refresh_bracket backend body tr =
    (o, trb ++ [Build.cmds_refresh_suspend false; Build.cmds_refresh]).
Proof.
  intros Ht E. unfold refresh_bracket.
  rewrite bind_call_. rewrite (proj1 (Ht tr) true).
  unfold try_finally. rewrite try_except_reraise, E.
  rewrite bind_call_. rewrite (proj1 (Ht trb) false).
  unfold Build.call_, Build.call. rewrite (proj2 (Ht _)).
  now rewrite <- app_assoc.
Qed.

End Bracket.

Lemma build_rig_is_bracket backend GRP modules :
  Build.build_rig backend GRP modules =
    refresh_bracket backend (Build.build_rig_body backend GRP modules).
Proof. reflexivity. Qed.

Lemma build_proxy_is_bracket backend GRP modules :
  Build.build_proxy backend GRP modules =
    refresh_bracket backend (Build.build_proxy_body backend GRP modules).
Proof. reflexivity. Qed.

(** C4: [RigProject.build_rig] and [RigProject.build_proxy] call
    [add_attr(target_list=setup, ...)], and [add_attr] has no parameter
    of that name (it is [obj_list], the name the call to [set_attr] on the
    next line uses).  So whatever the scene and the modules, both builds
    raise: the only calls they make are the refresh calls, the creation
    of the root curve, of the setup group and, in [build_rig], of its
    [Node].  No module has [build_rig], [build_rig_post], [build_proxy]
    or [build_proxy_post] called, active or not.  When no call into the
    scene raises, the exception is the TypeError of the call to
    [add_attr].  The loops that the call cuts off are written for the
    order of the phases ([module_loops_in_order]). *)
Theorem build_stops_at_add_attr (backend : Build.Backend) (GRP : string)
    (modules : list ModuleObj) (tr0 : Build.Trace) :
  (exists e made,
     Build.build_rig backend GRP modules tr0 = (Raised e, tr0 ++ made) /\
     Forall (fun c => before_add_attr c = true) made /\
     Forall (fun c => call_module c = None) made /\
     ((forall tr c, Build.raises backend tr c = None) ->
      e = TypeError unexpected_target_list /\ length made = 6)) /\
  (exists e made,
     Build.build_proxy backend GRP modules tr0 = (Raised e, tr0 ++ made) /\
     Forall (fun c => before_add_attr c = true) made /\
     Forall (fun c => call_module c = None) made /\
     ((forall tr c, Build.raises backend tr c = None) ->
      e = TypeError unexpected_target_list /\ length made = 5)).
Proof.
  assert (M : forall made,
            Forall (fun c => before_add_attr c = true) made ->
            Forall (fun c => call_module c = None) made).
  { intros made F. eapply Forall_impl; [| exact F].
    intros c Hc. destruct c; try reflexivity; discriminate Hc. }
  assert (G : forall body n,
            (forall tr, exists e made,
                body tr = (Raised e, tr ++ made) /\
                Forall (fun c => before_add_attr c = true) made /\
                ((forall tr' c, Build.raises backend tr' c = None) ->
                 e = TypeError unexpected_target_list /\ length made = n)) ->
            exists e made,
              refresh_bracket backend body tr0 = (Raised e, tr0 ++ made) /\
              Forall (fun c => before_add_attr c = true) made /\
              Forall (fun c => call_module c = None) made /\
              ((forall tr c, Build.raises backend tr c = None) ->
               e = TypeError unexpected_target_list /\
               length made = S n + 2)).
  { intros body n Hbody. unfold refresh_bracket.
    rewrite bind_call_.
    destruct (Build.raises backend tr0 (Build.cmds_refresh_suspend true))
      as [e |] eqn:Q0.
    - exists e, [Build.cmds_refresh_suspend true].
      split; [reflexivity |].
      split; [repeat constructor |]. split; [repeat constructor |].
      intros Q. rewrite Q in Q0. discriminate Q0.
    - destruct (Hbody (tr0 ++ [Build.cmds_refresh_suspend true]))
        as (e & made & E & F & Hq).
      unfold try_finally. rewrite try_except_reraise, E.
      rewrite bind_call_.
      destruct (Build.raises backend _ (Build.cmds_refresh_suspend false))
        as [e1 |] eqn:Q1.
      + exists e1,
          (Build.cmds_refresh_suspend true :: made ++
           [Build.cmds_refresh_suspend false]).
        assert (F' : Forall (fun c => before_add_attr c = true)
                       (Build.cmds_refresh_suspend true :: made ++
                        [Build.cmds_refresh_suspend false])).
        { constructor; [reflexivity |]. apply Forall_app.
          split; [exact F | repeat constructor]. }
        split; [rewrite <- !app_assoc; reflexivity |].
        split; [exact F' |]. split; [exact (M _ F') |].
        intros Q. rewrite Q in Q1. discriminate Q1.
      + destruct (call_run backend Build.cmds_refresh (fun _ => tt)
                    (((tr0 ++ [Build.cmds_refresh_suspend true]) ++ made)
                     ++ [Build.cmds_refresh_suspend false])) as (o' & E').
        unfold Build.call_. rewrite E'.
        assert (F' : Forall (fun c => before_add_attr c = true)
                       (Build.cmds_refresh_suspend true :: made ++
                        [Build.cmds_refresh_suspend false;
                         Build.cmds_refresh])).
        { constructor; [reflexivity |]. apply Forall_app.
          split; [exact F | repeat constructor]. }
        exists (match o' with Return _ => e | Raised e2 => e2 end),
          (Build.cmds_refresh_suspend true :: made ++
           [Build.cmds_refresh_suspend false; Build.cmds_refresh]).
        split; [destruct o' as [[] | e2]; rewrite <- !app_assoc; reflexivity |].
        split; [exact F' |]. split; [exact (M _ F') |].
        intros Q. destruct (Hq Q) as [-> L].
        unfold Build.call in E'. rewrite Q in E'. injection E' as <-.
        split; [reflexivity |].
        simpl. rewrite length_app, L. simpl. lia. }
  split.
  - rewrite build_rig_is_bracket.
    exact (G _ 3 (build_rig_body_stops backend GRP modules)).
  - rewrite build_proxy_is_bracket.
    exact (G _ 2 (build_proxy_body_stops backend GRP modules)).
Qed.

(** C5: when the calls to [cmds.refresh] do not raise, [build_proxy] and
    [build_rig] first suspend the refresh, then run their body, then resume
    the refresh and refresh, whether the body returns or raises, and their
    outcome is the outcome of the body: what the body raises is raised to
    the caller. *)
Theorem build_refresh_bracket (backend : Build.Backend) (GRP : string)
    (modules : list ModuleObj) (tr0 : Build.Trace) :
  refresh_total backend ->
  (exists o made,
     Build.build_proxy_body backend GRP modules
       (tr0 ++ [Build.cmds_refresh_suspend true])
     = (o, (tr0 ++ [Build.cmds_refresh_suspend true]) ++ made) /\
     Build.build_proxy backend GRP modules tr0
     = (o, tr0 ++ [Build.cmds_refresh_suspend true] ++ made ++
               [Build.cmds_refresh_suspend false; Build.cmds_refresh])) /\
  (exists o made,
     Build.build_rig_body backend GRP modules
       (tr0 ++ [Build.cmds_refresh_suspend true])
     = (o, (tr0 ++ [Build.cmds_refresh_suspend true]) ++ made) /\
     Build.build_rig backend GRP modules tr0
     = (o, tr0 ++ [Build.cmds_refresh_suspend true] ++ made ++
               [Build.cmds_refresh_suspend false; Build.cmds_refresh])).
Proof.
  intros Ht. split.
  - destruct (build_proxy_body_stops backend GRP modules
                (tr0 ++ [Build.cmds_refresh_suspend true]))
      as (e & made & E & _).
    exists (Raised e), made. split; [exact E |].
    rewrite build_proxy_is_bracket.
    rewrite (refresh_bracket_run _ _ Ht E).
    now rewrite <- !app_assoc.
  - destruct (build_rig_body_stops backend GRP modules
                (tr0 ++ [Build.cmds_refresh_suspend true]))
      as (e & made & E & _).
    exists (Raised e), made. split; [exact E |].
    rewrite build_rig_is_bracket.
    rewrite (refresh_bracket_run _ _ Ht E).
    now rewrite <- !app_assoc.
Qed.

Lemma build_refresh_bracket_witness :
  refresh_total Sample.failing_backend /\
  Build.build_rig Sample.failing_backend "grp"
    (RigProject.modules Sample.project) []
  = (Raised (RuntimeError "No object matches name"),
     [Build.cmds_refresh_suspend true;
      Build.create_control_root_curve;
      Build.cmds_group "setup_grp";
      Build.Node "setup_grp";
      Build.cmds_refresh_suspend false;
      Build.cmds_refresh]).
Proof.
  assert (Ht : refresh_total Sample.failing_backend)
    by (intros tr; split; [intros b |]; reflexivity).
  split; [exact Ht |].
  destruct (@build_refresh_bracket Sample.failing_backend "grp"
              (RigProject.modules Sample.project) [] Ht)
    as [_ (o & made & Ebody & Erig)].
  vm_compute in Ebody. injection Ebody as <- <-.
  rewrite Erig. reflexivity.
Defined.

(** ** The sample UUIDs validate *)

Lemma hex_char_is_hex n : Sample.is_hex (Sample.hex_char n) = true.
Proof.
  unfold Sample.hex_char.
  assert (B : (N.to_nat (n mod 16) < 16)%nat).
  { pose proof (N.mod_upper_bound n 16). lia. }
  destruct (N.to_nat (n mod 16)) as [| k]; [reflexivity |].
  do 15 (destruct k as [| k]; [reflexivity |]). lia.
Qed.

Lemma hex_digits_valid k :
  forall n,
    String.length (Sample.hex_digits k n) = k /\
    Sample.all_hex (Sample.hex_digits k n) = true.
Proof.
  induction k as [| k IH]; intros n; simpl; [auto |].
  destruct (IH (n / 16)%N) as [L A].
  rewrite L, A, hex_char_is_hex. auto.
Qed.

#[export] Instance sample_uuid_laws : @UuidLaws Sample.externals.
Proof.
  split; intros n.
  - change (Sample.valid32
              (Sample.hex_digits 32 (N.of_nat n + 2779096485)) = true).
    unfold Sample.valid32.
    destruct (hex_digits_valid 32 (N.of_nat n + 2779096485)) as [L A].
    now rewrite L, A.
  - change (Sample.hex_digits 32 (N.of_nat n + 2779096485) <> "").
    intros E.
    apply (f_equal String.length) in E.
    destruct (hex_digits_valid 32 (N.of_nat n + 2779096485)) as [L _].
    rewrite L in E. discriminate E.
Qed.

(** ** The spine module *)

Lemma chained_app parent l1 l2 :
  chained parent (l1 ++ l2) <->
  chained parent l1 /\ chained (last_uuid parent l1) l2.
Proof.
  revert parent. induction l1 as [| s l1 IH]; intros parent; simpl.
  - unfold last_uuid. simpl. tauto.
  - rewrite IH.
    assert (E : last_uuid parent (s :: l1) = last_uuid (Proxy.uuid s) l1).
    { unfold last_uuid. simpl.
      destruct (rev l1) as [| x r] eqn:R; simpl; reflexivity. }
    rewrite E. tauto.
Qed.

Lemma chained_firstn parent l k :
  chained parent l -> chained parent (firstn k l).
Proof.
  intros C. rewrite <- (firstn_skipn k l) in C.
  apply chained_app in C. tauto.
Qed.

Lemma Forall_firstn' {A} (P : A -> Prop) l k :
  Forall P l -> Forall P (firstn k l).
Proof.
  intros F. rewrite <- (firstn_skipn k l) in F.
  apply Forall_app in F. tauto.
Qed.

Section Spine.
Context `{Externals} `{!UuidLaws}.

Lemma full_uuid_accepted u :
  full_uuid u = true ->
  accepted_uuid (PyStr u) = true /\ is_uuid_valid u = true.
Proof.
  unfold full_uuid, accepted_uuid. simpl. intros E.
  apply andb_prop in E. destruct E as [N V]. rewrite N, V. auto.
Qed.

Lemma generated_full n : full_uuid (uuid4_hex n) = true.
Proof.
  unfold full_uuid. rewrite generated_uuid_valid.
  destruct (String.eqb_spec (uuid4_hex n) "") as [E | _]; [| reflexivity].
  now apply generated_uuid_nonempty in E.
Qed.

Lemma last_uuid_full hip_uuid spines :
  full_uuid hip_uuid = true ->
  Forall (fun s => full_uuid (Proxy.uuid s) = true) spines ->
  full_uuid (last_uuid hip_uuid spines) = true.
Proof.
  intros Hh Hs. unfold last_uuid.
  destruct (rev spines) as [| x r] eqn:R; [exact Hh |].
  rewrite Forall_forall in Hs. apply Hs. apply in_rev. rewrite R. now left.
Qed.

Lemma named_spec name w :
  name <> "" ->
  Proxy.named name w =
    (Return {| Proxy.name := name;
               Proxy.transform := None;
               Proxy.offset_transform := None;
               Proxy.curve :=
                 CurveOps.set_name name
                   (CurveOps.set_name "proxy" proxy_joint_curve);
               Proxy.uuid := uuid4_hex (uuid_count w);
               Proxy.parent_uuid := PyNone;
               Proxy.locator_scale := PyInt 1;
               Proxy.attr_dict := [];
               Proxy.metadata := None |},
     {| uuid_count := S (uuid_count w); log := log w |}).
Proof. destruct name; [congruence | reflexivity]. Qed.

Lemma add_color_frame v p w :
  exists p' w',
    Proxy.add_color v p w = (Return p', w') /\
    Proxy.uuid p' = Proxy.uuid p /\
    Proxy.parent_uuid p' = Proxy.parent_uuid p.
Proof.
  unfold Proxy.add_color.
  repeat match goal with
         | |- context [match ?x with _ => _ end] => destruct x
         end;
    unfold bind, logger, ret; do 2 eexists; repeat split.
Qed.

Lemma get_meta_parent_after_add u p :
  is_uuid_valid u = true ->
  Proxy.get_meta_parent_uuid (Proxy.add_meta_parent (Proxy.AVal (PyStr u)) p)
  = PyStr u.
Proof.
  intros V. unfold Proxy.add_meta_parent. rewrite V.
  unfold Proxy.get_meta_parent_uuid. simpl.
  destruct (dict_set PROXY_META_PARENT (PyStr u) (Proxy.metadata_or_empty p))
    as [| e d] eqn:D.
  - destruct (Proxy.metadata_or_empty p) as [| [k v] r]; simpl in D;
      [discriminate |].
    destruct (PROXY_META_PARENT =? k); discriminate.
  - change (dict_get PROXY_META_PARENT (e :: d) = PyStr u).
    rewrite <- D. apply dict_get_set_eq.
Qed.

Lemma add_meta_parent_uuid a p :
  Proxy.uuid (Proxy.add_meta_parent a p) = Proxy.uuid p.
Proof.
  unfold Proxy.add_meta_parent.
  destruct a as [[] |]; try reflexivity.
  now destruct (is_uuid_valid s).
Qed.

Lemma new_spine_spec num parent w :
  full_uuid parent = true ->
  exists s w',
    ModuleSpine.new_spine num parent w = (Return s, w') /\
    Proxy.uuid s = uuid4_hex (uuid_count w) /\
    Proxy.parent_uuid s = PyStr parent.
Proof.
  intros Hp. apply full_uuid_accepted in Hp. destruct Hp as [Ha Hv].
  unfold ModuleSpine.new_spine.
  rewrite (bind_Return _ _ _ (named_spec w (name := ModuleSpine.spine_name num)
                                ltac:(discriminate))).
  rewrite (bind_Return _ _ _ (set_locator_scale_spec _ _ _)).
  match goal with
  | |- context [Proxy.add_color FOLLOWER ?p] =>
      destruct (add_color_frame FOLLOWER p
                  {| uuid_count := S (uuid_count w); log := log w |})
        as (p1 & w1 & E1 & U1 & P1)
  end.
  simpl is_float_or_int. cbv iota.
  rewrite (bind_Return _ _ _ E1).
  rewrite set_parent_uuid_spec, Ha.
  do 2 eexists. split; [reflexivity |]. split.
  - unfold Proxy.with_parent_uuid. cbn [Proxy.uuid].
    rewrite add_meta_parent_uuid. exact U1.
  - reflexivity.
Qed.

Lemma create_spines_spec count :
  forall num parent spines w,
    full_uuid parent = true ->
    exists new w',
      ModuleSpine.create_spines count num parent spines w
      = (Return (spines ++ new), w') /\
      length new = count /\
      chained parent new /\
      Forall (fun s => full_uuid (Proxy.uuid s) = true) new.
Proof.
  induction count as [| count IH]; intros num parent spines w Hp; simpl.
  - exists [], w. rewrite app_nil_r. repeat split; constructor.
  - destruct (@new_spine_spec num parent w Hp) as (s & w1 & E & U & P).
    rewrite (bind_Return _ _ _ E).
    assert (Hs : full_uuid (Proxy.uuid s) = true)
      by (rewrite U; apply generated_full).
    destruct (IH (S num) (Proxy.get_uuid s) (spines ++ [s]) w1 Hs)
      as (new & w2 & E2 & L & C & F).
    exists (s :: new), w2. rewrite E2, <- app_assoc. simpl.
    repeat split; auto.
Qed.

End Spine.

Section SpineNum.
Context `{Externals} `{!UuidLaws}.

Lemma relink_chest_wf m :
  spine_chain m ->
  spine_wf (relink_chest m) /\
  ModuleSpine.hip (relink_chest m) = ModuleSpine.hip m /\
  Proxy.uuid (ModuleSpine.chest (relink_chest m))
  = Proxy.uuid (ModuleSpine.chest m) /\
  ModuleSpine.spines (relink_chest m) = ModuleSpine.spines m.
Proof.
  intros (Hh & Hs & Hc).
  assert (V : is_uuid_valid
                (last_uuid (Proxy.get_uuid (ModuleSpine.hip m))
                   (ModuleSpine.spines m)) = true).
  { apply full_uuid_accepted. now apply last_uuid_full. }
  unfold relink_chest, ModuleSpine.refresh_proxies_list, spine_wf,
    spine_chain, ModuleSpine.proxies.
  cbn [ModuleSpine.hip ModuleSpine.spines ModuleSpine.chest ModuleSpine.base
       ModuleSpine.with_base ModuleSpine.with_chest
       ModuleGeneric.proxies ModuleGeneric.with_proxies].
  repeat split; auto.
  - now apply get_meta_parent_after_add.
  - apply add_meta_parent_uuid.
Qed.

(** What [set_spine_num] does for a number that is not negative. *)
Lemma set_spine_num_spec (m : ModuleSpine.t) (n : Z) (w : World) :
  spine_chain m ->
  Z.of_nat (length (ModuleSpine.spines m)) <> n \/ spine_wf m ->
  (0 <= n)%Z ->
  exists m' w',
    ModuleSpine.set_spine_num n m w = (Return m', w') /\
    spine_wf m' /\
    ModuleSpine.hip m' = ModuleSpine.hip m /\
    Proxy.uuid (ModuleSpine.chest m') = Proxy.uuid (ModuleSpine.chest m) /\
    length (ModuleSpine.spines m') = Z.to_nat n /\
    ((n <= Z.of_nat (length (ModuleSpine.spines m)))%Z ->
     ModuleSpine.spines m' = firstn (Z.to_nat n) (ModuleSpine.spines m)) /\
    ((Z.of_nat (length (ModuleSpine.spines m)) <= n)%Z ->
     firstn (length (ModuleSpine.spines m)) (ModuleSpine.spines m')
     = ModuleSpine.spines m).
Proof.
  intros Hchain Hwf Hn. unfold ModuleSpine.set_spine_num.
  destruct (Z.eqb_spec (Z.of_nat (length (ModuleSpine.spines m))) n)
    as [Heq | Hne].
  - destruct Hwf as [Hne | Hwf]; [contradiction |].
    exists m, w. split; [reflexivity |].
    split; [exact Hwf |]. repeat split; auto.
    + lia.
    + intros _. rewrite <- Heq, Nat2Z.id. symmetry. apply firstn_all.
    + intros _. apply firstn_all.
  - assert (Hfinish : forall m1 (w1 : World),
      spine_chain m1 ->
      exists m' w',
        (let self :=
           match rev (ModuleSpine.spines m1) with
           | last :: _ =>
               ModuleSpine.with_chest
                 (Proxy.add_meta_parent
                    (Proxy.AVal (PyStr (Proxy.get_uuid last)))
                    (ModuleSpine.chest m1)) m1
           | [] =>
               ModuleSpine.with_chest
                 (Proxy.add_meta_parent
                    (Proxy.AVal
                       (PyStr (Proxy.get_uuid (ModuleSpine.hip m1))))
                    (ModuleSpine.chest m1)) m1
           end in
         ret (ModuleSpine.refresh_proxies_list self)) w1 = (Return m', w') /\
        spine_wf m' /\
        ModuleSpine.hip m' = ModuleSpine.hip m1 /\
        Proxy.uuid (ModuleSpine.chest m') = Proxy.uuid (ModuleSpine.chest m1)
        /\ ModuleSpine.spines m' = ModuleSpine.spines m1).
    { intros m1 w1 C1. exists (relink_chest m1), w1.
      split; [| now apply relink_chest_wf].
      unfold relink_chest, last_uuid.
      now destruct (rev (ModuleSpine.spines m1)). }
    destruct Hchain as (Hh & Hs & Hc).
    destruct (Z.ltb_spec (Z.of_nat (length (ModuleSpine.spines m))) n)
      as [Hlt | Hge].
    + assert (Hlast : full_uuid
                        (last_uuid (Proxy.get_uuid (ModuleSpine.hip m))
                           (ModuleSpine.spines m)) = true)
        by (now apply last_uuid_full).
      destruct create_spines_spec
        with (count := (Z.to_nat n - length (ModuleSpine.spines m))%nat)
             (num := length (ModuleSpine.spines m))
             (parent := last_uuid (Proxy.get_uuid (ModuleSpine.hip m))
                          (ModuleSpine.spines m))
             (spines := ModuleSpine.spines m) (w := w)
        as (new & w1 & E & L & C & F); [exact Hlast |].
      unfold last_uuid in E.
      rewrite (bind_Return _ _ _ (bind_Return _ _ _ E)).
      unfold ret at 1.
      destruct (Hfinish (ModuleSpine.with_spines (ModuleSpine.spines m ++ new)
                           m) w1)
        as (m' & w' & E' & Hwf' & Hhip & Hchest & Hsp).
      { split; [exact Hh |]. split.
        - simpl. now apply Forall_app.
        - simpl. apply chained_app. split; [exact Hc | exact C]. }
      exists m', w'. split; [exact E' |]. split; [exact Hwf' |].
      simpl in Hhip, Hchest, Hsp. rewrite Hsp.
      repeat split; auto.
      * rewrite length_app. lia.
      * intros Hle. lia.
      * intros _. rewrite firstn_app, Nat.sub_diag, firstn_all. simpl.
        apply app_nil_r.
    + destruct (Z.ltb_spec n (Z.of_nat (length (ModuleSpine.spines m))))
        as [Hlt | Hge']; [| lia].
      rewrite bind_ret_l.
      assert (Hslice : py_slice_to n (ModuleSpine.spines m)
                       = firstn (Z.to_nat n) (ModuleSpine.spines m)).
      { unfold py_slice_to. destruct (Z.leb_spec 0 n); [reflexivity | lia]. }
      rewrite Hslice.
      destruct (Hfinish
                  (ModuleSpine.with_spines
                     (firstn (Z.to_nat n) (ModuleSpine.spines m)) m) w)
        as (m' & w' & E' & Hwf' & Hhip & Hchest & Hsp).
      { split; [exact Hh |]. split.
        - simpl. now apply Forall_firstn'.
        - simpl. now apply chained_firstn. }
      exists m', w'. split; [exact E' |]. split; [exact Hwf' |].
      simpl in Hhip, Hchest, Hsp. rewrite Hsp.
      repeat split; auto.
      * rewrite length_firstn. lia.
      * intros Hle. lia.
Qed.

End SpineNum.

Lemma last_uuid_nth hip_uuid l k :
  length l = S k ->
  exists s, nth_error l k = Some s /\ last_uuid hip_uuid l = Proxy.uuid s.
Proof.
  intros L. unfold last_uuid.
  destruct (rev l) as [| x r] eqn:R.
  - apply (f_equal (@length _)) in R. rewrite length_rev in R.
    simpl in R. lia.
  - assert (E : l = rev r ++ [x]).
    { rewrite <- (rev_involutive l), R. reflexivity. }
    exists x. split; [| reflexivity].
    assert (Lr : length (rev r) = k).
    { rewrite E, length_app in L. simpl in L. lia. }
    rewrite E, nth_error_app2 by lia.
    rewrite Lr, Nat.sub_diag. reflexivity.
Qed.

(** C6: on a ModuleSpine as the constructor and [set_spine_num] leave it,
    [set_spine_num(3)] followed by [set_spine_num(6)] keeps the UUIDs of
    the hip and of the chest and leaves six spines: the first has the UUID
    of the hip as parent, each other one the UUID of the spine before it,
    and the meta parent of the chest is the UUID of the sixth spine. *)
Theorem spine_num_three_then_six `{Externals} `{!UuidLaws}
    (m : ModuleSpine.t) (w : World) :
  spine_wf m ->
  exists m1 w1 m2 w2,
    ModuleSpine.set_spine_num 3 m w = (Return m1, w1) /\
    ModuleSpine.set_spine_num 6 m1 w1 = (Return m2, w2) /\
    Proxy.uuid (ModuleSpine.hip m2) = Proxy.uuid (ModuleSpine.hip m) /\
    Proxy.uuid (ModuleSpine.chest m2) = Proxy.uuid (ModuleSpine.chest m) /\
    length (ModuleSpine.spines m2) = 6 /\
    chained (Proxy.uuid (ModuleSpine.hip m2)) (ModuleSpine.spines m2) /\
    exists sixth,
      nth_error (ModuleSpine.spines m2) 5 = Some sixth /\
      Proxy.get_meta_parent_uuid (ModuleSpine.chest m2)
      = PyStr (Proxy.uuid sixth).
Proof.
  intros Hwf.
  destruct (@set_spine_num_spec _ _ m 3 w (proj1 Hwf) (or_intror Hwf))
    as (m1 & w1 & E1 & Hwf1 & Hhip1 & Hchest1 & L1 & _); [lia |].
  destruct (@set_spine_num_spec _ _ m1 6 w1 (proj1 Hwf1) (or_intror Hwf1))
    as (m2 & w2 & E2 & Hwf2 & Hhip2 & Hchest2 & L2 & _); [lia |].
  exists m1, w1, m2, w2.
  split; [exact E1 |]. split; [exact E2 |].
  split; [now rewrite Hhip2, Hhip1 |].
  split; [now rewrite Hchest2, Hchest1 |].
  split; [exact L2 |].
  destruct Hwf2 as ((_ & _ & Hc) & Hmeta & _).
  split; [exact Hc |].
  destruct (@last_uuid_nth (Proxy.get_uuid (ModuleSpine.hip m2))
              (ModuleSpine.spines m2) 5 L2) as (sixth & Hn & Hl).
  exists sixth. split; [exact Hn |]. now rewrite Hmeta, Hl.
Qed.

Lemma spine_wf_sample : @spine_wf Sample.externals Sample.spine.
Proof.
  unfold spine_wf, spine_chain.
  repeat split; try reflexivity; repeat constructor; reflexivity.
Defined.

Lemma spine_num_three_then_six_witness :
  @spine_wf Sample.externals Sample.spine /\
  exists m1 w1 m2 w2,
    @ModuleSpine.set_spine_num Sample.externals 3 Sample.spine Sample.world0
    = (Return m1, w1) /\
    @ModuleSpine.set_spine_num Sample.externals 6 m1 w1 = (Return m2, w2) /\
    length (ModuleSpine.spines m2) = 6.
Proof.
  split; [exact spine_wf_sample |].
  destruct (@spine_num_three_then_six Sample.externals sample_uuid_laws
              Sample.spine Sample.world0 spine_wf_sample)
    as (m1 & w1 & m2 & w2 & E1 & E2 & _ & _ & L & _).
  exists m1, w1, m2, w2. auto.
Defined.

(** C7: on a ModuleSpine as the constructor and [set_spine_num] leave it,
    [set_spine_num(0)] leaves no spine, the proxies list [hip, chest] and
    the UUID of the hip as meta parent of the chest; [set_spine_num(n)]
    for [n] below the current count keeps the first [n] spines and makes
    the meta parent of the chest the UUID of the [n]-th of them, or of the
    hip when [n] is [0]. *)
Theorem spine_num_decrease `{Externals} `{!UuidLaws}
    (m : ModuleSpine.t) (w : World) :
  spine_wf m ->
  (exists m' w',
     ModuleSpine.set_spine_num 0 m w = (Return m', w') /\
     ModuleSpine.spines m' = [] /\
     ModuleSpine.proxies m' = [ModuleSpine.hip m'; ModuleSpine.chest m'] /\
     ModuleSpine.hip m' = ModuleSpine.hip m /\
     Proxy.uuid (ModuleSpine.chest m') = Proxy.uuid (ModuleSpine.chest m) /\
     Proxy.get_meta_parent_uuid (ModuleSpine.chest m')
     = PyStr (Proxy.uuid (ModuleSpine.hip m))) /\
  (forall n,
     (0 <= n < Z.of_nat (length (ModuleSpine.spines m)))%Z ->
     exists m' w',
       ModuleSpine.set_spine_num n m w = (Return m', w') /\
       ModuleSpine.spines m' = firstn (Z.to_nat n) (ModuleSpine.spines m) /\
       ModuleSpine.hip m' = ModuleSpine.hip m /\
       match Z.to_nat n with
       | O =>
           Proxy.get_meta_parent_uuid (ModuleSpine.chest m')
           = PyStr (Proxy.uuid (ModuleSpine.hip m))
       | S k =>
           exists last,
             nth_error (ModuleSpine.spines m) k = Some last /\
             Proxy.get_meta_parent_uuid (ModuleSpine.chest m')
             = PyStr (Proxy.uuid last)
       end).
Proof.
  intros Hwf. split.
  - destruct (@set_spine_num_spec _ _ m 0 w (proj1 Hwf) (or_intror Hwf))
      as (m' & w' & E & Hwf' & Hhip & Hchest & L & _ & _); [lia |].
    assert (Hsp : ModuleSpine.spines m' = []).
    { destruct (ModuleSpine.spines m'); [reflexivity | discriminate L]. }
    exists m', w'. split; [exact E |]. split; [exact Hsp |].
    destruct Hwf' as (_ & Hmeta & Hprox).
    rewrite Hsp in Hmeta, Hprox. unfold last_uuid in Hmeta. simpl in Hmeta.
    repeat split; auto.
    now rewrite Hmeta, Hhip.
  - intros n Hn.
    destruct (@set_spine_num_spec _ _ m n w (proj1 Hwf) (or_intror Hwf))
      as (m' & w' & E & Hwf' & Hhip & Hchest & L & Hfirst & _); [lia |].
    exists m', w'. split; [exact E |].
    split; [apply Hfirst; lia |]. split; [exact Hhip |].
    destruct Hwf' as (_ & Hmeta & _).
    destruct (Z.to_nat n) as [| k] eqn:K.
    + assert (Hsp : ModuleSpine.spines m' = []).
      { destruct (ModuleSpine.spines m'); [reflexivity | discriminate L]. }
      rewrite Hsp in Hmeta. unfold last_uuid in Hmeta. simpl in Hmeta.
      now rewrite Hmeta, Hhip.
    + destruct (@last_uuid_nth (Proxy.get_uuid (ModuleSpine.hip m'))
                  (ModuleSpine.spines m') k L) as (last & Hnth & Hl).
      exists last. split; [| now rewrite Hmeta, Hl].
      rewrite Hfirst in Hnth by lia.
      rewrite nth_error_firstn in Hnth.
      destruct (Nat.ltb_spec k (S k)); [exact Hnth | lia].
Qed.

Lemma spine_num_decrease_witness :
  @spine_wf Sample.externals Sample.spine /\
  exists m' w',
    @ModuleSpine.set_spine_num Sample.externals 0 Sample.spine Sample.world0
    = (Return m', w') /\
    ModuleSpine.spines m' = [] /\
    ModuleSpine.proxies m' = [ModuleSpine.hip m'; ModuleSpine.chest m'].
Proof.
  split; [exact spine_wf_sample |].
  destruct (@spine_num_decrease Sample.externals sample_uuid_laws
              Sample.spine Sample.world0 spine_wf_sample)
    as [(m' & w' & E & Hs & Hp & _) _].
  exists m', w'. auto.
Defined.

(** In a scene where nothing raises, [build_rig] and [build_proxy] on the
    two active modules of [Sample.project] raise TypeError and call no
    module. *)
Example build_rig_two_modules :
  Forall (fun m => Build.active_state m = true)
    (RigProject.modules Sample.project) /\
  length (RigProject.modules Sample.project) = 2 /\
  Build.build_rig Sample.quiet_backend "grp"
    (RigProject.modules Sample.project) []
  = (Raised
       (TypeError
          "add_attr() got an unexpected keyword argument 'target_list'"),
     [Build.cmds_refresh_suspend true;
      Build.create_control_root_curve;
      Build.cmds_group "setup_grp";
      Build.Node "setup_grp";
      Build.cmds_refresh_suspend false;
      Build.cmds_refresh]) /\
  Build.build_proxy Sample.quiet_backend "grp"
    (RigProject.modules Sample.project) []
  = (Raised
       (TypeError
          "add_attr() got an unexpected keyword argument 'target_list'"),
     [Build.cmds_refresh_suspend true;
      Build.create_proxy_root_curve;
      Build.cmds_group "setup_grp";
      Build.cmds_refresh_suspend false;
      Build.cmds_refresh]).
Proof. repeat split; repeat constructor. Qed.

(** * Further properties of the data model *)

(** ** Construction and validity of a Proxy *)

Section ProxyInit.
Context `{Externals}.

Lemma step_set_transform v p w :
  exists p' w',
    when (truthy v) (Proxy.set_transform v) p w = (Return p', w') /\
    proxy_core p' = proxy_core p.
Proof.
  unfold when. destruct (truthy v).
  - destruct v; simpl; unfold bind, logger, ret; eauto.
  - unfold ret; eauto.
Qed.

Lemma step_set_offset_transform v p w :
  exists p' w',
    when (truthy v) (Proxy.set_offset_transform v) p w = (Return p', w') /\
    proxy_core p' = proxy_core p.
Proof.
  unfold when. destruct (truthy v).
  - destruct v; simpl; unfold bind, logger, ret; eauto.
  - unfold ret; eauto.
Qed.

Lemma step_set_curve v p w :
  exists p' w',
    when (truthy v) (Proxy.set_curve v false) p w = (Return p', w') /\
    proxy_core p' = proxy_core p.
Proof.
  unfold when. destruct (truthy v).
  - destruct v; simpl; unfold bind, logger, ret; eauto.
    destruct (negb (CurveOps.is_curve_valid c)); eauto.
  - unfold ret; eauto.
Qed.

Lemma valid_of_name p w :
  Proxy.name p <> "" -> Proxy.is_valid p w = (Return true, w).
Proof.
  intros N. unfold Proxy.is_valid.
  destruct (Proxy.name p); [congruence | reflexivity].
Qed.

Ltac step L :=
  let p' := fresh "p" in
  let w' := fresh "w" in
  let E := fresh "E" in
  let C := fresh "C" in
  destruct L as (p' & w' & E & C);
  rewrite (bind_Return _ _ _ E); clear E.

(** What the constructor makes of its arguments: each one that is truthy
    goes through its setter, the others leave the default. *)
Lemma proxy_init_core name transform offset_transform curve uuid parent_uuid
    locator_scale attr_dict metadata w :
  exists p w',
    Proxy.__init__ name transform offset_transform curve uuid parent_uuid
      locator_scale attr_dict metadata w = (Return p, w') /\
    proxy_core p =
      (match as_nonempty_str name with Some s => s | None => "proxy" end,
       (if accepted_uuid parent_uuid then parent_uuid else PyNone),
       (if truthy locator_scale then locator_scale else PyInt 1),
       match read_metadata attr_dict with Some d => d | None => [] end,
       read_metadata metadata,
       match uuid with
       | PyStr s =>
           if accepted_uuid uuid then s else uuid4_hex (uuid_count w)
       | _ => uuid4_hex (uuid_count w)
       end).
Proof.
  unfold Proxy.__init__.
  rewrite (bind_Return _ _ _
             (eq_refl : generate_uuid w =
                        (Return (uuid4_hex (uuid_count w)),
                         {| uuid_count := S (uuid_count w);
                            log := log w |}))).
  step (step_set_name name
          {| Proxy.name := "proxy"; Proxy.transform := None;
             Proxy.offset_transform := None;
             Proxy.curve := CurveOps.set_name "proxy" proxy_joint_curve;
             Proxy.uuid := uuid4_hex (uuid_count w);
             Proxy.parent_uuid := PyNone; Proxy.locator_scale := PyInt 1;
             Proxy.attr_dict := []; Proxy.metadata := None |}
          {| uuid_count := S (uuid_count w); log := log w |}).
  step (step_set_transform transform p w0).
  step (step_set_offset_transform offset_transform p0 w1).
  step (step_set_curve curve p1 w2).
  step (step_set_uuid uuid p2 w3).
  step (step_set_parent_uuid parent_uuid p3 w4).
  step (step_set_locator_scale locator_scale p4 w5).
  step (step_set_attr_dict attr_dict p5 w6).
  destruct (step_set_metadata_dict metadata p6 w7) as (p7 & w8 & E & C7).
  exists p7, w8. split; [exact E |].
  unfold proxy_core in *. simpl in C.
  repeat match goal with
         | Hc : (_, _, _, _, _, _) = _ |- _ =>
             injection Hc as ?N ?P ?L ?A ?M ?U
         end.
  repeat match goal with
         | Hq : _ = _ |- _ => rewrite Hq
         end.
  destruct (read_metadata metadata); reflexivity.
Qed.

End ProxyInit.

(** X1: [Proxy(...)] returns for every list of arguments, and the proxy it
    builds passes [is_valid]: an argument that is not a string or is the
    empty string leaves the default name "proxy".  Each of the nine fields
    is its default overridden by the argument when it is truthy and its
    setter accepts it: a transform or offset transform that is a Transform,
    a curve that is a valid Curve, which is given the name of the proxy,
    as the default curve is. *)
Theorem proxy_init_is_valid `{Externals} (name transform offset_transform
    curve uuid parent_uuid locator_scale attr_dict metadata : pyval)
    (w : World) :
  exists p w',
    Proxy.__init__ name transform offset_transform curve uuid parent_uuid
      locator_scale attr_dict metadata w = (Return p, w') /\
    Proxy.name p <> "" /\
    (forall w2, Proxy.is_valid p w2 = (Return true, w2)) /\
    proxy_core p =
      (match as_nonempty_str name with Some s => s | None => "proxy" end,
       (if accepted_uuid parent_uuid then parent_uuid else PyNone),
       (if truthy locator_scale then locator_scale else PyInt 1),
       match read_metadata attr_dict with Some d => d | None => [] end,
       read_metadata metadata,
       match uuid with
       | PyStr s =>
           if accepted_uuid uuid then s else uuid4_hex (uuid_count w)
       | _ => uuid4_hex (uuid_count w)
       end) /\
    Proxy.transform p =
      match transform with PyTransform t => Some t | _ => None end /\
    Proxy.offset_transform p =
      match offset_transform with PyTransform t => Some t | _ => None end /\
    Proxy.curve p =
      CurveOps.set_name (Proxy.name p)
        match curve with
        | PyCurve c =>
            if CurveOps.is_curve_valid c then c else proxy_joint_curve
        | _ => proxy_joint_curve
        end.
Proof.
  destruct (proxy_init_core name transform offset_transform curve uuid
              parent_uuid locator_scale attr_dict metadata w)
    as (p & w' & E & C).
  pose proof (proxy_init_shape _ _ _ _ _ _ _ _ _ _ E) as Sh.
  unfold proxy_shape in Sh. injection Sh as Sn St So Sc.
  assert (N : Proxy.name p <> "").
  { pose proof C as C'. unfold proxy_core in C'.
    injection C' as N _ _ _ _ _. rewrite N.
    destruct name as [| b | z | f | [| c s] | l | l | d | t | c];
      simpl; discriminate. }
  exists p, w'. split; [exact E |]. split; [exact N |].
  split; [intros w2; now apply valid_of_name |].
  split; [exact C |]. split; [exact St |]. split; [exact So |].
  rewrite Sc, Sn. reflexivity.
Qed.

(** ** Reading any dictionary into a Proxy *)

Section ProxyReadAny.
Context `{Externals}.

Ltac step L :=
  let p' := fresh "p" in
  let w' := fresh "w" in
  let E := fresh "E" in
  let C := fresh "C" in
  destruct L as (p' & w' & E & C);
  rewrite (bind_Return _ _ _ E); clear E.

Lemma is_three_items_run v w :
  (exists b, Proxy.is_three_items v w = (Return b, w)) \/
  (exists e, Proxy.is_three_items v w = (Raised e, w)).
Proof.
  unfold Proxy.is_three_items. destruct (truthy v); [| left; eexists; reflexivity].
  destruct v; simpl; unfold bind, ret, raise; eauto.
Qed.

(** [read_data_from_dict] on a dictionary raises (at [len] of a transform
    block that has no length) or returns [self] with every field that the
    dictionary gives a truthy, accepted value for. *)
Lemma read_proxy_dict_run pd p w :
  (exists e w', Proxy.read_data_from_dict (PyDict pd) p w = (Raised e, w')) \/
  (exists p' w',
     Proxy.read_data_from_dict (PyDict pd) p w
     = (Return (p', Proxy.ReturnedSelf), w') /\
     proxy_core p' =
       (match as_nonempty_str (dict_get "name" pd) with
        | Some s => s
        | None => Proxy.name p
        end,
        (if accepted_uuid (dict_get "parent" pd) then dict_get "parent" pd
         else Proxy.parent_uuid p),
        (if truthy (dict_get "locatorScale" pd)
         then dict_get "locatorScale" pd else Proxy.locator_scale p),
        match read_metadata (dict_get "attributes" pd) with
        | Some d => d
        | None => Proxy.attr_dict p
        end,
        match read_metadata (dict_get "metadata" pd) with
        | Some d => Some d
        | None => Proxy.metadata p
        end,
        match dict_get "uuid" pd with
        | PyStr s =>
            if accepted_uuid (dict_get "uuid" pd) then s else Proxy.uuid p
        | _ => Proxy.uuid p
        end)).
Proof.
  unfold Proxy.read_data_from_dict.
  change (truthy (PyDict pd) && negb (is_dict (PyDict pd)))
    with (truthy (PyDict pd) && false).
  rewrite andb_false_r.
  unfold py_get. rewrite bind_ret_l.
  step (step_set_name (dict_get "name" pd) p w).
  rewrite bind_ret_l.
  step (step_set_parent_uuid (dict_get "parent" pd) p0 w0).
  rewrite bind_ret_l.
  step (step_set_locator_scale (dict_get "locatorScale" pd) p1 w1).
  rewrite bind_ret_l.
  destruct (is_three_items_run (dict_get "transform" pd) w2)
    as [(b1 & E1) | (e & E1)];
    [| left; rewrite (bind_Raised _ _ _ E1); eauto].
  rewrite (bind_Return _ _ _ E1); clear E1.
  assert (S1 : exists p3,
    when b1
      (fun self =>
         ret (Proxy.map_transform
                (TransformOps.set_transform_from_dict
                   (dict_get "transform" pd))
                (Proxy._initialize_transform self))) p2 w2
    = (Return p3, w2) /\ proxy_core p3 = proxy_core p2).
  { destruct b1; simpl; eexists; split; try reflexivity.
    apply proxy_core_map_transform. }
  destruct S1 as (p3 & E3 & C3). rewrite (bind_Return _ _ _ E3); clear E3.
  rewrite bind_ret_l.
  destruct (is_three_items_run (dict_get "offsetTransform" pd) w2)
    as [(b2 & E2) | (e & E2)];
    [| left; rewrite (bind_Raised _ _ _ E2); eauto].
  rewrite (bind_Return _ _ _ E2); clear E2.
  assert (S2 : exists p4,
    when b2
      (fun self =>
         ret (Proxy.map_offset_transform
                (TransformOps.set_transform_from_dict
                   (dict_get "transform" pd))
                (Proxy._initialize_offset_transform self))) p3 w2
    = (Return p4, w2) /\ proxy_core p4 = proxy_core p3).
  { destruct b2; simpl; eexists; split; try reflexivity.
    apply proxy_core_map_offset_transform. }
  destruct S2 as (p4 & E4 & C4). rewrite (bind_Return _ _ _ E4); clear E4.
  rewrite bind_ret_l.
  step (step_set_attr_dict (dict_get "attributes" pd) p4 w2).
  rewrite bind_ret_l.
  step (step_set_metadata_dict (dict_get "metadata" pd) p5 w3).
  rewrite bind_ret_l.
  step (step_set_uuid (dict_get "uuid" pd) p6 w4).
  right. do 2 eexists. split; [reflexivity |].
  unfold proxy_core in *.
  inv C. inv C0. inv C1. inv C3. inv C4. inv C2. inv C5. inv C6.
  repeat match goal with
         | Hq : _ = _ |- _ => rewrite Hq
         end.
  reflexivity.
Qed.

End ProxyReadAny.
Section ProxyValid.
Context `{Externals}.

Lemma read_data_from_dict_name v p w p' r w' :
  Proxy.read_data_from_dict v p w = (Return (p', r), w') ->
  Proxy.name p' = Proxy.name p \/
  (exists d, v = PyDict d /\
             as_nonempty_str (dict_get "name" d) = Some (Proxy.name p')).
Proof.
  destruct v as [| b | z | f | s | l | l | d | t | c];
    try (unfold Proxy.read_data_from_dict;
         match goal with
         | |- context [if ?c then _ else _] => destruct c
         end;
         unfold bind, logger, ret, py_get, raise; intros E;
         [inv E; now left | discriminate E]).
  intros E.
  destruct (read_proxy_dict_run d p w) as [(e & w1 & R) | (q & w1 & R & C)];
    rewrite R in E; [discriminate E |].
  inv E. unfold proxy_core in C. injection C as N _ _ _ _ _.
  destruct (as_nonempty_str (dict_get "name" d)) eqn:A.
  - right. exists d. split; [reflexivity |]. now rewrite N.
  - now left.
Qed.

Lemma as_nonempty_str_nonempty v s : as_nonempty_str v = Some s -> s <> "".
Proof.
  destruct v as [| b | z | f | [| c s'] | l | l | d | t | c];
    simpl; intros E; inv E; discriminate.
Qed.

Lemma map_transform_name f p :
  Proxy.name (Proxy.map_transform f p) = Proxy.name p.
Proof. unfold Proxy.map_transform. now destruct (Proxy.transform p). Qed.

Lemma map_offset_transform_name f p :
  Proxy.name (Proxy.map_offset_transform f p) = Proxy.name p.
Proof.
  unfold Proxy.map_offset_transform. now destruct (Proxy.offset_transform p).
Qed.

Lemma _initialize_transform_name p :
  Proxy.name (Proxy._initialize_transform p) = Proxy.name p.
Proof.
  unfold Proxy._initialize_transform. now destruct (Proxy.transform p).
Qed.

Lemma _initialize_offset_transform_name p :
  Proxy.name (Proxy._initialize_offset_transform p) = Proxy.name p.
Proof.
  unfold Proxy._initialize_offset_transform.
  now destruct (Proxy.offset_transform p).
Qed.

Lemma run_op_name (op : proxy_op) p w p' w' :
  run_op op p w = (Return p', w') ->
  match op with
  | op_set_name _ | op_set_curve _ true => True
  | op_read_data_from_dict _ =>
      Proxy.name p' = Proxy.name p \/ Proxy.name p' <> ""
  | _ => Proxy.name p' = Proxy.name p
  end.
Proof.
  destruct op; cbn [run_op]; intros E; try exact I;
    try (ret_inv E; reflexivity).
  all: try (unfold Proxy.set_transform, Proxy.set_offset_transform,
              Proxy.set_attr_dict, Proxy.set_metadata_dict, Proxy.add_color,
              Proxy.set_uuid, Proxy.set_parent_uuid in E;
            unfold bind, logger, ret in E; simpl in E;
            repeat (match type of E with
                    | context [match ?x with _ => _ end] =>
                        destruct x eqn:?; simpl in E
                    end);
            try discriminate E; inv E; reflexivity).
  - ret_inv E. unfold Proxy.set_position.
    now rewrite map_transform_name, _initialize_transform_name.
  - ret_inv E. unfold Proxy.set_offset_position.
    now rewrite map_offset_transform_name, _initialize_offset_transform_name.
  - ret_inv E. unfold Proxy.set_initial_position, Proxy.set_position,
      Proxy.set_offset_position.
    now rewrite map_offset_transform_name, _initialize_offset_transform_name,
      map_transform_name, _initialize_transform_name.
  - destruct inherit_curve_name; [exact I |].
    unfold Proxy.set_curve in E.
    destruct v; try (unfold bind, logger, ret in E; now inv E).
    destruct (negb (CurveOps.is_curve_valid c));
      unfold bind, logger, ret in E; now inv E.
  - rewrite set_locator_scale_spec in E. now inv E.
  - ret_inv E. unfold Proxy.add_meta_parent.
    destruct a as [[] |]; try reflexivity.
    now destruct (is_uuid_valid s).
  - destruct a as [v | q]; cbn [Proxy.set_parent_uuid_from_proxy] in E.
    + unfold bind, logger, ret in E. now inv E.
    + rewrite set_parent_uuid_spec in E.
      destruct (accepted_uuid (PyStr (Proxy.get_uuid q))); now inv E.
  - bind_inv E. ret_inv E. destruct a as [q r]. simpl.
    apply read_data_from_dict_name in Hstep.
    destruct Hstep as [K | (d & _ & A)]; [now left | right].
    eapply as_nonempty_str_nonempty; eauto.
Qed.

End ProxyValid.

(** X2: a proxy with a name keeps one through every operation except
    [set_name] and [set_curve] with [inherit_curve_name]: the reader skips
    an empty or missing "name", so a valid proxy stays valid when it reads
    a description.  [set_name] itself takes the empty string, and
    [is_valid] is [False] afterwards. *)
Theorem proxy_valid_but_for_set_name `{Externals} (p : Proxy.t) (w : World) :
  Proxy.name p <> "" ->
  (forall op p' w',
     run_op op p w = (Return p', w') ->
     match op with
     | op_set_name _ | op_set_curve _ true => True
     | _ =>
         Proxy.name p' <> "" /\
         forall w2, Proxy.is_valid p' w2 = (Return true, w2)
     end) /\
  (exists p',
     Proxy.set_name (PyStr "") p w = (Return p', w) /\
     Proxy.is_valid p' w =
       (Return false, logged WARNING "Invalid proxy object. Missing name." w)).
Proof.
  intros N. split.
  - intros op p' w' E. apply run_op_name in E.
    assert (V : forall q, Proxy.name q <> "" ->
                Proxy.name q <> "" /\
                forall w2, Proxy.is_valid q w2 = (Return true, w2)).
    { intros q Nq. split; [exact Nq |]. intros w2. now apply valid_of_name. }
    destruct op; try exact I; try (apply V; rewrite E; exact N).
    + destruct inherit_curve_name; [exact I |]. apply V. now rewrite E.
    + apply V. destruct E as [E | E]; [now rewrite E | exact E].
  - eexists. split; reflexivity.
Qed.

Lemma proxy_valid_but_for_set_name_witness :
  Proxy.name Sample.arm <> "" /\
  exists p' w',
    @Proxy.read_data_from_dict Sample.externals
      (PyDict [("name", PyStr ""); ("locatorScale", PyInt 0)])
      Sample.arm Sample.world0
    = (Return (p', Proxy.ReturnedSelf), w') /\
    Proxy.name p' <> "".
Proof.
  split; [discriminate |].
  do 2 eexists. split; [reflexivity |].
  apply (proj1 (@proxy_valid_but_for_set_name Sample.externals Sample.arm
                  Sample.world0 ltac:(discriminate))
           (op_read_data_from_dict
              (PyDict [("name", PyStr ""); ("locatorScale", PyInt 0)]))
           _ Sample.world0).
  reflexivity.
Defined.
(** ** The meta parent of a Proxy *)

Section MetaParent.
Context `{Externals}.

Lemma dict_set_cons k v d : exists e d', dict_set k v d = e :: d'.
Proof.
  destruct d as [| [k' v'] d]; simpl; [eauto |].
  destruct (k =? k'); eauto.
Qed.

Lemma get_meta_parent_of_set v md p :
  Proxy.get_meta_parent_uuid
    (Proxy.with_metadata (Some (dict_set PROXY_META_PARENT v md)) p) = v.
Proof.
  unfold Proxy.get_meta_parent_uuid. simpl.
  destruct (dict_set_cons PROXY_META_PARENT v md) as (e & d' & E).
  rewrite E. change (dict_get PROXY_META_PARENT (e :: d') = v).
  rewrite <- E. apply dict_get_set_eq.
Qed.

Lemma get_meta_parent_or_empty p :
  Proxy.get_meta_parent_uuid
    (Proxy.with_metadata (Some (Proxy.metadata_or_empty p)) p)
  = Proxy.get_meta_parent_uuid p.
Proof.
  unfold Proxy.get_meta_parent_uuid, Proxy.metadata_or_empty. simpl.
  destruct (Proxy.metadata p) as [[| e d] |]; reflexivity.
Qed.

End MetaParent.

(** X3: [add_meta_parent] called with a Proxy stores the UUID of that
    proxy as it is; called with the same UUID as a string it stores it only
    when [is_uuid_valid] accepts it.  For a proxy whose UUID is a short
    one, which [set_uuid] and [set_parent_uuid] take, the second call
    leaves the meta parent as it was while [set_parent_uuid] sets the
    parent.  Neither call touches another key of the metadata. *)
Theorem add_meta_parent_string_or_proxy `{Externals} (q p : Proxy.t)
    (w : World) :
  Proxy.uuid q <> "" ->
  is_uuid_valid (Proxy.uuid q) = false ->
  is_short_uuid_valid (Proxy.uuid q) = true ->
  Proxy.get_meta_parent_uuid (Proxy.add_meta_parent (Proxy.AProxy q) p)
  = PyStr (Proxy.uuid q) /\
  Proxy.get_meta_parent_uuid
    (Proxy.add_meta_parent (Proxy.AVal (PyStr (Proxy.uuid q))) p)
  = Proxy.get_meta_parent_uuid p /\
  Proxy.set_parent_uuid (PyStr (Proxy.uuid q)) p w
  = (Return (Proxy.with_parent_uuid (PyStr (Proxy.uuid q)) p), w) /\
  (forall a k,
     k <> PROXY_META_PARENT ->
     exists md,
       Proxy.metadata (Proxy.add_meta_parent a p) = Some md /\
       dict_get k md = dict_get k (Proxy.metadata_or_empty p)).
Proof.
  intros N V S. repeat split.
  - unfold Proxy.add_meta_parent. apply get_meta_parent_of_set.
  - unfold Proxy.add_meta_parent. rewrite V. apply get_meta_parent_or_empty.
  - rewrite set_parent_uuid_spec.
    assert (A : accepted_uuid (PyStr (Proxy.uuid q)) = true).
    { unfold accepted_uuid. rewrite S, orb_true_r, andb_true_r. simpl.
      destruct (String.eqb_spec (Proxy.uuid q) ""); [contradiction | easy]. }
    now rewrite A.
  - intros a k K. unfold Proxy.add_meta_parent.
    destruct a as [[| b | z | f | s | l | l | d | t | c] | q'];
      try (eexists; split; [reflexivity | reflexivity]).
    + destruct (is_uuid_valid s); eexists; split; try reflexivity.
      now apply dict_get_set_neq.
    + eexists; split; [reflexivity |]. now apply dict_get_set_neq.
Qed.

Lemma add_meta_parent_string_or_proxy_witness :
  Proxy.uuid Sample.short_proxy <> "" /\
  @is_uuid_valid Sample.externals (Proxy.uuid Sample.short_proxy) = false /\
  @is_short_uuid_valid Sample.externals (Proxy.uuid Sample.short_proxy)
  = true /\
  @Proxy.get_meta_parent_uuid Sample.externals
    (@Proxy.add_meta_parent Sample.externals
       (Proxy.AProxy Sample.short_proxy) Sample.arm)
  = PyStr "ab" /\
  @Proxy.get_meta_parent_uuid Sample.externals
    (@Proxy.add_meta_parent Sample.externals
       (Proxy.AVal (PyStr "ab")) Sample.arm)
  = PyNone.
Proof.
  split; [discriminate |]. split; [reflexivity |]. split; [reflexivity |].
  destruct (@add_meta_parent_string_or_proxy Sample.externals
              Sample.short_proxy Sample.arm Sample.world0
              ltac:(discriminate) eq_refl eq_refl)
    as (A & B & _).
  split; [exact A | exact B].
Defined.
(** ** The colour of a Proxy *)

(** X4: [add_color] takes a list or a tuple of at least three items that
    are all numbers (the items after the third are checked as well, and a
    boolean counts as a number).  It then sets "autoColor" to [False] and
    "colorDefault" to the list of the first three items in the attribute
    dictionary, and changes no other key and no other field.  Any other
    argument leaves the proxy as it was, with one debug record. *)
Theorem add_color_accepts_numeric_sequence `{Externals} (rgb_color : pyval)
    (p : Proxy.t) (w : World) :
  match sequence_items rgb_color with
  | Some items =>
      if (3 <=? length items)%nat && forallb is_float_or_int items then
        exists p',
          Proxy.add_color rgb_color p w = (Return p', w) /\
          dict_get "autoColor" (Proxy.attr_dict p') = PyBool false /\
          dict_get "colorDefault" (Proxy.attr_dict p')
          = PyList (firstn 3 items) /\
          (forall k,
             k <> "autoColor" -> k <> "colorDefault" ->
             dict_get k (Proxy.attr_dict p') = dict_get k (Proxy.attr_dict p))
          /\ proxy_but_attr_dict p' = proxy_but_attr_dict p
      else
        exists msg,
          Proxy.add_color rgb_color p w = (Return p, logged DEBUG msg w)
  | None =>
      exists msg,
        Proxy.add_color rgb_color p w = (Return p, logged DEBUG msg w)
  end.
Proof.
  assert (Acc : forall r g b rest,
            exists p',
              ret (Proxy.add_to_attr_dict "colorDefault" (PyList [r; g; b])
                     (Proxy.add_to_attr_dict "autoColor" (PyBool false) p)) w
              = (Return p', w) /\
              dict_get "autoColor" (Proxy.attr_dict p') = PyBool false /\
              dict_get "colorDefault" (Proxy.attr_dict p')
              = PyList (firstn 3 (r :: g :: b :: rest)) /\
              (forall k,
                 k <> "autoColor" -> k <> "colorDefault" ->
                 dict_get k (Proxy.attr_dict p')
                 = dict_get k (Proxy.attr_dict p))
              /\ proxy_but_attr_dict p' = proxy_but_attr_dict p).
  { intros r g b rest. eexists. split; [reflexivity |].
    unfold Proxy.add_to_attr_dict. cbn [Proxy.attr_dict Proxy.with_attr_dict].
    repeat split.
    - rewrite dict_get_set_neq by discriminate. apply dict_get_set_eq.
    - apply dict_get_set_eq.
    - intros k K1 K2. now rewrite !dict_get_set_neq. }
  destruct rgb_color as [| b | z | f | s | l | l | d | t | c];
    cbn [sequence_items]; try (eexists; reflexivity).
  - destruct l as [| r [| g [| b rest]]]; try (eexists; reflexivity).
    change (3 <=? length (r :: g :: b :: rest))%nat with true.
    cbn [andb]. unfold Proxy.add_color.
    destruct (forallb is_float_or_int (r :: g :: b :: rest));
      [apply Acc | eexists; reflexivity].
  - destruct l as [| r [| g [| b rest]]]; try (eexists; reflexivity).
    change (3 <=? length (r :: g :: b :: rest))%nat with true.
    cbn [andb]. unfold Proxy.add_color.
    destruct (forallb is_float_or_int (r :: g :: b :: rest));
      [apply Acc | eexists; reflexivity].
Qed.
(** ** What a proxy description holds, and reading it back *)

Lemma dict_get_cond_set_neq k k' v d (c : bool) :
  k <> k' -> dict_get k (if c then dict_set k' v d else d) = dict_get k d.
Proof. intros N. destruct c; [now apply dict_get_set_neq | reflexivity]. Qed.

Lemma dict_get_cond_set_eq k v d (c : bool) :
  dict_get k (if c then dict_set k v d else d) =
    if c then v else dict_get k d.
Proof. destruct c; [apply dict_get_set_eq | reflexivity]. Qed.

Section ProxyDict.
Context `{Externals}.

Ltac peel :=
  repeat first [ rewrite dict_get_cond_set_neq by discriminate
               | rewrite dict_get_cond_set_eq ].

(** The value of each key of [get_proxy_as_dict]. *)
Lemma get_proxy_as_dict_get include_uuid include_transform_data
    include_offset_data p :
  let d := Proxy.get_proxy_as_dict include_uuid include_transform_data
             include_offset_data p in
  dict_get "name" d = PyStr (Proxy.name p) /\
  dict_get "parent" d = Proxy.parent_uuid p /\
  dict_get "locatorScale" d = Proxy.locator_scale p /\
  dict_get "transform" d =
    match Proxy.transform p with
    | Some tr =>
        if include_transform_data then TransformOps.get_transform_as_dict tr
        else PyNone
    | None => PyNone
    end /\
  dict_get "offsetTransform" d =
    match Proxy.offset_transform p with
    | Some tr =>
        if include_offset_data then TransformOps.get_transform_as_dict tr
        else PyNone
    | None => PyNone
    end /\
  dict_get "attributes" d =
    match Proxy.attr_dict p with
    | [] => PyNone
    | e :: a => PyDict (e :: a)
    end /\
  dict_get "metadata" d =
    match Proxy.metadata p with
    | Some (e :: m) => PyDict (e :: m)
    | _ => PyNone
    end /\
  dict_get "uuid" d =
    if include_uuid && negb (Proxy.uuid p =? "") then PyStr (Proxy.uuid p)
    else PyNone.
Proof.
  unfold Proxy.get_proxy_as_dict, Proxy.get_attr_dict, Proxy.get_metadata,
    Proxy.get_uuid, Proxy.get_parent_uuid.
  cbv zeta.
  destruct (Proxy.transform p) as [tr |], (Proxy.offset_transform p) as [ot |],
    include_transform_data, include_offset_data;
    (split; [peel; reflexivity |]);
    (split; [peel; reflexivity |]);
    (split; [peel; reflexivity |]);
    (split; [peel; reflexivity |]);
    (split; [peel; reflexivity |]);
    (split; [peel; now destruct (Proxy.attr_dict p) |]);
    (split; [peel; now destruct (Proxy.metadata p) as [[| e m] |] |]);
    peel; reflexivity.
Qed.

End ProxyDict.
(** X5: reading the description of a proxy [p] into a proxy [q] always
    returns [q], and merges: [q] takes the name, the parent, the locator
    scale, the attributes and the metadata of [p] that are truthy (and,
    for the parent, accepted by the validators) and keeps its own value
    for the others, so that a locator scale of [0], an empty name or an
    empty metadata dictionary of [p] do not reach [q].  The UUID of [p]
    reaches [q] only when the description was made with [include_uuid]. *)
Theorem proxy_dict_read_merges `{Externals} (include_uuid
    include_transform_data include_offset_data : bool) (p q : Proxy.t)
    (w : World) :
  exists q' w',
    Proxy.read_data_from_dict
      (PyDict (Proxy.get_proxy_as_dict include_uuid include_transform_data
                 include_offset_data p)) q w
    = (Return (q', Proxy.ReturnedSelf), w') /\
    proxy_core q' =
      ((if Proxy.name p =? "" then Proxy.name q else Proxy.name p),
       (if accepted_uuid (Proxy.parent_uuid p) then Proxy.parent_uuid p
        else Proxy.parent_uuid q),
       (if truthy (Proxy.locator_scale p) then Proxy.locator_scale p
        else Proxy.locator_scale q),
       match Proxy.attr_dict p with
       | [] => Proxy.attr_dict q
       | e :: a => e :: a
       end,
       match Proxy.metadata p with
       | Some (e :: m) => Some (e :: m)
       | _ => Proxy.metadata q
       end,
       (if include_uuid && accepted_uuid (PyStr (Proxy.uuid p))
        then Proxy.uuid p else Proxy.uuid q)).
Proof.
  pose proof (get_proxy_as_dict_get include_uuid include_transform_data
                include_offset_data p) as G.
  cbv zeta in G.
  destruct G as (Gn & Gp & Gl & Gt & Go & Ga & Gm & Gu).
  set (d := Proxy.get_proxy_as_dict include_uuid include_transform_data
              include_offset_data p) in *.
  assert (Hok : proxy_desc_ok (PyDict d) = true).
  { unfold proxy_desc_ok. rewrite Gt, Go.
    destruct (Proxy.transform p), (Proxy.offset_transform p),
      include_transform_data, include_offset_data; reflexivity. }
  destruct (read_proxy_dict_spec d q w Hok) as (q' & w' & E & C).
  exists q', w'. split; [exact E |].
  rewrite C, Gn, Gp, Gl, Ga, Gm, Gu. clear.
  repeat f_equal.
  - now destruct (Proxy.name p).
  - now destruct (Proxy.attr_dict p).
  - now destruct (Proxy.metadata p) as [[| e m] |].
  - destruct include_uuid; [| reflexivity]. cbn [andb].
    unfold accepted_uuid, truthy.
    destruct (Proxy.uuid p) as [| c u]; reflexivity.
Qed.
(** ** Descriptions that give nothing, and values that are no dictionary *)

(** X6: a description in which no key that the reader looks up has a
    truthy value (the empty dictionary is one) leaves the proxy exactly as
    it was: [read_data_from_dict] returns [self], with no log record. *)
Theorem proxy_read_without_values `{Externals} (d : dict) (p : Proxy.t)
    (w : World) :
  (forall k,
     In k ["name"; "parent"; "locatorScale"; "transform"; "offsetTransform";
           "attributes"; "metadata"; "uuid"] ->
     truthy (dict_get k d) = false) ->
  Proxy.read_data_from_dict (PyDict d) p w
  = (Return (p, Proxy.ReturnedSelf), w).
Proof.
  intros F.
  unfold Proxy.read_data_from_dict, Proxy.is_three_items, py_get.
  change (truthy (PyDict d) && negb (is_dict (PyDict d)))
    with (truthy (PyDict d) && false).
  rewrite andb_false_r.
  rewrite !bind_ret_l.
  repeat (rewrite F by (simpl; tauto); cbn [when]; rewrite ?bind_ret_l;
          cbn [when]; rewrite ?bind_ret_l).
  reflexivity.
Qed.

Lemma proxy_read_without_values_witness :
  (forall k,
     In k ["name"; "parent"; "locatorScale"; "transform"; "offsetTransform";
           "attributes"; "metadata"; "uuid"] ->
     truthy (dict_get k [("name", PyStr ""); ("locatorScale", PyInt 0);
                         ("transform", PyList []); ("side", PyStr "left")])
     = false) /\
  @Proxy.read_data_from_dict Sample.externals
    (PyDict [("name", PyStr ""); ("locatorScale", PyInt 0);
             ("transform", PyList []); ("side", PyStr "left")])
    Sample.arm Sample.world0
  = (Return (Sample.arm, Proxy.ReturnedSelf), Sample.world0).
Proof.
  assert (F : forall k,
     In k ["name"; "parent"; "locatorScale"; "transform"; "offsetTransform";
           "attributes"; "metadata"; "uuid"] ->
     truthy (dict_get k [("name", PyStr ""); ("locatorScale", PyInt 0);
                         ("transform", PyList []); ("side", PyStr "left")])
     = false).
  { intros k K. simpl in K.
    repeat (destruct K as [<- | K]; [reflexivity |]). destruct K. }
  split; [exact F |].
  exact (@proxy_read_without_values Sample.externals _ Sample.arm
           Sample.world0 F).
Defined.

(** X7: the same for a module and for a project, with one difference: a
    module keeps its proxies, a project has lost its modules and its
    metadata when [read_data_from_dict] returns, whatever the dictionary
    holds. *)
Theorem module_and_project_read_without_values `{Externals}
    (RigModules : list (string * ModuleClass)) (d : dict)
    (m : ModuleGeneric.t) (prj : RigProject.t) (w : World) :
  (forall k,
     In k ["name"; "prefix"; "parent"; "proxies"; "modules"; "metadata"] ->
     truthy (dict_get k d) = false) ->
  is_bool (dict_get "active" d) = false ->
  ModuleGeneric.read_data_from_dict (PyDict d) m w
  = (Return (m, Proxy.ReturnedSelf), w) /\
  RigProject.read_data_from_dict RigModules (PyDict d) prj w
  = (Return ({| RigProject.name := RigProject.name prj;
                RigProject.prefix := RigProject.prefix prj;
                RigProject.modules := [];
                RigProject.metadata := None |},
             Proxy.ReturnedSelf), w).
Proof.
  intros F B. split.
  - unfold ModuleGeneric.read_data_from_dict, py_get.
    change (truthy (PyDict d) && negb (is_dict (PyDict d)))
      with (truthy (PyDict d) && false).
    rewrite andb_false_r.
    rewrite !bind_ret_l.
    repeat (first [rewrite F by (simpl; tauto) | rewrite B];
            cbn [when andb]; rewrite ?bind_ret_l).
    reflexivity.
  - unfold RigProject.read_data_from_dict, py_get.
    change (truthy (PyDict d) && negb (is_dict (PyDict d)))
      with (truthy (PyDict d) && false).
    rewrite andb_false_r.
    rewrite !bind_ret_l.
    repeat (rewrite F by (simpl; tauto); cbn [when andb];
            rewrite ?bind_ret_l).
    reflexivity.
Qed.

Lemma module_and_project_read_without_values_witness :
  (forall k,
     In k ["name"; "prefix"; "parent"; "proxies"; "modules"; "metadata"] ->
     truthy (dict_get k []) = false) /\
  is_bool (dict_get "active" []) = false /\
  @ModuleGeneric.read_data_from_dict Sample.externals (PyDict [])
    Sample.arm_module Sample.world0
  = (Return (Sample.arm_module, Proxy.ReturnedSelf), Sample.world0) /\
  option_map (fun qr => length (RigProject.modules (fst qr)))
    (returned_value
       (@RigProject.read_data_from_dict Sample.externals Sample.registry
          (PyDict []) Sample.project Sample.world0))
  = Some 0 /\
  length (RigProject.modules Sample.project) = 2.
Proof.
  assert (F : forall k,
     In k ["name"; "prefix"; "parent"; "proxies"; "modules"; "metadata"] ->
     truthy (dict_get k []) = false) by reflexivity.
  split; [exact F |]. split; [reflexivity |].
  destruct (@module_and_project_read_without_values Sample.externals
              Sample.registry [] Sample.arm_module Sample.project
              Sample.world0 F eq_refl) as [M P].
  split; [exact M |]. split; [| reflexivity].
  rewrite P. reflexivity.
Defined.

(** The message of the AttributeError raised by [v.get]. *)
Lemma proxy_read_falsy_raises `{Externals} (v : pyval) (p : Proxy.t)
    (w : World) :
  truthy v = false ->
  is_dict v = false ->
  Proxy.read_data_from_dict v p w
  = (Raised (AttributeError
               ("'" ++ type_name v ++ "' object has no attribute 'get'")), w).
Proof.
  intros T D. unfold Proxy.read_data_from_dict. rewrite T. cbn [andb].
  destruct v as [| b | z | f | s | l | l | d | t | c];
    try discriminate D; reflexivity.
Qed.

Lemma module_read_falsy_raises `{Externals} (v : pyval) (m : ModuleGeneric.t)
    (w : World) :
  truthy v = false ->
  is_dict v = false ->
  ModuleGeneric.read_data_from_dict v m w
  = (Raised (AttributeError
               ("'" ++ type_name v ++ "' object has no attribute 'get'")), w).
Proof.
  intros T D. unfold ModuleGeneric.read_data_from_dict. rewrite T.
  cbn [andb].
  destruct v as [| b | z | f | s | l | l | d | t | c];
    try discriminate D; reflexivity.
Qed.

(** X8: [read_data_from_dict] of a Proxy, a module and a project test
    their argument with [if d and not isinstance(d, dict)], so a value
    that is falsy and no dictionary ([None], [0], the empty string, an
    empty list) passes the test and the first [d.get] raises
    AttributeError. *)
Theorem read_falsy_non_dict_raises `{Externals}
    (RigModules : list (string * ModuleClass)) (v : pyval) (p : Proxy.t)
    (m : ModuleGeneric.t) (prj : RigProject.t) (w : World) :
  truthy v = false ->
  is_dict v = false ->
  let e := AttributeError
             ("'" ++ type_name v ++ "' object has no attribute 'get'") in
  Proxy.read_data_from_dict v p w = (Raised e, w) /\
  ModuleGeneric.read_data_from_dict v m w = (Raised e, w) /\
  RigProject.read_data_from_dict RigModules v prj w = (Raised e, w).
Proof.
  intros T D e. split; [now apply proxy_read_falsy_raises |].
  split; [now apply module_read_falsy_raises |].
  unfold RigProject.read_data_from_dict. rewrite T. cbn [andb].
  destruct v as [| b | z | f | s | l | l | d | t | c];
    try discriminate D; reflexivity.
Qed.

Lemma read_falsy_non_dict_raises_witness :
  truthy PyNone = false /\
  is_dict PyNone = false /\
  @Proxy.read_data_from_dict Sample.externals PyNone Sample.arm Sample.world0
  = (Raised (AttributeError "'NoneType' object has no attribute 'get'"),
     Sample.world0).
Proof.
  split; [reflexivity |]. split; [reflexivity |].
  exact (proj1 (@read_falsy_non_dict_raises Sample.externals Sample.registry
                  PyNone Sample.arm Sample.arm_module Sample.project
                  Sample.world0 eq_refl eq_refl)).
Defined.

(** ** One description that is [None] *)

Section BadDescription.
Context `{Externals}.

Lemma read_proxy_entry_raises u v w :
  truthy v = false ->
  is_dict v = false ->
  exists w',
    ModuleGeneric.read_proxy_entry (u, v) w
    = (Raised (AttributeError
                 ("'" ++ type_name v ++ "' object has no attribute 'get'")),
       w').
Proof.
  intros T D. unfold ModuleGeneric.read_proxy_entry.
  destruct (proxy_new_spec w) as (p0 & E0 & _).
  rewrite (bind_Return _ _ _ E0).
  destruct (set_uuid_spec (PyStr u) p0
              {| uuid_count := S (uuid_count w); log := log w |})
    as (w1 & E1).
  rewrite (bind_Return _ _ _ E1).
  rewrite (bind_Raised _ _ _ (proxy_read_falsy_raises v _ _ T D)).
  eauto.
Qed.

Lemma read_proxy_entries_raises good u v rest :
  forallb (fun e => proxy_desc_ok (snd e)) good = true ->
  truthy v = false ->
  is_dict v = false ->
  forall acc w,
    exists w',
      ModuleGeneric.read_proxy_entries (good ++ (u, v) :: rest) acc w
      = (Raised (AttributeError
                   ("'" ++ type_name v ++ "' object has no attribute 'get'")),
         w').
Proof.
  intros G T D. induction good as [| entry good IH]; intros acc w.
  - cbn [app ModuleGeneric.read_proxy_entries].
    destruct (read_proxy_entry_raises u v w T D) as (w' & E).
    rewrite (bind_Raised _ _ _ E). eauto.
  - cbn [forallb] in G. apply andb_prop in G. destruct G as [G1 G2].
    cbn [app ModuleGeneric.read_proxy_entries].
    destruct (read_proxy_entry_spec entry w G1) as (px & w1 & E & _).
    rewrite (bind_Return _ _ _ E). apply IH, G2.
Qed.

Lemma read_proxies_raises good u v rest m w :
  forallb (fun e => proxy_desc_ok (snd e)) good = true ->
  truthy v = false ->
  is_dict v = false ->
  exists w',
    ModuleGeneric.read_proxies_from_dict (PyDict (good ++ (u, v) :: rest)) m w
    = (Raised (AttributeError
                 ("'" ++ type_name v ++ "' object has no attribute 'get'")),
       w').
Proof.
  intros G T D.
  destruct (read_proxy_entries_raises good u v rest G T D [] w) as (w' & E).
  unfold ModuleGeneric.read_proxies_from_dict.
  destruct (good ++ (u, v) :: rest) as [| e l] eqn:L.
  - destruct good; discriminate L.
  - rewrite (bind_Raised _ _ _ E). eauto.
Qed.

Ltac step L :=
  let p' := fresh "m" in
  let w' := fresh "w" in
  let E := fresh "E" in
  let C := fresh "C" in
  destruct L as (p' & w' & E & C);
  rewrite (bind_Return _ _ _ E); clear E.

Lemma module_read_bad_proxy d good u v rest m w :
  dict_get "proxies" d = PyDict (good ++ (u, v) :: rest) ->
  forallb (fun e => proxy_desc_ok (snd e)) good = true ->
  truthy v = false ->
  is_dict v = false ->
  exists w',
    ModuleGeneric.read_data_from_dict (PyDict d) m w
    = (Raised (AttributeError
                 ("'" ++ type_name v ++ "' object has no attribute 'get'")),
       w').
Proof.
  intros P G T D.
  unfold ModuleGeneric.read_data_from_dict.
  change (truthy (PyDict d) && negb (is_dict (PyDict d)))
    with (truthy (PyDict d) && false).
  rewrite andb_false_r.
  unfold py_get. rewrite bind_ret_l.
  step (step_module_set_name (dict_get "name" d) m w).
  rewrite bind_ret_l.
  step (step_module_set_prefix (dict_get "prefix" d) m0 w0).
  rewrite bind_ret_l.
  step (step_module_set_parent_uuid (dict_get "parent" d) m1 w1).
  rewrite bind_ret_l, P.
  assert (Tr : truthy (PyDict (good ++ (u, v) :: rest))
               && is_dict (PyDict (good ++ (u, v) :: rest)) = true).
  { cbn [truthy is_dict]. rewrite length_app. cbn [length].
    rewrite Nat.add_succ_r. reflexivity. }
  rewrite Tr. cbn [when].
  destruct (read_proxies_raises good u v rest m2 w2 G T D) as (w' & E).
  rewrite (bind_Raised _ _ _ E). eauto.
Qed.

End BadDescription.
Section BadModuleDescription.
Context `{Externals}.
Variable RigModules : list (string * ModuleClass).

Lemma read_module_entry_raises k v w e w' :
  registered RigModules k = false ->
  ModuleGeneric.read_data_from_dict v ModuleGeneric.new w = (Raised e, w') ->
  RigProject.read_module_entry RigModules (k, v) w = (Raised e, w').
Proof.
  unfold registered, RigProject.read_module_entry. intros R E.
  destruct (RigProject.available_modules_get
              (RigProject.full_class_name k) RigModules);
    [discriminate R |].
  now rewrite (bind_Raised _ _ _ E).
Qed.

Lemma read_module_entries_raises good k v rest e :
  forallb (fun en => negb (registered RigModules (fst en))
                     && module_desc_ok (snd en)) good = true ->
  registered RigModules k = false ->
  (forall w, exists w',
      ModuleGeneric.read_data_from_dict v ModuleGeneric.new w
      = (Raised e, w')) ->
  forall acc w,
    exists w',
      RigProject.read_module_entries RigModules (good ++ (k, v) :: rest)
        acc w
      = (Raised e, w').
Proof.
  intros G R B. induction good as [| entry good IH]; intros acc w.
  - cbn [app RigProject.read_module_entries].
    destruct (B w) as (w' & E).
    rewrite (bind_Raised _ _ _ (read_module_entry_raises k v w R E)).
    eauto.
  - cbn [forallb] in G. apply andb_prop in G. destruct G as [G1 G2].
    apply andb_prop in G1. destruct G1 as [G0 G1].
    apply negb_true_iff in G0.
    cbn [app RigProject.read_module_entries].
    destruct (read_unregistered_entry RigModules entry w G0 G1)
      as (mo & w1 & E & _).
    rewrite (bind_Return _ _ _ E). apply IH, G2.
Qed.

Lemma project_when_returns (c : bool) f (p : RigProject.t) (w : World) :
  (forall q w0, exists q' w1, f q w0 = (Return q', w1)) ->
  exists p' w', when c f p w = (Return p', w').
Proof. intros F. destruct c; simpl; [apply F | unfold ret; eauto]. Qed.

Lemma project_set_name_returns v (q : RigProject.t) (w0 : World) :
  exists q' w1, RigProject.set_name v q w0 = (Return q', w1).
Proof. destruct v; simpl; unfold bind, logger, ret; eauto. Qed.

Lemma project_set_prefix_returns v (q : RigProject.t) (w0 : World) :
  exists q' w1, RigProject.set_prefix v q w0 = (Return q', w1).
Proof.
  destruct v as [| b | z | f | [| c s] | l | l | d | t | c];
    simpl; unfold bind, logger, ret; eauto.
Qed.

Lemma project_read_bad_module d good k v rest e prj w :
  dict_get "modules" d = PyDict (good ++ (k, v) :: rest) ->
  forallb (fun en => negb (registered RigModules (fst en))
                     && module_desc_ok (snd en)) good = true ->
  registered RigModules k = false ->
  (forall w0, exists w',
      ModuleGeneric.read_data_from_dict v ModuleGeneric.new w0
      = (Raised e, w')) ->
  exists w',
    RigProject.read_data_from_dict RigModules (PyDict d) prj w
    = (Raised e, w').
Proof.
  intros M G R B.
  unfold RigProject.read_data_from_dict.
  change (truthy (PyDict d) && negb (is_dict (PyDict d)))
    with (truthy (PyDict d) && false).
  rewrite andb_false_r.
  unfold py_get. rewrite bind_ret_l.
  destruct (project_when_returns (truthy (dict_get "name" d))
              (RigProject.set_name (dict_get "name" d))
              (RigProject.with_metadata None (RigProject.with_modules [] prj))
              w (project_set_name_returns (dict_get "name" d)))
    as (p1 & w1 & E1).
  rewrite (bind_Return _ _ _ E1), bind_ret_l.
  destruct (project_when_returns (truthy (dict_get "prefix" d))
              (RigProject.set_prefix (dict_get "prefix" d)) p1 w1
              (project_set_prefix_returns (dict_get "prefix" d)))
    as (p2 & w2 & E2).
  rewrite (bind_Return _ _ _ E2), bind_ret_l, M.
  assert (Tr : truthy (PyDict (good ++ (k, v) :: rest))
               && is_dict (PyDict (good ++ (k, v) :: rest)) = true).
  { cbn [truthy is_dict]. rewrite length_app. cbn [length].
    rewrite Nat.add_succ_r. reflexivity. }
  rewrite Tr. cbn [when].
  destruct (@read_module_entries_raises good k v rest e G R B [] w2)
    as (w' & E).
  assert (E' : RigProject.read_modules_from_dict RigModules
                 (PyDict (good ++ (k, v) :: rest)) p2 w2 = (Raised e, w')).
  { unfold RigProject.read_modules_from_dict.
    destruct (good ++ (k, v) :: rest) as [| en l] eqn:L.
    - destruct good; discriminate L.
    - now rewrite (bind_Raised _ _ _ E). }
  rewrite (bind_Raised _ _ _ E'). eauto.
Qed.

End BadModuleDescription.

(** X9: one description that is [None] (or another falsy value that is no
    dictionary) makes the whole read fail.  In the "proxies" of a module
    description, after any number of well-formed entries, it makes
    [ModuleGeneric.read_data_from_dict] raise AttributeError; such a
    module description, or [None] itself, under a key of "modules" that
    names no registered class makes [RigProject.read_data_from_dict]
    raise it as well.  The entry is not skipped and the entries after it
    are not read. *)
Theorem null_description_aborts_read `{Externals}
    (RigModules : list (string * ModuleClass)) (v : pyval)
    (good rest : dict) (u : string) (w : World) :
  truthy v = false ->
  is_dict v = false ->
  forallb (fun e => proxy_desc_ok (snd e)) good = true ->
  let e := AttributeError
             ("'" ++ type_name v ++ "' object has no attribute 'get'") in
  (forall d m,
     dict_get "proxies" d = PyDict (good ++ (u, v) :: rest) ->
     exists w', ModuleGeneric.read_data_from_dict (PyDict d) m w
                = (Raised e, w')) /\
  (forall pd k md before after prj,
     dict_get "modules" pd = PyDict (before ++ (k, md) :: after) ->
     forallb (fun en => negb (registered RigModules (fst en))
                        && module_desc_ok (snd en)) before = true ->
     registered RigModules k = false ->
     md = v \/
     (exists d, md = PyDict d /\
                dict_get "proxies" d = PyDict (good ++ (u, v) :: rest)) ->
     exists w', RigProject.read_data_from_dict RigModules (PyDict pd) prj w
                = (Raised e, w')).
Proof.
  intros T D G e. split.
  - intros d m P.
    exact (@module_read_bad_proxy _ d good u v rest m w P G T D).
  - intros pd k md before after prj M B R Hmd.
    apply (@project_read_bad_module _ RigModules pd before k md after e prj
             w M B R).
    intros w0. destruct Hmd as [-> | (d & -> & P)].
    + exists w0. now apply module_read_falsy_raises.
    + exact (@module_read_bad_proxy _ d good u v rest ModuleGeneric.new w0
               P G T D).
Qed.

Lemma null_description_aborts_read_witness :
  truthy PyNone = false /\
  is_dict PyNone = false /\
  forallb (fun e => proxy_desc_ok (snd e))
    [("aa", PyDict [("name", PyStr "hip")])] = true /\
  exists w',
    @RigProject.read_data_from_dict Sample.externals Sample.registry
      (PyDict Sample.project_with_null) Sample.project Sample.world0
    = (Raised (AttributeError "'NoneType' object has no attribute 'get'"),
       w').
Proof.
  split; [reflexivity |]. split; [reflexivity |]. split; [reflexivity |].
  apply (proj2 (@null_description_aborts_read Sample.externals
                  Sample.registry PyNone
                  [("aa", PyDict [("name", PyStr "hip")])]
                  [("cc", PyDict [("name", PyStr "tip")])] "bb"
                  Sample.world0 eq_refl eq_refl eq_refl)
           Sample.project_with_null "Tail" (PyDict Sample.tail_with_null)
           [] [] Sample.project).
  - reflexivity.
  - reflexivity.
  - reflexivity.
  - right. eexists. split; reflexivity.
Defined.

(** ** The "proxies" dictionary of a module *)

Lemma dict_mem_In k d : dict_mem k d = true <-> In k (map fst d).
Proof.
  induction d as [| [k' v'] d IH]; simpl.
  - split; [discriminate | tauto].
  - destruct (String.eqb_spec k k') as [-> | N].
    + split; auto.
    + rewrite IH. split; [auto | intros [E | I]; [congruence | exact I]].
Qed.

Lemma dict_set_fresh k v d :
  dict_mem k d = false -> dict_set k v d = d ++ [(k, v)].
Proof.
  induction d as [| [k' v'] d IH]; simpl; [reflexivity |].
  destruct (k =? k'); [discriminate |]. intros M. now rewrite IH.
Qed.

Lemma dict_set_Forall (P : pyval -> Prop) k v d :
  Forall (fun e => P (snd e)) d -> P v ->
  Forall (fun e => P (snd e)) (dict_set k v d).
Proof.
  intros F Pv. induction F as [| [k' v'] d Pe F IH]; simpl.
  - repeat constructor. exact Pv.
  - destruct (k =? k'); constructor; auto.
Qed.

Lemma dict_set_length_le k v d : length (dict_set k v d) <= S (length d).
Proof. rewrite dict_set_length. destruct (dict_mem k d); lia. Qed.

Section ProxiesAsDict.
Context `{Externals}.

Lemma get_proxy_as_dict_desc_ok include_uuid include_transform_data
    include_offset_data p :
  proxy_desc_ok
    (PyDict (Proxy.get_proxy_as_dict include_uuid include_transform_data
               include_offset_data p)) = true.
Proof.
  pose proof (get_proxy_as_dict_get include_uuid include_transform_data
                include_offset_data p) as G.
  cbv zeta in G. destruct G as (_ & _ & _ & Gt & Go & _).
  unfold proxy_desc_ok. rewrite Gt, Go.
  destruct (Proxy.transform p), (Proxy.offset_transform p),
    include_transform_data, include_offset_data; reflexivity.
Qed.

Lemma proxies_as_dict_fold include_offset_data ps :
  forall acc,
    fold_left
      (fun module_proxies proxy =>
         dict_set (Proxy.get_uuid proxy)
           (PyDict (Proxy.get_proxy_as_dict false true include_offset_data
                      proxy))
           module_proxies)
      ps acc
    = fold_left
        (fun d e => dict_set (fst e) (snd e) d)
        (map (proxy_entry include_offset_data) ps) acc.
Proof.
  induction ps as [| p ps IH]; intros acc; simpl; [reflexivity | apply IH].
Qed.

(** Setting the entries of a list one after the other: every value kept
    is one of the list, there are no more entries than items, and when
    the keys are distinct the entries are those of the list, in order. *)
Lemma fold_dict_set_Forall (P : pyval -> Prop) entries :
  forall acc,
    Forall (fun e => P (snd e)) acc ->
    Forall (fun e => P (snd e)) entries ->
    Forall (fun e => P (snd e))
      (fold_left (fun d e => dict_set (fst e) (snd e) d) entries acc).
Proof.
  induction entries as [| e entries IH]; intros acc Fa Fe; simpl;
    [exact Fa |].
  inversion Fe; subst. apply IH; [| assumption].
  now apply dict_set_Forall.
Qed.

Lemma fold_dict_set_length entries :
  forall acc,
    length (fold_left (fun d e => dict_set (fst e) (snd e) d) entries acc)
    <= length acc + length entries.
Proof.
  induction entries as [| e entries IH]; intros acc; simpl; [lia |].
  specialize (IH (dict_set (fst e) (snd e) acc)).
  pose proof (dict_set_length_le (fst e) (snd e) acc). lia.
Qed.

Lemma fold_dict_set_NoDup entries :
  forall acc,
    NoDup (map fst acc ++ map fst entries) ->
    fold_left (fun d e => dict_set (fst e) (snd e) d) entries acc
    = acc ++ entries.
Proof.
  induction entries as [| [k v] entries IH]; intros acc N; simpl.
  - now rewrite app_nil_r.
  - assert (M : dict_mem k acc = false).
    { destruct (dict_mem k acc) eqn:M; [| reflexivity].
      apply dict_mem_In in M. apply NoDup_remove_2 in N.
      exfalso. apply N. apply in_or_app. now left. }
    rewrite (dict_set_fresh _ _ _ M), IH.
    + now rewrite <- app_assoc.
    + rewrite map_app. simpl. rewrite <- app_assoc. exact N.
Qed.

Lemma proxies_as_dict_desc_ok include_offset_data ps :
  forallb (fun e => proxy_desc_ok (snd e))
    (ModuleGeneric.proxies_as_dict include_offset_data ps) = true.
Proof.
  apply forallb_forall.
  apply (proj1 (Forall_forall
                  (fun e => proxy_desc_ok (snd e) = true) _)).
  unfold ModuleGeneric.proxies_as_dict. rewrite proxies_as_dict_fold.
  apply (fold_dict_set_Forall (fun v => proxy_desc_ok v = true)).
  - constructor.
  - apply Forall_forall. intros e I. apply in_map_iff in I.
    destruct I as (p & <- & _). apply get_proxy_as_dict_desc_ok.
Qed.

Lemma proxies_as_dict_length include_offset_data ps :
  length (ModuleGeneric.proxies_as_dict include_offset_data ps) <= length ps.
Proof.
  unfold ModuleGeneric.proxies_as_dict. rewrite proxies_as_dict_fold.
  pose proof (fold_dict_set_length
                (map (proxy_entry include_offset_data) ps) []) as L.
  rewrite length_map in L. exact L.
Qed.

Lemma proxies_as_dict_NoDup include_offset_data ps :
  NoDup (map Proxy.uuid ps) ->
  ModuleGeneric.proxies_as_dict include_offset_data ps
  = map (proxy_entry include_offset_data) ps.
Proof.
  intros N. unfold ModuleGeneric.proxies_as_dict.
  rewrite proxies_as_dict_fold. apply fold_dict_set_NoDup.
  simpl. now rewrite map_map.
Qed.

End ProxiesAsDict.
(** ** A module description read back *)

Section ModuleDict.
Context `{Externals}.

Ltac peel :=
  repeat first [ rewrite dict_get_cond_set_neq by discriminate
               | rewrite dict_get_cond_set_eq
               | rewrite dict_get_set_neq by discriminate
               | rewrite dict_get_set_eq ].

(** The value of each key of [get_module_as_dict]. *)
Lemma get_module_as_dict_get class_name include_module_name
    include_offset_data m :
  let d := ModuleGeneric.get_module_as_dict class_name include_module_name
             include_offset_data m in
  dict_get "name" d =
    match ModuleGeneric.name m with
    | Some (String c s) => PyStr (String c s)
    | _ => PyNone
    end /\
  dict_get "active" d = PyBool (ModuleGeneric.active m) /\
  dict_get "prefix" d =
    match ModuleGeneric.prefix m with
    | Some (String c s) => PyStr (String c s)
    | _ => PyNone
    end /\
  dict_get "parent" d =
    (if truthy (ModuleGeneric.parent_uuid m) then ModuleGeneric.parent_uuid m
     else PyNone) /\
  dict_get "metadata" d =
    match ModuleGeneric.metadata m with
    | Some (e :: md) => PyDict (e :: md)
    | _ => PyNone
    end /\
  dict_get "proxies" d =
    PyDict (ModuleGeneric.proxies_as_dict include_offset_data
              (ModuleGeneric.proxies m)) /\
  dict_get "module" d =
    if include_module_name then PyStr class_name else PyNone.
Proof.
  unfold ModuleGeneric.get_module_as_dict. cbv zeta.
  destruct (ModuleGeneric.name m) as [[| c s] |],
    (ModuleGeneric.prefix m) as [[| c' s'] |],
    (ModuleGeneric.metadata m) as [[| e md] |];
    repeat split; peel; reflexivity.
Qed.

Ltac step L :=
  let p' := fresh "m" in
  let w' := fresh "w" in
  let E := fresh "E" in
  let C := fresh "C" in
  destruct L as (p' & w' & E & C);
  rewrite (bind_Return _ _ _ E); clear E.

(** A description of the persisted format read into a module [m0]. *)
Lemma read_module_dict_core d m0 w :
  module_desc_ok (PyDict d) = true ->
  exists m w',
    ModuleGeneric.read_data_from_dict (PyDict d) m0 w
    = (Return (m, Proxy.ReturnedSelf), w') /\
    ModuleGeneric.name m =
      match as_nonempty_str (dict_get "name" d) with
      | Some s => Some s
      | None => ModuleGeneric.name m0
      end /\
    ModuleGeneric.prefix m =
      match as_nonempty_str (dict_get "prefix" d) with
      | Some s => Some s
      | None => ModuleGeneric.prefix m0
      end /\
    ModuleGeneric.parent_uuid m =
      (if accepted_uuid (dict_get "parent" d) then dict_get "parent" d
       else ModuleGeneric.parent_uuid m0) /\
    ModuleGeneric.active m =
      match dict_get "active" d with
      | PyBool b => b
      | _ => ModuleGeneric.active m0
      end /\
    ModuleGeneric.metadata m =
      match read_metadata (dict_get "metadata" d) with
      | Some md => Some md
      | None => ModuleGeneric.metadata m0
      end /\
    match dict_get "proxies" d with
    | PyDict (e :: pd) =>
        Forall2 proxy_read_from (e :: pd) (ModuleGeneric.proxies m)
    | _ => ModuleGeneric.proxies m = ModuleGeneric.proxies m0
    end.
Proof.
  intros Hok. simpl in Hok.
  unfold ModuleGeneric.read_data_from_dict.
  replace (truthy (PyDict d) && negb (is_dict (PyDict d))) with false
    by (simpl; now rewrite andb_false_r).
  unfold py_get. rewrite bind_ret_l.
  step (step_module_set_name (dict_get "name" d) m0 w).
  rewrite bind_ret_l.
  step (step_module_set_prefix (dict_get "prefix" d) m w0).
  rewrite bind_ret_l.
  step (step_module_set_parent_uuid (dict_get "parent" d) m1 w1).
  rewrite bind_ret_l.
  assert (Hp : match dict_get "proxies" d with
               | PyDict pd =>
                   forallb (fun e => proxy_desc_ok (snd e)) pd = true
               | _ => True
               end)
    by (destruct (dict_get "proxies" d); auto).
  destruct (step_module_read_proxies (dict_get "proxies" d) m2 w2 Hp)
    as (m3 & w3 & E2 & F & C2).
  rewrite (bind_Return _ _ _ E2); clear E2.
  rewrite bind_ret_l.
  step (step_module_set_active (dict_get "active" d) m3 w3).
  rewrite bind_ret_l.
  step (step_module_set_metadata (dict_get "metadata" d) m4 w4).
  do 2 eexists. split; [reflexivity |].
  unfold module_core in *.
  injection C as N0 P0 U0 X0 A0 M0.
  injection C0 as N1 P1 U1 X1 A1 M1.
  injection C1 as N2 P2 U2 X2 A2 M2.
  injection C2 as N3 P3 U3 A3 M3.
  injection C3 as N4 P4 U4 X4 A4 M4.
  injection C4 as N5 P5 U5 X5 A5 M5.
  repeat split.
  - now rewrite N5, N4, N3, N2, N1, N0.
  - now rewrite P5, P4, P3, P2, P1, P0.
  - now rewrite U5, U4, U3, U2, U1, U0.
  - now rewrite A5, A4, A3, A2, A1, A0.
  - now rewrite M5, M4, M3, M2, M1, M0.
  - rewrite X5, X4.
    destruct (dict_get "proxies" d)
      as [| b | z | f | s | l | l | [| e pd] | t | c];
      try (rewrite <- F, X2, X1, X0; reflexivity).
    exact F.
Qed.

End ModuleDict.
Lemma dict_set_keys k v d :
  map fst (dict_set k v d) =
    if dict_mem k d then map fst d else map fst d ++ [k].
Proof.
  induction d as [| [k' v'] d IH]; simpl; [reflexivity |].
  destruct (k =? k'); simpl; [reflexivity |].
  rewrite IH. now destruct (dict_mem k d).
Qed.

Lemma dict_set_keys_NoDup k v d :
  NoDup (map fst d) -> NoDup (map fst (dict_set k v d)).
Proof.
  intros N. rewrite dict_set_keys. destruct (dict_mem k d) eqn:M;
    [exact N |].
  apply NoDup_app; [exact N | repeat constructor; intros [] |].
  intros a I [<- | []]. apply dict_mem_In in I. congruence.
Qed.

(** As many entries as items only when the keys are distinct. *)
Lemma fold_dict_set_full entries :
  forall acc,
    NoDup (map fst acc) ->
    length (fold_left (fun d e => dict_set (fst e) (snd e) d) entries acc)
    = length acc + length entries ->
    NoDup (map fst acc ++ map fst entries).
Proof.
  induction entries as [| [k v] entries IH]; intros acc N L; simpl in *.
  - now rewrite app_nil_r.
  - pose proof (fold_dict_set_length entries (dict_set k v acc)) as L1.
    pose proof (dict_set_length k v acc) as L2.
    destruct (dict_mem k acc) eqn:M; [lia |].
    assert (L3 : length (fold_left
                           (fun d e => dict_set (fst e) (snd e) d) entries
                           (dict_set k v acc))
                 = length (dict_set k v acc) + length entries) by lia.
    apply IH in L3; [| now apply dict_set_keys_NoDup].
    rewrite dict_set_keys, M, <- app_assoc in L3. exact L3.
Qed.

Section ModuleRoundTrip.
Context `{Externals}.

Lemma proxies_as_dict_full include_offset_data ps :
  length (ModuleGeneric.proxies_as_dict include_offset_data ps)
  = length ps ->
  NoDup (map Proxy.uuid ps).
Proof.
  unfold ModuleGeneric.proxies_as_dict. rewrite proxies_as_dict_fold.
  intros L.
  pose proof (fold_dict_set_full
                (map (proxy_entry include_offset_data) ps) []
                (NoDup_nil _)) as F.
  rewrite length_map, map_map in F. simpl in F. now apply F.
Qed.

Lemma accepted_uuid_truthy v : accepted_uuid v = true -> truthy v = true.
Proof.
  destruct v; simpl; try discriminate.
  intros E. apply andb_prop in E. tauto.
Qed.

Lemma proxy_read_from_entry include_offset_data p px :
  proxy_read_from (proxy_entry include_offset_data p) px ->
  proxy_restored include_offset_data p px.
Proof.
  intros (pd & E & N & P & L & A & M & U & _ & V & T & O & K).
  simpl in E. injection E as <-.
  pose proof (get_proxy_as_dict_get false true include_offset_data p) as G.
  cbv zeta in G.
  destruct G as (Gn & Gp & Gl & Gt & Go & Ga & Gm & Gu).
  rewrite Gn in N. rewrite Gp in P. rewrite Gl in L. rewrite Ga in A.
  rewrite Gm in M. rewrite Gu in U, V. rewrite Gt in T. rewrite Gt, Go in O.
  unfold proxy_restored.
  split; [rewrite N; now destruct (Proxy.name p) |].
  split; [exact P |]. split; [exact L |].
  split; [rewrite A; now destruct (Proxy.attr_dict p) |].
  split; [rewrite M; now destruct (Proxy.metadata p) as [[| e m] |] |].
  split; [intros Acc; apply U; [reflexivity | exact Acc] |].
  split; [intros Acc; apply V; [reflexivity | exact Acc] |].
  split; [| split; [| exact K]].
  - rewrite T. destruct (Proxy.transform p) as [tr |]; [| reflexivity].
    change (block_of_three (TransformOps.get_transform_as_dict tr))
      with true.
    cbv iota. unfold transform_from.
    now rewrite transform_dict_roundtrip.
  - rewrite O.
    destruct (Proxy.offset_transform p) as [ot |]; [| reflexivity].
    destruct include_offset_data; [| reflexivity].
    change (block_of_three (TransformOps.get_transform_as_dict ot))
      with true.
    cbv iota. unfold transform_from.
    destruct (Proxy.transform p) as [tr |]; [| reflexivity].
    now rewrite transform_dict_roundtrip.
Qed.

Lemma Forall2_proxy_restored include_offset_data ps :
  forall pxs,
    Forall2 proxy_read_from (map (proxy_entry include_offset_data) ps) pxs ->
    Forall2 (proxy_restored include_offset_data) ps pxs.
Proof.
  induction ps as [| p ps IH]; intros pxs F; inversion F; subst;
    constructor.
  - eapply proxy_read_from_entry; eauto.
  - now apply IH.
Qed.

End ModuleRoundTrip.

(** X10: a module description made by [get_module_as_dict] and read into
    a new [ModuleGeneric()] always loads.  The active state is
    reproduced; the name, the prefix and the metadata are when they are not
    empty, the parent UUID when the validators accept it.  The proxies are
    keyed by UUID in the description, so there are at most as many after
    the round trip as before, and as many only when their UUIDs are
    pairwise distinct; in that case each one comes back in its place: its
    name, parent UUID, locator scale, attributes and metadata when they
    are truthy and accepted, its UUID when accepted, and its transform.
    The offset transform does not come back: where the description has
    one, the proxy read holds a copy of the transform in its place.  The
    curve is the default one. *)
Theorem module_dict_roundtrip `{Externals} (class_name : string)
    (include_module_name include_offset_data : bool) (m : ModuleGeneric.t)
    (w : World) :
  exists m' w',
    ModuleGeneric.read_data_from_dict
      (PyDict (ModuleGeneric.get_module_as_dict class_name
                 include_module_name include_offset_data m))
      ModuleGeneric.new w
    = (Return (m', Proxy.ReturnedSelf), w') /\
    ModuleGeneric.name m' =
      match ModuleGeneric.name m with
      | Some (String c s) => Some (String c s)
      | _ => None
      end /\
    ModuleGeneric.prefix m' =
      match ModuleGeneric.prefix m with
      | Some (String c s) => Some (String c s)
      | _ => None
      end /\
    ModuleGeneric.parent_uuid m' =
      (if accepted_uuid (ModuleGeneric.parent_uuid m)
       then ModuleGeneric.parent_uuid m else PyNone) /\
    ModuleGeneric.active m' = ModuleGeneric.active m /\
    ModuleGeneric.metadata m' =
      match ModuleGeneric.metadata m with
      | Some (e :: md) => Some (e :: md)
      | _ => None
      end /\
    length (ModuleGeneric.proxies m') <= length (ModuleGeneric.proxies m) /\
    (length (ModuleGeneric.proxies m') = length (ModuleGeneric.proxies m) ->
     NoDup (map Proxy.uuid (ModuleGeneric.proxies m))) /\
    (NoDup (map Proxy.uuid (ModuleGeneric.proxies m)) ->
     Forall2 (proxy_restored include_offset_data) (ModuleGeneric.proxies m)
       (ModuleGeneric.proxies m')).
Proof.
  pose proof (get_module_as_dict_get class_name include_module_name
                include_offset_data m) as G.
  cbv zeta in G. destruct G as (Gn & Ga & Gx & Gp & Gm & Gs & _).
  set (d := ModuleGeneric.get_module_as_dict class_name include_module_name
              include_offset_data m) in *.
  assert (Hok : module_desc_ok (PyDict d) = true).
  { unfold module_desc_ok. rewrite Gs. apply proxies_as_dict_desc_ok. }
  destruct (read_module_dict_core d ModuleGeneric.new w Hok)
    as (m' & w' & E & N & X & P & A & M & S).
  exists m', w'. split; [exact E |].
  rewrite Gn in N. rewrite Gx in X. rewrite Gp in P. rewrite Ga in A.
  rewrite Gm in M. rewrite Gs in S.
  assert (Len : length (ModuleGeneric.proxies m')
                = length (ModuleGeneric.proxies_as_dict include_offset_data
                            (ModuleGeneric.proxies m))).
  { destruct (ModuleGeneric.proxies_as_dict include_offset_data
                (ModuleGeneric.proxies m)) as [| e pd].
    - now rewrite S.
    - symmetry. eapply Forall2_length; eauto. }
  repeat split.
  - rewrite N. now destruct (ModuleGeneric.name m) as [[| c s] |].
  - rewrite X. now destruct (ModuleGeneric.prefix m) as [[| c s] |].
  - rewrite P. simpl ModuleGeneric.parent_uuid.
    destruct (accepted_uuid (ModuleGeneric.parent_uuid m)) eqn:Acc.
    + rewrite (accepted_uuid_truthy _ Acc), Acc. reflexivity.
    + destruct (truthy (ModuleGeneric.parent_uuid m));
        [now rewrite Acc | reflexivity].
  - exact A.
  - rewrite M. now destruct (ModuleGeneric.metadata m) as [[| e md] |].
  - rewrite Len. apply proxies_as_dict_length.
  - rewrite Len. apply proxies_as_dict_full.
  - intros ND. rewrite (proxies_as_dict_NoDup _ _ ND) in S.
    destruct (ModuleGeneric.proxies m) as [| p ps] eqn:Ps.
    + simpl in S. rewrite S. constructor.
    + apply (Forall2_proxy_restored include_offset_data). exact S.
Qed.

(** * Further properties of the spine module *)

Section SpineRuns.
Context `{Externals}.

Lemma add_color_run v p w :
  exists p' w',
    Proxy.add_color v p w = (Return p', w') /\
    uuid_count w' = uuid_count w /\
    proxy_but_attr_dict p' = proxy_but_attr_dict p.
Proof.
  unfold Proxy.add_color.
  destruct v as [| b | z | f | s | l | l | d | t | c];
    try (do 2 eexists; split; [reflexivity | split; reflexivity]).
  - destruct l as [| r [| g [| b rest]]];
      try (do 2 eexists; split; [reflexivity | split; reflexivity]).
    destruct (forallb is_float_or_int (r :: g :: b :: rest));
      do 2 eexists; split; try reflexivity; split; reflexivity.
  - destruct l as [| r [| g [| b rest]]];
      try (do 2 eexists; split; [reflexivity | split; reflexivity]).
    destruct (forallb is_float_or_int (r :: g :: b :: rest));
      do 2 eexists; split; try reflexivity; split; reflexivity.
Qed.

Lemma add_meta_parent_name a p :
  Proxy.name (Proxy.add_meta_parent a p) = Proxy.name p.
Proof.
  unfold Proxy.add_meta_parent.
  destruct a as [[] |]; try reflexivity.
  now destruct (is_uuid_valid s).
Qed.

(** One more spine: it always returns, draws one UUID, and the proxy has
    the name of its position. *)
Lemma new_spine_run num parent w :
  exists s w',
    ModuleSpine.new_spine num parent w = (Return s, w') /\
    uuid_count w' = S (uuid_count w) /\
    Proxy.uuid s = uuid4_hex (uuid_count w) /\
    Proxy.name s = ModuleSpine.spine_name num.
Proof.
  unfold ModuleSpine.new_spine.
  rewrite (bind_Return _ _ _
             (named_spec w (name := ModuleSpine.spine_name num)
                ltac:(discriminate))).
  rewrite (bind_Return _ _ _ (set_locator_scale_spec _ _ _)).
  match goal with
  | |- context [Proxy.add_color FOLLOWER ?p] =>
      destruct (add_color_run FOLLOWER p
                  {| uuid_count := S (uuid_count w); log := log w |})
        as (p1 & w1 & E1 & W1 & C1)
  end.
  simpl is_float_or_int. cbv iota.
  rewrite (bind_Return _ _ _ E1).
  unfold proxy_but_attr_dict in C1. simpl in C1.
  injection C1 as N1 _ _ _ U1 _ _ _.
  rewrite set_parent_uuid_spec.
  destruct (accepted_uuid (PyStr parent));
    do 2 eexists; (split; [reflexivity |]); cbn [uuid_count logged];
    (split; [exact W1 |]); split.
  - cbn [Proxy.uuid Proxy.with_parent_uuid].
    rewrite add_meta_parent_uuid. exact U1.
  - cbn [Proxy.name Proxy.with_parent_uuid].
    rewrite add_meta_parent_name. exact N1.
  - rewrite add_meta_parent_uuid. exact U1.
  - rewrite add_meta_parent_name. exact N1.
Qed.

Lemma create_spines_run count :
  forall num parent spines w,
    exists new w',
      ModuleSpine.create_spines count num parent spines w
      = (Return (spines ++ new), w') /\
      length new = count /\
      uuid_count w' = uuid_count w + count /\
      spine_named num new /\
      (forall i s, nth_error new i = Some s ->
                   Proxy.uuid s = uuid4_hex (uuid_count w + i)).
Proof.
  induction count as [| count IH]; intros num parent spines w; simpl.
  - exists [], w. rewrite app_nil_r. repeat split; try lia.
    + intros [| i] s E; discriminate E.
    + intros [| i] s E; discriminate E.
  - destruct (new_spine_run num parent w) as (s & w1 & E & W & U & N).
    rewrite (bind_Return _ _ _ E).
    destruct (IH (S num) (Proxy.get_uuid s) (spines ++ [s]) w1)
      as (new & w2 & E2 & L & W2 & Nm & Us).
    exists (s :: new), w2. rewrite E2, <- app_assoc. simpl.
    repeat split; try lia.
    + intros [| i] s' E'; simpl in E'.
      * inv E'. now rewrite Nat.add_0_r.
      * rewrite Nat.add_succ_r. apply (Nm i s' E').
    + intros [| i] s' E'; simpl in E'.
      * inv E'. now rewrite Nat.add_0_r.
      * rewrite Nat.add_succ_r, <- Nat.add_succ_l, <- W.
        apply (Us i s' E').
Qed.

End SpineRuns.
Section SpineNumRuns.
Context `{Externals}.

Lemma relink_chest_run m (w : World) :
  (let self :=
     match rev (ModuleSpine.spines m) with
     | last :: _ =>
         ModuleSpine.with_chest
           (Proxy.add_meta_parent
              (Proxy.AVal (PyStr (Proxy.get_uuid last)))
              (ModuleSpine.chest m)) m
     | [] =>
         ModuleSpine.with_chest
           (Proxy.add_meta_parent
              (Proxy.AVal (PyStr (Proxy.get_uuid (ModuleSpine.hip m))))
              (ModuleSpine.chest m)) m
     end in
   ret (ModuleSpine.refresh_proxies_list self)) w
  = (Return (relink_chest m), w).
Proof.
  unfold relink_chest, last_uuid.
  now destruct (rev (ModuleSpine.spines m)).
Qed.

(** [set_spine_num] returns for every integer.  When the number differs
    from the current one the module is relinked around the new list of
    spines: the old ones followed by new ones, or a slice of the old
    ones. *)
Lemma set_spine_num_run (m : ModuleSpine.t) (n : Z) (w : World) :
  let len := length (ModuleSpine.spines m) in
  exists m' w',
    ModuleSpine.set_spine_num n m w = (Return m', w') /\
    uuid_count w' = uuid_count w + (Z.to_nat n - len) /\
    (Z.of_nat len = n -> m' = m /\ w' = w) /\
    (Z.of_nat len <> n ->
     m' = relink_chest (ModuleSpine.with_spines (ModuleSpine.spines m') m)) /\
    ((Z.of_nat len < n)%Z ->
     exists new,
       ModuleSpine.spines m' = ModuleSpine.spines m ++ new /\
       length new = Z.to_nat n - len /\
       spine_named len new /\
       (forall i s, nth_error new i = Some s ->
                    Proxy.uuid s = uuid4_hex (uuid_count w + i))) /\
    ((n <= Z.of_nat len)%Z ->
     ModuleSpine.spines m' = py_slice_to n (ModuleSpine.spines m) /\
     w' = w).
Proof.
  intros len. unfold ModuleSpine.set_spine_num. fold len.
  destruct (Z.eqb_spec (Z.of_nat len) n) as [Heq | Hne].
  - exists m, w. split; [reflexivity |].
    split; [lia |]. split; [auto |]. split; [contradiction |].
    split; [lia |]. intros _. split; [| reflexivity].
    unfold py_slice_to. destruct (Z.leb_spec 0 n); [| lia].
    rewrite <- Heq, Nat2Z.id. symmetry. apply firstn_all.
  - destruct (Z.ltb_spec (Z.of_nat len) n) as [Hlt | Hge].
    + destruct (create_spines_run (Z.to_nat n - len) len
                  match rev (ModuleSpine.spines m) with
                  | last :: _ => Proxy.get_uuid last
                  | [] => Proxy.get_uuid (ModuleSpine.hip m)
                  end (ModuleSpine.spines m) w)
        as (new & w1 & E & L & W & Nm & Us).
      rewrite (bind_Return _ _ _ (bind_Return _ _ _ E)).
      unfold ret at 1.
      exists (relink_chest
                (ModuleSpine.with_spines (ModuleSpine.spines m ++ new) m)),
        w1.
      split; [exact (relink_chest_run _ w1) |].
      split; [exact W |]. split; [contradiction |].
      split; [reflexivity |].
      split; [| lia]. intros _. exists new. repeat split; auto.
    + destruct (Z.ltb_spec n (Z.of_nat len)) as [Hlt | Hge']; [| lia].
      rewrite bind_ret_l.
      exists (relink_chest
                (ModuleSpine.with_spines
                   (py_slice_to n (ModuleSpine.spines m)) m)), w.
      split; [exact (relink_chest_run _ w) |].
      split; [lia |]. split; [contradiction |].
      split; [reflexivity |].
      split; [lia |]. intros _. split; reflexivity.
Qed.

Lemma spine_named_app offset l1 l2 :
  spine_named offset l1 ->
  spine_named (offset + length l1) l2 ->
  spine_named offset (l1 ++ l2).
Proof.
  intros N1 N2 i s E.
  destruct (Nat.lt_ge_cases i (length l1)) as [Lt | Ge].
  - rewrite nth_error_app1 in E by exact Lt. now apply N1.
  - rewrite nth_error_app2 in E by exact Ge.
    apply N2 in E. rewrite E. f_equal. lia.
Qed.

Lemma spine_named_firstn offset l k :
  spine_named offset l -> spine_named offset (firstn k l).
Proof.
  intros N i s E. apply N.
  destruct (Nat.lt_ge_cases i k) as [Lt | Ge].
  - now rewrite nth_error_firstn, (proj2 (Nat.ltb_lt _ _) Lt) in E.
  - rewrite nth_error_firstn in E.
    destruct (Nat.ltb_spec i k); [lia | discriminate E].
Qed.

Lemma py_slice_to_firstn {A} (n : Z) (l : list A) :
  exists k, py_slice_to n l = firstn k l.
Proof. unfold py_slice_to. destruct (0 <=? n)%Z; eauto. Qed.

End SpineNumRuns.
(** X11: [set_spine_num] keeps the spines of a ModuleSpine named after
    their positions, [spine01], [spine02] and so on, for every integer
    argument: new spines are numbered from the current count and a slice
    keeps the first ones.  The call draws one UUID for each spine it adds
    and none otherwise, and the added spines hold these UUIDs in the
    order they were drawn. *)
Theorem set_spine_num_numbers_spines `{Externals} (m : ModuleSpine.t)
    (n : Z) (w : World) :
  spine_named 0 (ModuleSpine.spines m) ->
  exists m' w',
    ModuleSpine.set_spine_num n m w = (Return m', w') /\
    spine_named 0 (ModuleSpine.spines m') /\
    uuid_count w'
    = uuid_count w + (Z.to_nat n - length (ModuleSpine.spines m)) /\
    (forall i s,
       nth_error (ModuleSpine.spines m')
         (length (ModuleSpine.spines m) + i) = Some s ->
       Proxy.uuid s = uuid4_hex (uuid_count w + i)).
Proof.
  intros N.
  destruct (set_spine_num_run m n w) as (m' & w' & E & W & _ & _ & G & S).
  cbv zeta in *.
  exists m', w'. split; [exact E |].
  destruct (Z.ltb_spec (Z.of_nat (length (ModuleSpine.spines m))) n)
    as [Lt | Ge].
  - destruct (G Lt) as (new & Sp & L & Nm & Us). rewrite Sp.
    split; [now apply spine_named_app |]. split; [exact W |].
    intros i s Ei. rewrite nth_error_app2 in Ei by lia.
    apply Us. rewrite <- Ei. f_equal. lia.
  - destruct (S Ge) as (Sp & _). rewrite Sp.
    destruct (py_slice_to_firstn n (ModuleSpine.spines m)) as (k & ->).
    split; [now apply spine_named_firstn |]. split; [exact W |].
    intros i s Ei.
    assert (Hn : nth_error (ModuleSpine.spines m)
                   (length (ModuleSpine.spines m) + i) = None)
      by (apply nth_error_None; lia).
    assert (Hf : nth_error (firstn k (ModuleSpine.spines m))
                   (length (ModuleSpine.spines m) + i) = None).
    { apply nth_error_None. rewrite length_firstn. lia. }
    rewrite Hf in Ei. discriminate Ei.
Qed.

Lemma set_spine_num_numbers_spines_witness :
  @spine_named Sample.externals 0 (ModuleSpine.spines Sample.spine) /\
  exists m' w',
    @ModuleSpine.set_spine_num Sample.externals 5 Sample.spine Sample.world0
    = (Return m', w') /\
    @spine_named Sample.externals 0 (ModuleSpine.spines m') /\
    uuid_count w' = uuid_count Sample.world0 + 2 /\
    (forall i s,
       nth_error (ModuleSpine.spines m') (3 + i) = Some s ->
       Proxy.uuid s = @uuid4_hex Sample.externals
                        (uuid_count Sample.world0 + i)).
Proof.
  assert (N : @spine_named Sample.externals 0
                (ModuleSpine.spines Sample.spine)).
  { intros [| [| [| i]]] s E; simpl in E;
      try (injection E as <-; reflexivity).
    destruct i; discriminate E. }
  split; [exact N |].
  exact (@set_spine_num_numbers_spines Sample.externals Sample.spine 5
           Sample.world0 N).
Defined.

(** X12: [set_spine_num(n)] for [n] that is not negative leaves [n]
    spines, and a second call with the same number changes nothing: it
    returns the module as it is and draws no UUID. *)
Theorem set_spine_num_twice `{Externals} (m : ModuleSpine.t) (n : Z)
    (w : World) :
  (0 <= n)%Z ->
  exists m1 w1,
    ModuleSpine.set_spine_num n m w = (Return m1, w1) /\
    length (ModuleSpine.spines m1) = Z.to_nat n /\
    ModuleSpine.set_spine_num n m1 w1 = (Return m1, w1).
Proof.
  intros Hn.
  destruct (set_spine_num_run m n w) as (m1 & w1 & E & _ & Q & _ & G & S).
  cbv zeta in *.
  assert (L : length (ModuleSpine.spines m1) = Z.to_nat n).
  { destruct (Z.ltb_spec (Z.of_nat (length (ModuleSpine.spines m))) n)
      as [Lt | Ge].
    - destruct (G Lt) as (new & Sp & Ln & _). rewrite Sp, length_app. lia.
    - destruct (S Ge) as (Sp & _). rewrite Sp. unfold py_slice_to.
      destruct (Z.leb_spec 0 n); [| lia]. rewrite length_firstn. lia. }
  exists m1, w1. split; [exact E |]. split; [exact L |].
  unfold ModuleSpine.set_spine_num.
  destruct (Z.eqb_spec (Z.of_nat (length (ModuleSpine.spines m1))) n);
    [reflexivity | lia].
Qed.

Lemma set_spine_num_twice_witness :
  (0 <= 5)%Z /\
  exists m1 w1,
    @ModuleSpine.set_spine_num Sample.externals 5 Sample.spine Sample.world0
    = (Return m1, w1) /\
    length (ModuleSpine.spines m1) = 5 /\
    @ModuleSpine.set_spine_num Sample.externals 5 m1 w1 = (Return m1, w1).
Proof.
  split; [lia |].
  exact (@set_spine_num_twice Sample.externals Sample.spine 5 Sample.world0
           ltac:(lia)).
Defined.

(** X13: [set_spine_num] does not turn down a negative number (its
    docstring has "No negative numbers"): the list of spines is sliced as
    Python slices, so [set_spine_num(-k)] removes the last [k] spines, or
    all of them when there are fewer.  No UUID is drawn, the hip is kept,
    and the module is left well formed, the chest having the last spine
    kept (or the hip) as meta parent. *)
Theorem set_spine_num_negative `{Externals} `{!UuidLaws}
    (m : ModuleSpine.t) (n : Z) (w : World) :
  spine_chain m ->
  (n < 0)%Z ->
  exists m',
    ModuleSpine.set_spine_num n m w = (Return m', w) /\
    ModuleSpine.spines m' =
      firstn (length (ModuleSpine.spines m) - Z.to_nat (- n))
        (ModuleSpine.spines m) /\
    ModuleSpine.hip m' = ModuleSpine.hip m /\
    spine_wf m'.
Proof.
  intros C Hn.
  destruct (set_spine_num_run m n w) as (m' & w' & E & _ & _ & R & _ & S).
  cbv zeta in *.
  destruct S as (Sp & ->); [lia |].
  exists m'. split; [exact E |].
  assert (Sl : py_slice_to n (ModuleSpine.spines m)
               = firstn (length (ModuleSpine.spines m) - Z.to_nat (- n))
                   (ModuleSpine.spines m)).
  { unfold py_slice_to. destruct (Z.leb_spec 0 n); [lia |]. f_equal. lia. }
  rewrite Sl in Sp. split; [exact Sp |].
  assert (Ne : Z.of_nat (length (ModuleSpine.spines m)) <> n) by lia.
  specialize (R Ne). rewrite Sp in R.
  destruct C as (Hh & Hs & Hc).
  destruct (relink_chest_wf
              (m := ModuleSpine.with_spines
                      (firstn
                         (length (ModuleSpine.spines m) - Z.to_nat (- n))
                         (ModuleSpine.spines m)) m))
    as (Wf & Hip & _).
  { split; [exact Hh |]. split.
    - simpl. now apply Forall_firstn'.
    - simpl. now apply chained_firstn. }
  rewrite R. split; [exact Hip | exact Wf].
Qed.

Lemma set_spine_num_negative_witness :
  @spine_chain Sample.externals Sample.spine /\
  (-1 < 0)%Z /\
  exists m',
    @ModuleSpine.set_spine_num Sample.externals (-1) Sample.spine
      Sample.world0
    = (Return m', Sample.world0) /\
    length (ModuleSpine.spines m') = 2.
Proof.
  split; [exact (proj1 spine_wf_sample) |]. split; [lia |].
  destruct (@set_spine_num_negative Sample.externals sample_uuid_laws
              Sample.spine (-1) Sample.world0 (proj1 spine_wf_sample)
              ltac:(lia))
    as (m' & E & S & _).
  exists m'. split; [exact E |]. rewrite S. reflexivity.
Defined.

(** X14: the description that a ModuleSpine gives of itself never has the
    key "module", whatever keyword arguments are passed, and under
    "proxies" every value is the description of one of its proxies made
    without the offset data: the key "offsetTransform" is absent, while
    the transform is given when the proxy has one. *)
Theorem spine_description_omits_offset `{Externals} (kwargs : dict)
    (m : ModuleSpine.t) :
  dict_get "module" (ModuleSpine.get_module_as_dict kwargs m) = PyNone /\
  exists proxies,
    dict_get "proxies" (ModuleSpine.get_module_as_dict kwargs m)
    = PyDict proxies /\
    forall u v,
      In (u, v) proxies ->
      exists p pd,
        In p (ModuleSpine.proxies m) /\
        v = PyDict pd /\
        dict_get "offsetTransform" pd = PyNone /\
        dict_get "transform" pd =
          match Proxy.transform p with
          | Some tr => TransformOps.get_transform_as_dict tr
          | None => PyNone
          end.
Proof.
  unfold ModuleSpine.get_module_as_dict.
  pose proof (get_module_as_dict_get "ModuleSpine" false false
                (ModuleSpine.base m)) as G.
  cbv zeta in G. destruct G as (_ & _ & _ & _ & _ & Gs & Gm).
  split; [exact Gm |].
  eexists. split; [exact Gs |].
  intros u v I.
  assert (F : Forall
                (fun e =>
                   exists p pd,
                     In p (ModuleSpine.proxies m) /\
                     snd e = PyDict pd /\
                     dict_get "offsetTransform" pd = PyNone /\
                     dict_get "transform" pd =
                       match Proxy.transform p with
                       | Some tr => TransformOps.get_transform_as_dict tr
                       | None => PyNone
                       end)
                (ModuleGeneric.proxies_as_dict false
                   (ModuleGeneric.proxies (ModuleSpine.base m)))).
  { unfold ModuleGeneric.proxies_as_dict. rewrite proxies_as_dict_fold.
    apply (fold_dict_set_Forall
             (fun v =>
                exists p pd,
                  In p (ModuleSpine.proxies m) /\
                  v = PyDict pd /\
                  dict_get "offsetTransform" pd = PyNone /\
                  dict_get "transform" pd =
                    match Proxy.transform p with
                    | Some tr => TransformOps.get_transform_as_dict tr
                    | None => PyNone
                    end)).
    - constructor.
    - apply Forall_forall. intros e Ie. apply in_map_iff in Ie.
      destruct Ie as (p & <- & Ip).
      pose proof (get_proxy_as_dict_get false true false p) as Gp.
      cbv zeta in Gp. destruct Gp as (_ & _ & _ & Gt & Go & _).
      exists p. eexists. split; [exact Ip |]. split; [reflexivity |].
      split.
      + rewrite Go. now destruct (Proxy.offset_transform p).
      + exact Gt. }
  rewrite Forall_forall in F. exact (F (u, v) I).
Qed.

(** * Further properties of the project build *)

Lemma enumerate_In {A} (l : list A) i x :
  In (i, x) (Build.enumerate l) -> nth_error l i = Some x.
Proof.
  unfold Build.enumerate.
  assert (G : forall s, In (i, x) (combine (seq s (length l)) l) ->
                        s <= i /\ nth_error l (i - s) = Some x).
  { induction l as [| y l IH]; intros s I; simpl in I; [destruct I |].
    destruct I as [E | I].
    - inv E. rewrite Nat.sub_diag. auto.
    - apply IH in I. destruct I as [L N]. split; [lia |].
      replace (i - s) with (S (i - S s)) by lia. exact N. }
  intros I. apply G in I. destruct I as [_ N].
  now rewrite Nat.sub_0_r in N.
Qed.

Section BuildAppendsMore.
Variable backend : Build.Backend.
Variable P : Build.Call -> Prop.

Lemma appends_for_each_In {A} (l : list A) (body : A -> Build.B unit) :
  (forall x, In x l -> appends P (body x)) ->
  appends P (Build.for_each l body).
Proof.
  induction l as [| x l IH]; intros Hb; simpl.
  - apply appends_ret.
  - apply appends_bind.
    + apply Hb. now left.
    + intros _. apply IH. intros y I. apply Hb. now right.
Qed.

Lemma appends_build_modules ims :
  (forall i m, In (i, m) ims -> Build.active_state m = true ->
               P (Build.module_build_proxy i)) ->
  forall acc, appends P (Build.build_modules backend ims acc).
Proof.
  induction ims as [| [i m] ims IH]; intros Hp acc; simpl.
  - apply appends_ret.
  - destruct (Build.active_state m) eqn:Act; simpl.
    + apply appends_bind.
      * apply appends_call. apply (Hp i m); [now left | exact Act].
      * intros built. apply IH. intros j mj I. apply Hp. now right.
    + apply IH. intros j mj I. apply Hp. now right.
Qed.

Lemma appends_try_except {A} (body : Build.B A) handler :
  appends P body -> (forall e, appends P (handler e)) ->
  appends P (try_except body handler).
Proof.
  intros Hb Hh tr. unfold try_except.
  destruct (Hb tr) as ([a | e] & made & E & F); rewrite E.
  - exists (Return a), made. auto.
  - destruct (Hh e (tr ++ made)) as (o & made' & E' & F').
    exists o, (made ++ made'). rewrite E', app_assoc.
    split; [reflexivity | now apply Forall_app].
Qed.

Lemma appends_try_finally {A} (body : Build.B A) final :
  appends P body -> appends P final -> appends P (try_finally body final).
Proof.
  intros Hb Hf tr. unfold try_finally.
  destruct (Hb tr) as (o & made & E & F). rewrite E.
  destruct (Hf (tr ++ made)) as ([[] | e] & made' & E' & F'); rewrite E';
    eexists; exists (made ++ made'); rewrite app_assoc;
    (split; [reflexivity | now apply Forall_app]).
Qed.

End BuildAppendsMore.

(** X15: [build_proxy] and [build_rig] leave the modules that are not
    active alone.  Whatever the scene does, every call they make for a
    module -- its build hooks, the parenting of its proxies, its
    visualization lines, the attributes of its proxies -- is made for a
    module of the project whose active state is [True].  The same holds
    of the loops over the modules taken on their own, which is where
    such calls are made. *)
Theorem build_skips_inactive_modules (backend : Build.Backend) (GRP : string)
    (modules : list ModuleObj) (tr0 : Build.Trace) :
  (exists o made,
     Build.build_proxy backend GRP modules tr0 = (o, tr0 ++ made) /\
     Forall (for_active_module modules) made) /\
  (exists o made,
     Build.build_rig backend GRP modules tr0 = (o, tr0 ++ made) /\
     Forall (for_active_module modules) made) /\
  (forall setup root_transform,
     exists o made,
       Build.build_proxy_modules backend modules setup root_transform tr0
       = (o, tr0 ++ made) /\
       Forall (for_active_module modules) made) /\
  (exists o made,
     Build.build_rig_modules backend modules tr0 = (o, tr0 ++ made) /\
     Forall (for_active_module modules) made).
Proof.
  assert (Act : forall (f : nat -> Build.Call) im,
            (forall i, call_module (f i) = Some i) ->
            In im (Build.enumerate modules) ->
            Build.active_state (snd im) = true ->
            for_active_module modules (f (fst im))).
  { intros f [i m] Hf I A. unfold for_active_module. rewrite Hf.
    exists m. split; [now apply enumerate_In | exact A]. }
  assert (Fin : appends (for_active_module modules)
                  (bind (Build.call_ backend (Build.cmds_refresh_suspend false))
                     (fun _ => Build.call_ backend Build.cmds_refresh))).
  { apply appends_bind; [| intros _]; apply appends_call; exact I. }
  assert (LP : forall setup root_transform,
            appends (for_active_module modules)
              (Build.build_proxy_modules backend modules setup
                 root_transform)).
  { intros setup root_transform. unfold Build.build_proxy_modules.
    apply appends_bind.
    { apply appends_build_modules. intros i m Im A.
      apply (Act Build.module_build_proxy (i, m)); auto. }
    intros proxy_data_list.
    apply appends_bind.
    { apply appends_for_each. intros d.
      repeat (apply appends_bind; [| intros ?]);
        try apply appends_proxy_data_attr;
        apply appends_call; exact I. }
    intros _. apply appends_for_each_In. intros [i m] Im.
    destruct (Build.active_state (snd (i, m))) eqn:A; simpl;
      [| apply appends_ret].
    apply appends_bind;
      [apply appends_call;
       exact (Act Build.parent_proxies (i, m) (fun _ => eq_refl) Im A) |
       intros _].
    apply appends_bind;
      [apply appends_call;
       exact (Act (fun j => Build.create_proxy_visualization_lines j setup)
                (i, m) (fun _ => eq_refl) Im A) |
       intros _].
    apply appends_bind.
    { apply appends_for_each. intros proxy. apply appends_call.
      exact (Act (fun j => Build.proxy_apply_attr_dict j
                             (Proxy.get_uuid proxy))
               (i, m) (fun _ => eq_refl) Im A). }
    intros _. apply appends_call.
    exact (Act Build.module_build_proxy_post (i, m) (fun _ => eq_refl)
             Im A). }
  assert (LR : appends (for_active_module modules)
                 (Build.build_rig_modules backend modules)).
  { unfold Build.build_rig_modules.
    apply appends_bind; [| intros _];
      apply appends_for_each_In; intros [i m] Im;
      (destruct (Build.active_state (snd (i, m))) eqn:A; simpl;
       [| apply appends_ret]);
      apply appends_call.
    - exact (Act Build.module_build_rig (i, m) (fun _ => eq_refl) Im A).
    - exact (Act Build.module_build_rig_post (i, m) (fun _ => eq_refl)
               Im A). }
  split; [| split; [| split]].
  - apply (fun Hp : appends (for_active_module modules)
                      (Build.build_proxy backend GRP modules) => Hp tr0).
    unfold Build.build_proxy. apply appends_bind.
    + apply appends_call. exact I.
    + intros _. apply appends_try_finally; [| exact Fin].
      apply appends_try_except; [| intros e; apply appends_raise].
      unfold Build.build_proxy_body.
      apply appends_bind; [apply appends_call; exact I | intros [rt rg]].
      apply appends_bind; [apply appends_call; exact I | intros setup].
      apply appends_bind; [apply appends_call_add_attr; exact I | intros _].
      apply appends_bind; [apply appends_call; exact I | intros _].
      apply appends_bind; [apply appends_call; exact I | intros _].
      apply LP.
  - apply (fun Hp : appends (for_active_module modules)
                      (Build.build_rig backend GRP modules) => Hp tr0).
    unfold Build.build_rig. apply appends_bind.
    + apply appends_call. exact I.
    + intros _. apply appends_try_finally; [| exact Fin].
      apply appends_try_except; [| intros e; apply appends_raise].
      unfold Build.build_rig_body.
      apply appends_bind; [apply appends_call; exact I | intros [rt rg]].
      apply appends_bind; [apply appends_call; exact I | intros setup].
      apply appends_bind; [apply appends_call; exact I | intros setup'].
      apply appends_bind; [apply appends_call_add_attr; exact I | intros _].
      apply appends_bind; [apply appends_call; exact I | intros _].
      apply appends_bind; [apply appends_call; exact I | intros _].
      apply LR.
  - intros setup root_transform. apply LP.
  - apply LR.
Qed.

(** * Properties of [hierarchy_utils.parent] *)

Section Adds.
Context {C : Type}.
Variable P : C -> Prop.

Lemma adds_ret {A} (a : A) : adds P (ret a).
Proof. intros tr. exists (Return a), []. rewrite app_nil_r. auto. Qed.

Lemma adds_raise {A} e : adds P (@raise (list C) A e).
Proof. intros tr. exists (Raised e), []. rewrite app_nil_r. auto. Qed.

Lemma adds_bind {A B} (m : Eff (list C) A) (k : A -> Eff (list C) B) :
  adds P m -> (forall a, adds P (k a)) -> adds P (bind m k).
Proof.
  intros Hm Hk tr. destruct (Hm tr) as ([a | e] & made & E & F).
  - destruct (Hk a (tr ++ made)) as (o & made' & E' & F').
    exists o, (made ++ made'). rewrite (bind_Return _ _ _ E), E', app_assoc.
    split; [reflexivity | now apply Forall_app].
  - exists (Raised e), made. now rewrite (bind_Raised _ _ _ E).
Qed.

Lemma adds_try_except {A} (body : Eff (list C) A) handler :
  adds P body -> (forall e, adds P (handler e)) ->
  adds P (try_except body handler).
Proof.
  intros Hb Hh tr. unfold try_except.
  destruct (Hb tr) as ([a | e] & made & E & F); rewrite E.
  - exists (Return a), made. auto.
  - destruct (Hh e (tr ++ made)) as (o & made' & E' & F').
    exists o, (made ++ made'). rewrite E', app_assoc.
    split; [reflexivity | now apply Forall_app].
Qed.

End Adds.

Section HierarchyParent.
Variable backend : HierarchyUtils.Backend.

Lemma adds_hcall {A} (P : HierarchyUtils.Call -> Prop) c
    (r : HierarchyUtils.Trace -> A) :
  P c -> adds P (HierarchyUtils.call backend c r).
Proof.
  intros Hc tr. unfold HierarchyUtils.call.
  destruct (HierarchyUtils.raises backend tr c);
    eexists; exists [c]; split; try reflexivity; auto.
Qed.

Lemma has_name_str_of name :
  has_name name = true -> exists c s, name = Some (String c s).
Proof. destruct name as [[| c s] |]; try discriminate. eauto. Qed.

(** One child: only calls that reparent it, and when it is already under
    the target no call to [cmds.parent] and nothing added to the list. *)
Lemma parent_child_adds target verbose acc child names :
  incl (child_names [child]) names ->
  adds (reparents names target)
    (HierarchyUtils.parent_child backend target verbose acc child).
Proof.
  intros I. unfold HierarchyUtils.parent_child.
  destruct child as [[| c s] |];
    try (apply adds_bind; [apply adds_hcall; exact Logic.I |
                           intros _; apply adds_ret]).
  assert (Hp : adds (reparents names target)
                 (objs <- HierarchyUtils.call backend
                            (HierarchyUtils.cmds_parent (String c s) target)
                            (fun tr =>
                               HierarchyUtils.parented backend tr
                                 (String c s) target) ;;
                  ret (acc ++ objs))).
  { apply adds_bind; [| intros objs; apply adds_ret].
    apply adds_hcall. split; [| reflexivity].
    apply I. simpl. now left. }
  apply adds_bind; [apply adds_hcall; exact Logic.I | intros found].
  destruct (negb found).
  - apply adds_bind; [apply adds_hcall; exact Logic.I |
                      intros _; apply adds_ret].
  - apply adds_bind; [apply adds_hcall; exact Logic.I | intros [| p rest]].
    + exact Hp.
    + destruct (negb (p =? target)); [exact Hp | apply adds_ret].
Qed.

Lemma parent_children_adds target verbose names children :
  incl (child_names children) names ->
  forall acc,
    adds (reparents names target)
      (HierarchyUtils.parent_children backend target verbose children acc).
Proof.
  induction children as [| child children IH]; intros I acc; simpl.
  - apply adds_ret.
  - apply adds_bind.
    + apply parent_child_adds. intros x Ix. apply I. simpl.
      simpl in Ix. rewrite app_nil_r in Ix. apply in_or_app. now left.
    + intros acc'. apply IH. intros x Ix. apply I. simpl.
      apply in_or_app. now right.
Qed.

End HierarchyParent.
Section HierarchyParentRuns.
Variable backend : HierarchyUtils.Backend.

Lemma hcall_quiet {A} c (r : HierarchyUtils.Trace -> A) tr :
  HierarchyUtils.raises backend tr c = None ->
  HierarchyUtils.call backend c r tr = (Return (r tr), tr ++ [c]).
Proof. intros Q. unfold HierarchyUtils.call. now rewrite Q. Qed.

(** Children that are all under the target already: no call to
    [cmds.parent], and the list of parented objects is as it was. *)
Lemma parent_children_under target verbose children :
  all_under backend target ->
  forall acc tr,
    exists o made,
      HierarchyUtils.parent_children backend target verbose children acc tr
      = (o, tr ++ made) /\
      Forall (fun c => is_cmds_parent c = false) made /\
      (forall l, o = Return l -> l = acc).
Proof.
  intros U. induction children as [| child children IH]; intros acc tr;
    simpl.
  - exists (Return acc), []. rewrite app_nil_r.
    split; [reflexivity |]. split; [constructor |].
    intros l E. now inv E.
  - assert (Step : exists o made,
              HierarchyUtils.parent_child backend target verbose acc child tr
              = (o, tr ++ made) /\
              Forall (fun c => is_cmds_parent c = false) made /\
              (forall l, o = Return l -> l = acc)).
    { unfold HierarchyUtils.parent_child, HierarchyUtils.call_,
        HierarchyUtils.call, bind, ret.
      destruct child as [[| c s] |].
      - destruct (HierarchyUtils.raises backend tr _);
          eexists; eexists; (split; [reflexivity |]);
          (split; [repeat constructor | intros l E; now inv E]).
      - destruct (HierarchyUtils.raises backend tr _);
          [eexists; eexists; (split; [reflexivity |]);
           (split; [repeat constructor | intros l E; now inv E]) |].
        destruct (negb (HierarchyUtils.objExists backend tr (String c s))).
        + destruct (HierarchyUtils.raises backend _ _);
            eexists; eexists;
            (split; [rewrite <- app_assoc; reflexivity |]);
            (split; [repeat constructor | intros l E; now inv E]).
        + destruct (HierarchyUtils.raises backend _ _);
            [eexists; eexists;
             (split; [rewrite <- app_assoc; reflexivity |]);
             (split; [repeat constructor | intros l E; now inv E]) |].
          destruct (U (tr ++ [HierarchyUtils.cmds_objExists (String c s)])
                      (String c s)) as (rest & ->).
          rewrite String.eqb_refl. cbn [negb].
          eexists; eexists;
            (split; [rewrite <- app_assoc; reflexivity |]);
            (split; [repeat constructor | intros l E; now inv E]).
      - destruct (HierarchyUtils.raises backend tr _);
          eexists; eexists; (split; [reflexivity |]);
          (split; [repeat constructor | intros l E; now inv E]). }
    destruct Step as ([acc' | e] & made & E & F & R).
    + rewrite (bind_Return _ _ _ E).
      rewrite (R acc' eq_refl).
      destruct (IH acc (tr ++ made)) as (o & made' & E' & F' & R').
      exists o, (made ++ made'). rewrite E', app_assoc.
      split; [reflexivity |]. split; [now apply Forall_app | exact R'].
    + rewrite (bind_Raised _ _ _ E).
      exists (Raised e), made. split; [reflexivity |].
      split; [exact F | intros l El; discriminate El].
Qed.

Ltac qcall Q :=
  match goal with
  | |- context [bind (HierarchyUtils.call ?b ?c ?r) ?k ?t] =>
      rewrite (bind_Return (HierarchyUtils.call b c r) k t
                 (hcall_quiet c r t (Q t c eq_refl)))
  end.

Lemma parent_child_returns target verbose acc child tr :
  quiet_but_select backend ->
  exists l made,
    HierarchyUtils.parent_child backend target verbose acc child tr
    = (Return l, tr ++ made) /\
    Forall (fun c => is_cmds_select c = false) made.
Proof.
  intros Q. unfold HierarchyUtils.parent_child, HierarchyUtils.call_.
  destruct child as [[| c s] |].
  - qcall Q.
    do 2 eexists. split; [reflexivity | repeat constructor].
  - qcall Q.
    destruct (negb (HierarchyUtils.objExists backend tr (String c s))).
    + qcall Q.
      do 2 eexists. rewrite <- app_assoc.
      split; [reflexivity | repeat constructor].
    + qcall Q.
      destruct (HierarchyUtils.listRelatives backend _ _) as [| p rest].
      * qcall Q.
        do 2 eexists. rewrite <- !app_assoc.
        split; [reflexivity | repeat constructor].
      * destruct (negb (p =? target)).
        -- qcall Q.
           do 2 eexists. rewrite <- !app_assoc.
           split; [reflexivity | repeat constructor].
        -- do 2 eexists. rewrite <- !app_assoc.
           split; [reflexivity | repeat constructor].
  - qcall Q.
    do 2 eexists. split; [reflexivity | repeat constructor].
Qed.

Lemma parent_children_returns target verbose children :
  quiet_but_select backend ->
  forall acc tr,
    exists l made,
      HierarchyUtils.parent_children backend target verbose children acc tr
      = (Return l, tr ++ made) /\
      Forall (fun c => is_cmds_select c = false) made.
Proof.
  intros Q. induction children as [| child children IH]; intros acc tr;
    simpl.
  - exists acc, []. rewrite app_nil_r. split; [reflexivity | constructor].
  - destruct (parent_child_returns target verbose acc child tr Q)
      as (acc' & made & E & F).
    rewrite (bind_Return _ _ _ E).
    destruct (IH acc' (tr ++ made)) as (l & made' & E' & F').
    exists l, (made ++ made'). rewrite E', app_assoc.
    split; [reflexivity | now apply Forall_app].
Qed.

End HierarchyParentRuns.
(** X17: [parent] called with a target that is [None] or the empty string
    reads the selection, reports through [log_when_true] and returns the
    empty list: it makes no other call, so it neither asks the scene
    whether anything exists nor moves an object, and the sources are not
    looked at (a [source_objects] of [None] raises nothing here). *)
Theorem parent_without_target (backend : HierarchyUtils.Backend)
    (source_objects : HierarchyUtils.sources) (target_parent : option string)
    (verbose : bool) (tr : HierarchyUtils.Trace) :
  has_name target_parent = false ->
  exists o made,
    HierarchyUtils.parent backend source_objects target_parent verbose tr
    = (o, tr ++ made) /\
    Forall (fun c => no_scene_access c = true) made /\
    (forall l, o = Return l -> l = []) /\
    ((forall tr' c, HierarchyUtils.raises backend tr' c = None) ->
     o = Return [] /\ length made = 2).
Proof.
  intros N.
  assert (E : HierarchyUtils.parent backend source_objects target_parent
                verbose tr
              = (store_selection <-
                   HierarchyUtils.call backend
                     HierarchyUtils.cmds_ls_selection
                     (HierarchyUtils.ls_selection backend) ;;
                 HierarchyUtils.call_ backend
                   (HierarchyUtils.log_when_true
                      ("Unable to execute parenting operation."
                       ++ "Missing target parent object " ++ dquote
                       ++ HierarchyUtils.str_of target_parent ++ dquote
                       ++ ".")
                      verbose None) ;;;
                 ret []) tr).
  { unfold HierarchyUtils.parent.
    destruct target_parent as [[| c s] |]; try discriminate N; reflexivity. }
  rewrite E. clear E.
  unfold HierarchyUtils.call_, HierarchyUtils.call, bind, ret.
  destruct (HierarchyUtils.raises backend tr
              HierarchyUtils.cmds_ls_selection) eqn:R1.
  - eexists; eexists. split; [reflexivity |].
    split; [repeat constructor |].
    split; [intros l El; discriminate El |].
    intros Q. rewrite Q in R1. discriminate R1.
  - destruct (HierarchyUtils.raises backend
                (tr ++ [HierarchyUtils.cmds_ls_selection]) _) eqn:R2.
    + eexists; eexists. split; [rewrite <- app_assoc; reflexivity |].
      split; [repeat constructor |].
      split; [intros l El; discriminate El |].
      intros Q. rewrite Q in R2. discriminate R2.
    + eexists; eexists. split; [rewrite <- app_assoc; reflexivity |].
      split; [repeat constructor |].
      split; [intros l El; now inv El |].
      intros _. split; reflexivity.
Qed.

Lemma parent_without_target_witness :
  has_name None = false /\
  HierarchyUtils.parent Sample.flat_scene HierarchyUtils.SourceNone None
    false []
  = (Return [],
     [HierarchyUtils.cmds_ls_selection;
      HierarchyUtils.log_when_true
        ("Unable to execute parenting operation."
         ++ "Missing target parent object " ++ dquote ++ "None" ++ dquote
         ++ ".")
        false None]).
Proof.
  split; [reflexivity |].
  destruct (@parent_without_target Sample.flat_scene
              HierarchyUtils.SourceNone None false [] eq_refl)
    as (o & made & E & _).
  reflexivity.
Defined.

Section Giving.
Context {C : Type}.
Variable P : C -> Prop.

Lemma giving_ret {A} (R : A -> Prop) (a : A) :
  R a -> adds_giving P R (ret a).
Proof.
  intros Ha tr. exists (Return a), []. rewrite app_nil_r.
  split; [reflexivity |]. split; [constructor |].
  intros b E. now inv E.
Qed.

Lemma giving_raise {A} (R : A -> Prop) e :
  adds_giving P R (@raise (list C) A e).
Proof.
  intros tr. exists (Raised e), []. rewrite app_nil_r.
  split; [reflexivity |]. split; [constructor |].
  intros b E. discriminate E.
Qed.

Lemma giving_bind {A B} (R1 : A -> Prop) (R2 : B -> Prop)
    (m : Eff (list C) A) (k : A -> Eff (list C) B) :
  adds_giving P R1 m ->
  (forall a, R1 a -> adds_giving P R2 (k a)) ->
  adds_giving P R2 (bind m k).
Proof.
  intros Hm Hk tr. destruct (Hm tr) as ([a | e] & made & E & F & Ra).
  - destruct (Hk a (Ra a eq_refl) (tr ++ made)) as (o & made' & E' & F' & Rb).
    exists o, (made ++ made'). rewrite (bind_Return _ _ _ E), E', app_assoc.
    split; [reflexivity |]. split; [now apply Forall_app | exact Rb].
  - exists (Raised e), made. rewrite (bind_Raised _ _ _ E).
    split; [reflexivity |]. split; [exact F |].
    intros b Eb. discriminate Eb.
Qed.

Lemma giving_of_adds {A} (m : Eff (list C) A) :
  adds P m -> adds_giving P (fun _ => True) m.
Proof.
  intros Hm tr. destruct (Hm tr) as (o & made & E & F).
  exists o, made. auto.
Qed.

End Giving.

(** X18: [parent] moves only what it was given, and only when needed.
    Whatever the scene does, each call to [cmds.parent] is for a name of
    the sources that is a string and not empty, with the given target.  In
    a scene where every object has the target as its parent already, no
    call to [cmds.parent] is made at all and the list returned is
    empty. *)
Theorem parent_reparents_only_when_needed (backend : HierarchyUtils.Backend)
    (source_objects : HierarchyUtils.sources) (target_parent : option string)
    (verbose : bool) (tr : HierarchyUtils.Trace) :
  exists o made,
    HierarchyUtils.parent backend source_objects target_parent verbose tr
    = (o, tr ++ made) /\
    Forall (reparents (source_names source_objects)
              (HierarchyUtils.str_of target_parent)) made /\
    (all_under backend (HierarchyUtils.str_of target_parent) ->
     Forall (fun c => is_cmds_parent c = false) made /\
     forall l, o = Return l -> l = []).
Proof.
  set (target := HierarchyUtils.str_of target_parent).
  assert (A : adds (reparents (source_names source_objects) target)
                (HierarchyUtils.parent backend source_objects target_parent
                   verbose)).
  { unfold HierarchyUtils.parent.
    apply adds_bind; [apply adds_hcall; exact I | intros store_selection].
    apply adds_bind.
    { destruct target_parent as [[| c s] |]; try apply adds_ret.
      apply adds_bind; [apply adds_hcall; exact I | intros found].
      apply adds_ret. }
    intros [|].
    - apply adds_bind; [apply adds_hcall; exact I | intros _].
      apply adds_ret.
    - assert (Hc : forall children,
                incl (child_names children) (source_names source_objects) ->
                adds (reparents (source_names source_objects) target)
                  (parented_objects <-
                     HierarchyUtils.parent_children backend target verbose
                       children [] ;;
                   match store_selection with
                   | [] => ret tt
                   | _ :: _ =>
                       try_except
                         (HierarchyUtils.call_ backend
                            (HierarchyUtils.cmds_select store_selection))
                         (fun e =>
                            HierarchyUtils.call_ backend
                              (HierarchyUtils.log_when_true
                                 ("Unable to recover previous selection. Issue: "
                                  ++ dquote ++ HierarchyUtils.exc_str e
                                  ++ dquote ++ ".")
                                 verbose (Some DEBUG)))
                   end ;;;
                   ret parented_objects)).
      { intros children Ic.
        apply adds_bind; [now apply parent_children_adds | intros l].
        apply adds_bind; [| intros _; apply adds_ret].
        destruct store_selection; [apply adds_ret |].
        apply adds_try_except; [| intros e]; apply adds_hcall; exact I. }
      destruct source_objects as [| [| c s] | l];
        unfold HierarchyUtils.children_of.
      + intros t.
        exists (Raised (TypeError "'NoneType' object is not iterable")), [].
        rewrite app_nil_r. split; [reflexivity | constructor].
      + apply Hc. intros x [].
      + apply Hc. apply incl_refl.
      + apply Hc. apply incl_refl. }
  destruct (A tr) as (o & made & E & F).
  exists o, made. split; [exact E |]. split; [exact F |].
  intros U.
  assert (B : adds_giving (fun c => is_cmds_parent c = false)
                (fun l => l = [])
                (HierarchyUtils.parent backend source_objects target_parent
                   verbose)).
  { unfold HierarchyUtils.parent.
    apply giving_bind with (R1 := fun _ => True);
      [apply giving_of_adds, adds_hcall; reflexivity |
       intros store_selection _].
    apply giving_bind with (R1 := fun _ => True).
    { apply giving_of_adds.
      destruct target_parent as [[| c s] |]; try apply adds_ret.
      apply adds_bind; [apply adds_hcall; reflexivity | intros found].
      apply adds_ret. }
    intros [|] _.
    - apply giving_bind with (R1 := fun _ => True);
        [apply giving_of_adds, adds_hcall; reflexivity | intros _ _].
      now apply giving_ret.
    - apply giving_bind with (R1 := fun _ => True).
      { apply giving_of_adds.
        destruct source_objects as [| [| c s] | l]; simpl;
          try apply adds_ret. apply adds_raise. }
      intros children _.
      apply giving_bind with (R1 := fun l => l = []).
      { intros t.
        destruct (@parent_children_under backend target verbose children U
                    [] t)
          as (o' & made' & E' & F' & R').
        exists o', made'. auto. }
      intros l ->.
      apply giving_bind with (R1 := fun _ => True);
        [| intros _ _; now apply giving_ret].
      apply giving_of_adds.
      destruct store_selection; [apply adds_ret |].
      apply adds_try_except; [| intros e]; apply adds_hcall; reflexivity. }
  destruct (B tr) as (o' & made' & E' & F' & R').
  rewrite E in E'. injection E' as -> Em.
  apply app_inv_head in Em. subst made'.
  split; [exact F' | exact R'].
Qed.

(** X19: with a target that exists, in a scene where no call raises
    except maybe [cmds.select], [parent] returns for every string, list or
    tuple of sources: an exception raised while the selection is restored
    is caught and reported through [log_when_true].  A [source_objects] of
    [None] raises TypeError at the loop, after the selection was read and
    the target checked, and the selection is not restored. *)
Theorem parent_returns_unless_sources_none
    (backend : HierarchyUtils.Backend)
    (source_objects : HierarchyUtils.sources) (target_parent : option string)
    (verbose : bool) (tr : HierarchyUtils.Trace) :
  quiet_but_select backend ->
  has_name target_parent = true ->
  (forall tr',
     HierarchyUtils.objExists backend tr'
       (HierarchyUtils.str_of target_parent) = true) ->
  match source_objects with
  | HierarchyUtils.SourceNone =>
      HierarchyUtils.parent backend source_objects target_parent verbose tr
      = (Raised (TypeError "'NoneType' object is not iterable"),
         tr ++ [HierarchyUtils.cmds_ls_selection;
                HierarchyUtils.cmds_objExists
                  (HierarchyUtils.str_of target_parent)])
  | _ =>
      exists l made,
        HierarchyUtils.parent backend source_objects target_parent verbose tr
        = (Return l, tr ++ made)
  end.
Proof.
  intros Q N X.
  destruct (has_name_str_of _ N) as (c & s & ->).
  cbn [HierarchyUtils.str_of] in *.
  unfold HierarchyUtils.parent.
  rewrite (bind_Return _ _ _
             (hcall_quiet backend HierarchyUtils.cmds_ls_selection
                (HierarchyUtils.ls_selection backend) tr
                (Q tr HierarchyUtils.cmds_ls_selection eq_refl))).
  assert (Ht : (found <-
                  HierarchyUtils.call backend
                    (HierarchyUtils.cmds_objExists (String c s))
                    (fun tr0 =>
                       HierarchyUtils.objExists backend tr0 (String c s)) ;;
                ret (negb found))
                 (tr ++ [HierarchyUtils.cmds_ls_selection])
               = (Return false,
                  (tr ++ [HierarchyUtils.cmds_ls_selection]) ++
                  [HierarchyUtils.cmds_objExists (String c s)])).
  { rewrite (bind_Return _ _ _
               (hcall_quiet backend
                  (HierarchyUtils.cmds_objExists (String c s)) _ _
                  (Q _ (HierarchyUtils.cmds_objExists (String c s))
                     eq_refl))).
    now rewrite X. }
  rewrite (bind_Return _ _ _ Ht). clear Ht.
  assert (Hc : forall children t,
            exists l made,
              (parented_objects <-
                 HierarchyUtils.parent_children backend (String c s) verbose
                   children [] ;;
               match HierarchyUtils.ls_selection backend tr with
               | [] => ret tt
               | _ :: _ =>
                   try_except
                     (HierarchyUtils.call_ backend
                        (HierarchyUtils.cmds_select
                           (HierarchyUtils.ls_selection backend tr)))
                     (fun e =>
                        HierarchyUtils.call_ backend
                          (HierarchyUtils.log_when_true
                             ("Unable to recover previous selection. Issue: "
                              ++ dquote ++ HierarchyUtils.exc_str e
                              ++ dquote ++ ".")
                             verbose (Some DEBUG)))
               end ;;;
               ret parented_objects) t
              = (Return l, t ++ made)).
  { intros children t.
    destruct (@parent_children_returns backend (String c s) verbose children
                Q [] t) as (l & made & E & _).
    rewrite (bind_Return _ _ _ E).
    destruct (HierarchyUtils.ls_selection backend tr) as [| x sel].
    - rewrite bind_ret_l. exists l, made. reflexivity.
    - unfold try_except, HierarchyUtils.call_, HierarchyUtils.call, bind, ret.
      destruct (HierarchyUtils.raises backend (t ++ made)
                  (HierarchyUtils.cmds_select (x :: sel))) as [e |].
      + rewrite (Q _ (HierarchyUtils.log_when_true _ _ _) eq_refl).
        exists l. eexists. rewrite <- !app_assoc. reflexivity.
      + exists l. eexists. rewrite <- !app_assoc. reflexivity. }
  destruct source_objects as [| [| c' s'] | l];
    unfold HierarchyUtils.children_of.
  - unfold bind, raise. rewrite <- app_assoc. reflexivity.
  - destruct (Hc [] ((tr ++ [HierarchyUtils.cmds_ls_selection]) ++
                     [HierarchyUtils.cmds_objExists (String c s)]))
      as (l & made & E).
    exists l. eexists. etransitivity; [exact E |].
    rewrite <- !app_assoc. reflexivity.
  - destruct (Hc [Some (String c' s')]
                ((tr ++ [HierarchyUtils.cmds_ls_selection]) ++
                 [HierarchyUtils.cmds_objExists (String c s)]))
      as (l & made & E).
    exists l. eexists. etransitivity; [exact E |].
    rewrite <- !app_assoc. reflexivity.
  - destruct (Hc l ((tr ++ [HierarchyUtils.cmds_ls_selection]) ++
                    [HierarchyUtils.cmds_objExists (String c s)]))
      as (l' & made & E).
    exists l'. eexists. etransitivity; [exact E |].
    rewrite <- !app_assoc. reflexivity.
Qed.

Lemma parent_returns_unless_sources_none_witness :
  quiet_but_select Sample.flat_scene /\
  has_name (Some "rig_grp") = true /\
  HierarchyUtils.parent Sample.flat_scene HierarchyUtils.SourceNone
    (Some "rig_grp") false []
  = (Raised (TypeError "'NoneType' object is not iterable"),
     [HierarchyUtils.cmds_ls_selection;
      HierarchyUtils.cmds_objExists "rig_grp"]).
Proof.
  assert (Q : quiet_but_select Sample.flat_scene).
  { intros tr c Hc. destruct c; try reflexivity. discriminate Hc. }
  split; [exact Q |]. split; [reflexivity |].
  exact (@parent_returns_unless_sources_none Sample.flat_scene
           HierarchyUtils.SourceNone (Some "rig_grp") false [] Q eq_refl
           (fun _ => eq_refl)).
Defined.

Example parent_two_children :
  HierarchyUtils.parent Sample.flat_scene
    (HierarchyUtils.SourceSeq [Some "hip_jnt"; None; Some "chest_jnt"])
    (Some "rig_grp") false []
  = (Return ["hip_jnt"; "chest_jnt"],
     [HierarchyUtils.cmds_ls_selection;
      HierarchyUtils.cmds_objExists "rig_grp";
      HierarchyUtils.cmds_objExists "hip_jnt";
      HierarchyUtils.cmds_listRelatives "hip_jnt";
      HierarchyUtils.cmds_parent "hip_jnt" "rig_grp";
      HierarchyUtils.log_when_true
        (HierarchyUtils.missing_source None "rig_grp") false None;
      HierarchyUtils.cmds_objExists "chest_jnt";
      HierarchyUtils.cmds_listRelatives "chest_jnt";
      HierarchyUtils.cmds_parent "chest_jnt" "rig_grp";
      HierarchyUtils.cmds_select ["pCube1"];
      HierarchyUtils.log_when_true
        ("Unable to recover previous selection. Issue: " ++ dquote
         ++ "No object matches name" ++ dquote ++ ".")
        false (Some DEBUG)]).
Proof. vm_compute. reflexivity. Qed.

(** ** A hip with a short UUID *)

(** X20: [set_spine_num] hands UUIDs to [add_meta_parent] as strings, and
    that method takes only what [is_uuid_valid] accepts.  So when the UUID
    of the hip is one that only [is_short_uuid_valid] accepts,
    [set_spine_num(0)] removes the spines and leaves the meta parent of
    the chest as it was (the UUID of a spine that is gone) instead of the
    hip. *)
Theorem set_spine_num_short_hip_uuid `{Externals} (m : ModuleSpine.t)
    (w : World) :
  is_uuid_valid (Proxy.uuid (ModuleSpine.hip m)) = false ->
  ModuleSpine.spines m <> [] ->
  exists m',
    ModuleSpine.set_spine_num 0 m w = (Return m', w) /\
    ModuleSpine.spines m' = [] /\
    ModuleSpine.proxies m' = [ModuleSpine.hip m; ModuleSpine.chest m'] /\
    Proxy.get_meta_parent_uuid (ModuleSpine.chest m')
    = Proxy.get_meta_parent_uuid (ModuleSpine.chest m).
Proof.
  intros V Ne.
  destruct (set_spine_num_run m 0 w) as (m' & w' & E & _ & _ & R & _ & S).
  cbv zeta in *.
  assert (L : length (ModuleSpine.spines m) <> 0).
  { destruct (ModuleSpine.spines m); [contradiction | discriminate]. }
  destruct S as (Sp & ->); [lia |].
  specialize (R ltac:(lia)).
  change (py_slice_to 0 (ModuleSpine.spines m)) with (@nil Proxy.t) in Sp.
  rewrite Sp in R.
  exists m'. split; [exact E |]. split; [exact Sp |].
  rewrite R. unfold relink_chest, ModuleSpine.refresh_proxies_list,
    ModuleSpine.proxies, last_uuid, Proxy.get_uuid.
  cbn [ModuleSpine.hip ModuleSpine.spines ModuleSpine.chest ModuleSpine.base
       ModuleSpine.with_base ModuleSpine.with_chest ModuleSpine.with_spines
       ModuleGeneric.proxies ModuleGeneric.with_proxies rev app].
  split; [reflexivity |].
  unfold Proxy.add_meta_parent. rewrite V.
  apply get_meta_parent_or_empty.
Qed.

Lemma set_spine_num_short_hip_uuid_witness :
  @is_uuid_valid Sample.externals
    (Proxy.uuid (ModuleSpine.hip Sample.short_hip_spine)) = false /\
  ModuleSpine.spines Sample.short_hip_spine <> [] /\
  exists m',
    @ModuleSpine.set_spine_num Sample.externals 0 Sample.short_hip_spine
      Sample.world0
    = (Return m', Sample.world0) /\
    @Proxy.get_meta_parent_uuid Sample.externals (ModuleSpine.chest m')
    <> PyStr "ab".
Proof.
  split; [reflexivity |]. split; [discriminate |].
  destruct (@set_spine_num_short_hip_uuid Sample.externals
              Sample.short_hip_spine Sample.world0 eq_refl
              ltac:(discriminate))
    as (m' & E & _ & _ & M).
  exists m'. split; [exact E |].
  rewrite M. vm_compute. discriminate.
Defined.
